(** * core.fs.local: the local file system's transfer planner and executor

    A shallow embedding of [src/core/fs/local/__init__.py]: the metadata
    queries, the lazy planners for move, copy, delete and trash, the bodies of
    the Tasks they yield, and [CopyFile.__call__].

    Conventions.
    - A Python call either returns or raises: [outcome].
    - The host (operating system, platform dependent path syntax) is a record
      of oracles, [Host]: what the disk answers at one moment. A [World]
      says how an OS call that was accepted changes these answers.
    - A Task body is run in the writer/error monad [M]: the trace of OS calls
      and notifications it performs, and how it ends.
    - A generator object is a [resumption]: it has ended, or it hands out a
      Task and waits to be advanced on the disk as it is by then. Calling a
      generator function never raises; its body runs only when the generator
      is advanced. [for task in plan: task()] is [for_each_task]: every
      advance reads the disk the Tasks run so far have left.
    - A plan that is only looked at, with no Task run in between, is the
      list of Tasks the generator yields followed by the way it ends
      (exhausted, or an exception raised by the body): [generator]. *)

From Stdlib Require Import String Ascii List ZArith Lia Bool Arith.
Import ListNotations.
Local Open Scope string_scope.
Local Open Scope list_scope.

Set Implicit Arguments.
Set Warnings "-register-all".

(** ** Exceptions *)

(** [errno] classes of [OSError] that the code tells apart. Python maps
    ENOENT to [FileNotFoundError], EEXIST to [FileExistsError], EISDIR to
    [IsADirectoryError]. *)
Inductive oserror : Type :=
| ENOENT | EEXIST | EISDIR | ENOTDIR | ENOTEMPTY | EACCES | EIO.

Inductive exn : Type :=
| OSError (e : oserror)
| UnsupportedOperation
| ValueError (msg : string)
| Canceled
| RecursionError.

Abbreviation FileNotFoundError := (OSError ENOENT).
Abbreviation FileExistsError := (OSError EEXIST).
Abbreviation IsADirectoryError := (OSError EISDIR).

(** [except FileNotFoundError] catches exactly this. *)
Definition is_FileNotFoundError (e : exn) : bool :=
  match e with
  | OSError ENOENT => true
  | _ => false
  end.

Inductive outcome (A : Type) : Type :=
| Return (a : A)
| Raise (e : exn).
Arguments Return {A} a.
Arguments Raise {A} e.

Definition obind {A B} (o : outcome A) (k : A -> outcome B) : outcome B :=
  match o with
  | Return a => k a
  | Raise e => Raise e
  end.

(** ** fman.url *)

Module url.

(** What follows a leading separator [://], if [u] starts with one. *)
Definition after_separator (u : string) : option string :=
  match u with
  | String a (String b (String c p)) =>
      if Ascii.eqb a ":"%char && Ascii.eqb b "/"%char && Ascii.eqb c "/"%char
      then Some p else None
  | _ => None
  end.

(** Modelled from the spec: a Path is [scheme://path]; [fman.url] is a library
    outside this repository. [splitscheme url] cuts [url] after the first
    separator and raises [ValueError] when there is none. *)
Fixpoint splitscheme (u : string) : outcome (string * string) :=
  match u with
  | EmptyString => Raise (ValueError "Not a valid URL")
  | String c rest =>
      match after_separator u with
      | Some p => Return ("://", p)
      | None => match splitscheme rest with
                | Return (s, p) => Return (String c s, p)
                | Raise e => Raise e
                end
      end
  end.

(** [s.rsplit('/', 1)[-1]]: what follows the last slash of [s]. *)
Fixpoint rsplit_last_from (acc s : string) : string :=
  match s with
  | EmptyString => acc
  | String c rest =>
      if Ascii.eqb c "/"%char then rsplit_last_from "" rest
      else rsplit_last_from (acc ++ String c "") rest
  end.
Definition rsplit_last (s : string) : string := rsplit_last_from "" s.

(** [s[:s.rfind('/') + 1]]: [s] up to and including its last slash, the
    empty string when it has none. *)
Fixpoint upto_last_slash_from (seen pending s : string) : string :=
  match s with
  | EmptyString => seen
  | String c rest =>
      if Ascii.eqb c "/"%char
      then upto_last_slash_from (seen ++ pending ++ "/") "" rest
      else upto_last_slash_from seen (pending ++ String c "") rest
  end.
Definition upto_last_slash (s : string) : string :=
  upto_last_slash_from "" "" s.

(** [s.rstrip('/')]. *)
Fixpoint rstrip_slashes (s : string) : string :=
  match s with
  | EmptyString => EmptyString
  | String c rest =>
      match rstrip_slashes rest with
      | EmptyString =>
          if Ascii.eqb c "/"%char then EmptyString else String c EmptyString
      | stripped => String c stripped
      end
  end.

(** The parent of a slash separated path, as [posixpath.dirname] has it:
    what precedes the last slash, and the slashes themselves when nothing
    else precedes it, so that the parent of [/moved] is [/]. *)
Definition parent (p : string) : string :=
  let head := upto_last_slash p in
  if String.eqb (rstrip_slashes head) "" then head else rstrip_slashes head.

Definition path_of (u : string) : string :=
  match splitscheme u with
  | Return (_, p) => p
  | Raise _ => u
  end.

Definition scheme_of (u : string) : string :=
  match splitscheme u with
  | Return (s, _) => s
  | Raise _ => ""
  end.

(** Modelled from the spec: the last component of the URL's path. Every call
    in the source follows a successful [splitscheme] of the same URL. *)
Definition basename (u : string) : string := rsplit_last (path_of u).

(** Modelled from the spec: the URL of the parent directory; for an entry
    directly under the root it is the root. *)
Definition dirname (u : string) : string :=
  scheme_of u ++ parent (path_of u).

(** Modelled from the spec: [src/child]. *)
Definition join (u name : string) : string := u ++ "/" ++ name.

End url.
Import url.

(** ** The host *)

Record stat_result : Type := {
  st_mode : Z;
  st_ino : Z;
  st_dev : Z;
  st_size : Z;
  st_mtime : Z
}.

(** [stat.S_ISDIR]: [(mode & 0o170000) == 0o040000]. *)
Definition S_IFMT (mode : Z) : Z := Z.land mode 61440.
Definition S_IFDIR : Z := 16384.
Definition S_ISDIR (mode : Z) : bool := Z.eqb (S_IFMT mode) S_IFDIR.

(** [os.path.samestat]. *)
Definition samestat (s1 s2 : stat_result) : bool :=
  Z.eqb (st_ino s1) (st_ino s2) && Z.eqb (st_dev s1) (st_dev s2).

Definition bytes := list Byte.byte.

(** The mutating OS calls of the module, each on the strings it is given. *)
Inductive oscall : Type :=
| os_replace (src dst : string)          (* Path(src).replace(dst) *)
| os_remove (p : string)
| os_rmdir (p : string)
| os_mkdir (p : string)
| os_touch (p : string) (exist_ok : bool)
| os_symlink (target dst : string)
| os_open_rb (p : string)
| os_open_wb (p : string)
| os_read (p : string) (n : Z)
| os_write (p : string) (buf : bytes)
| os_copystat (src dst : string) (follow_symlinks : bool)
| os_move_to_trash (p : string).

Inductive notification : Type :=
| file_added (path : string)
| file_removed (path : string)
| file_changed (path : string).

Inductive event : Type :=
| Sys (c : oscall)
| Notify (n : notification)
| Progress (n : Z).

Record Host : Type := {
  (* fman.url.as_human_readable, platform dependent *)
  as_human_readable : string -> string;
  (* os.path.isabs *)
  isabs : string -> bool;
  os_stat : string -> stat_result + oserror;
  os_listdir : string -> list string + oserror;
  (* os.path.islink never raises *)
  islink : string -> bool;
  os_readlink : string -> string + oserror;
  (* the bytes a file opened for reading delivers *)
  os_content : string -> bytes;
  (* whether a mutating call fails *)
  os_fails : oscall -> option oserror
}.

Definition of_os {A} (r : A + oserror) : outcome A :=
  match r with
  | inl a => Return a
  | inr e => Raise (OSError e)
  end.

(** ** Task bodies: traces *)

Definition M (A : Type) : Type := (list event * outcome A)%type.

Definition ret {A} (a : A) : M A := ([], Return a).
Definition throw {A} (e : exn) : M A := ([], Raise e).
Definition bind {A B} (m : M A) (k : A -> M B) : M B :=
  match m with
  | (tr, Return a) => let (tr', r) := k a in (tr ++ tr', r)
  | (tr, Raise e) => (tr, Raise e)
  end.
Definition lift {A} (o : outcome A) : M A := ([], o).
Definition emit (e : event) : M unit := ([e], Return tt).

Declare Scope trace_scope.
Delimit Scope trace_scope with trace.
Notation "x <- c ;; k" := (bind c (fun x => k))
  (at level 100, c at next level, right associativity) : trace_scope.
Notation "c ;; k" := (bind c (fun _ => k))
  (at level 100, right associativity) : trace_scope.

Definition trace_of {A} (m : M A) : list event := fst m.
Definition result_of {A} (m : M A) : outcome A := snd m.

Definition catch {A} (m : M A) (handler : exn -> option (M A)) : M A :=
  match m with
  | (tr, Raise e) =>
      match handler e with
      | Some (tr', r) => (tr ++ tr', r)
      | None => m
      end
  | _ => m
  end.

(** ** Tasks and generators *)

Inductive delete_fn : Type := rmdir | remove.

(** What a Task calls: [fn] with [args], or [CopyFile.__call__]. *)
Inductive callable : Type :=
| fn_rename (src_url dst_url : string)
| fn_mkdir (path : string)
| fn_delete (path : string)
| fn_do_delete (path : string) (f : delete_fn)
| fn_do_trash (path os_path : string)
| fn_CopyFile (src_url dst_url : string).

(** [fman.Task(title, size=0, fn, args)]. *)
Record Task : Type := {
  title : string;
  size : Z;
  fn : callable
}.

(** A plan that is looked at: the Tasks a generator yields when it is
    advanced to its end with no Task run in between, then [None] when it is
    exhausted or [Some e] when its body raises [e]. The planners of
    [LocalFileSystem] below are given in this form; the generators that are
    run, Task by Task, follow the class as [prepare_delete_gen] and the
    like. *)
Definition generator : Type := (list Task * option exn)%type.

Definition gen_done : generator := ([], None).
Definition gen_raise (e : exn) : generator := ([], Some e).
Definition gen_yield (t : Task) (g : generator) : generator :=
  (t :: fst g, snd g).

(** [yield from g1] followed by the rest of the body, [g2]. *)
Definition gen_seq (g1 g2 : generator) : generator :=
  match snd g1 with
  | None => (fst g1 ++ fst g2, snd g2)
  | Some e => g1
  end.

Definition gen_bind {A} (o : outcome A) (k : A -> generator) : generator :=
  match o with
  | Return a => k a
  | Raise e => gen_raise e
  end.

(** [try: yield from g / except FileNotFoundError: pass]. *)
Definition gen_except_FileNotFoundError (g : generator) : generator :=
  match snd g with
  | Some e => if is_FileNotFoundError e then (fst g, None) else g
  | None => g
  end.

(** [for name in names: try: yield from plan(name) except FileNotFoundError:
    pass]. *)
Fixpoint for_each_child (plan : string -> generator) (names : list string)
  : generator :=
  match names with
  | [] => gen_done
  | name :: rest =>
      gen_seq (gen_except_FileNotFoundError (plan name))
              (for_each_child plan rest)
  end.

(** Calling a generator function: the body does not run yet. *)
Definition call_generator (body : generator) : outcome generator :=
  Return body.

(** ** File reads *)

Definition CHUNK : nat := 16 * 1024.

(** The successive non-empty results of [fsrc.read(n)] on a file holding
    [l]: [cur] collects (reversed) the chunk being filled, [room] is what it
    still takes. *)
Fixpoint chunks_from (n room : nat) (cur : bytes) (l : bytes) : list bytes :=
  match l with
  | [] => match cur with
          | [] => []
          | _ => [rev cur]
          end
  | b :: l' =>
      match room with
      | O => rev cur :: chunks_from n (n - 1) [b] l'
      | S r => chunks_from n r (b :: cur) l'
      end
  end.
Definition chunks (l : bytes) : list bytes := chunks_from CHUNK CHUNK [] l.

Record datetime : Type := fromtimestamp { timestamp : Z }.

(** ** class LocalFileSystem *)

Section LocalFileSystem.

Variable h : Host.

Definition scheme : string := "file://".

Definition filenotfounderror (path : string) : exn := FileNotFoundError.

Definition _url_to_os_path (path : string) : string :=
  as_human_readable h (scheme ++ path).

(** [Path(p).exists()]: false when [os.stat] fails with ENOENT or ENOTDIR. *)
Definition Path_exists (p : string) : outcome bool :=
  match os_stat h p with
  | inl _ => Return true
  | inr ENOENT | inr ENOTDIR => Return false
  | inr e => Raise (OSError e)
  end.

Definition exists_ (path : string) : outcome bool :=
  let os_path := _url_to_os_path path in
  if isabs h os_path then Path_exists os_path else Return false.

Definition iterdir (path : string) : outcome (list string) :=
  let os_path := _url_to_os_path path in
  if negb (isabs h os_path) then Raise (filenotfounderror path)
  else of_os (os_listdir h os_path).

(** [@cached] is fman's: it keeps an answer until a notification for the
    path drops it. The model asks the disk at every call, which is the same
    answer unless the entry changed since it was last asked for. *)
Definition stat (path : string) : outcome stat_result :=
  let os_path := _url_to_os_path path in
  if negb (isabs h os_path) then Raise (filenotfounderror path)
  else of_os (os_stat h os_path).

Definition is_dir (existing_path : string) : outcome bool :=
  obind (stat existing_path) (fun s => Return (S_ISDIR (st_mode s))).

Definition size_bytes (path : string) : outcome Z :=
  obind (stat path) (fun s => Return (st_size s)).

Definition modified_datetime (path : string) : outcome datetime :=
  obind (stat path) (fun s => Return (fromtimestamp (st_mtime s))).

Definition samefile (path1 path2 : string) : outcome bool :=
  obind (stat path1) (fun s1 =>
  obind (stat path2) (fun s2 => Return (samestat s1 s2))).

Definition sys (c : oscall) : M unit :=
  ([Sys c], match os_fails h c with
            | None => Return tt
            | Some e => Raise (OSError e)
            end).

Definition notify_file_added (path : string) : M unit :=
  emit (Notify (file_added path)).
Definition notify_file_removed (path : string) : M unit :=
  emit (Notify (file_removed path)).

Definition touch (path : string) : M unit :=
  let os_path := _url_to_os_path path in
  if negb (isabs h os_path) then throw (ValueError "Path must be absolute")
  else
    match sys (os_touch os_path false) with
    | (tr, Return _) => ((tr, Return tt) ;; notify_file_added path)%trace
    | (tr, Raise FileExistsError) =>
        ((tr, Return tt) ;; sys (os_touch os_path true))%trace
    | m => m
    end.

Definition mkdir (path : string) : M unit :=
  let os_path := _url_to_os_path path in
  if negb (isabs h os_path) then throw (ValueError "Path must be absolute")
  else
    (catch (sys (os_mkdir os_path))
           (fun e => match e with
                     | FileNotFoundError => None
                     | IsADirectoryError => Some (throw FileExistsError)
                     | OSError _ =>
                         Some (ex <- lift (Path_exists os_path) ;;
                               if (ex : bool) then throw FileExistsError
                               else throw e)
                     | _ => None
                     end) ;;
     notify_file_added path)%trace.

Definition _check_transfer_precnds (src_url dst_url : string)
  : outcome (string * string) :=
  obind (splitscheme src_url) (fun '(src_scheme, src_path) =>
  obind (splitscheme dst_url) (fun '(dst_scheme, dst_path) =>
  if negb (String.eqb src_scheme scheme) || negb (String.eqb dst_scheme scheme)
  then Raise UnsupportedOperation
  else if negb (isabs h (_url_to_os_path dst_path))
  then Raise (ValueError "Destination path must be absolute")
  else Return (src_path, dst_path))).

Definition _rename (src_url dst_url : string) : M unit :=
  (sp <- lift (splitscheme src_url) ;;
   let src_path := snd sp in
   let os_src_path := _url_to_os_path src_path in
   dp <- lift (splitscheme dst_url) ;;
   let dst_path := snd dp in
   let os_dst_path := _url_to_os_path dst_path in
   sys (os_replace os_src_path os_dst_path) ;;
   notify_file_removed src_path ;;
   notify_file_added dst_path)%trace.

Definition _do_trash (path os_path : string) : M unit :=
  (sys (os_move_to_trash os_path) ;; notify_file_removed path)%trace.

Definition prepare_trash_body (path : string) : generator :=
  let os_path := _url_to_os_path path in
  if negb (isabs h os_path) then gen_raise (filenotfounderror path)
  else gen_yield
         {| title := "Deleting " ++ rsplit_last path; size := 1;
            fn := fn_do_trash path os_path |}
         gen_done.

Definition prepare_trash (path : string) : outcome generator :=
  call_generator (prepare_trash_body path).

Definition call_delete_fn (f : delete_fn) (path : string) : M unit :=
  match f with
  | rmdir => sys (os_rmdir path)
  | remove => sys (os_remove path)
  end.

Definition _do_delete (path : string) (f : delete_fn) : M unit :=
  (call_delete_fn f path ;; notify_file_removed path)%trace.

(** [fuel]: the depth of recursion Python still allows. *)
Fixpoint prepare_delete_body (fuel : nat) (path : string) : generator :=
  match fuel with
  | O => gen_raise RecursionError
  | S fuel' =>
      let deleting (delete_fn : delete_fn) :=
        gen_yield
          {| title := "Deleting " ++ rsplit_last path; size := 1;
             fn := fn_do_delete path delete_fn |}
          gen_done in
      gen_bind (is_dir path) (fun d =>
        if (d : bool) then
          gen_bind (iterdir path) (fun names =>
            gen_seq
              (for_each_child
                 (fun name => prepare_delete_body fuel' (path ++ "/" ++ name))
                 names)
              (deleting rmdir))
        else deleting remove)
  end.

Definition prepare_delete (fuel : nat) (path : string) : outcome generator :=
  call_generator (prepare_delete_body fuel path).

(** [Task.check_canceled] at the [poll]-th check of a run: [canceled poll] is
    the flag another thread may have set by then. *)
Definition check_canceled (canceled : nat -> bool) (poll : nat) : M unit :=
  if canceled poll then throw Canceled else ret tt.

(** The [while True] loop of [CopyFile.__call__]; [reads] are the chunks
    [fsrc.read] still has to deliver before it returns the empty buffer. *)
Fixpoint copy_stream (canceled : nat -> bool) (src dst : string)
  (poll : nat) (reads : list bytes) (num_written : Z) : M unit :=
  (check_canceled canceled poll ;;
   sys (os_read src (16 * 1024)) ;;
   match reads with
   | [] => ret tt
   | buf :: rest =>
       sys (os_write dst buf) ;;
       let num_written := (num_written + Z.of_nat (length buf))%Z in
       emit (Progress num_written) ;;
       copy_stream canceled src dst (S poll) rest num_written
   end)%trace.

Definition CopyFile (src_url dst_url : string) (size_bytes : Z) : Task :=
  {| title := "Copying " ++ basename src_url; size := size_bytes;
     fn := fn_CopyFile src_url dst_url |}.

Definition CopyFile_call (canceled : nat -> bool) (src_url dst_url : string)
  : M unit :=
  (dp <- lift (splitscheme dst_url) ;;
   let dst_urlpath := snd dp in
   dst_existed <- lift (exists_ dst_urlpath) ;;
   let src := as_human_readable h src_url in
   let dst := as_human_readable h dst_url in
   (if islink h src
    then (target <- lift (of_os (os_readlink h src)) ;;
          sys (os_symlink target dst))
    else (sys (os_open_rb src) ;;
          sys (os_open_wb dst) ;;
          copy_stream canceled src dst 0 (chunks (os_content h src)) 0)) ;;
   sys (os_copystat src dst false) ;;
   if negb dst_existed then notify_file_added dst_urlpath else ret tt)%trace.

Fixpoint _prepare_copy (fuel : nat) (src_url dst_url : string)
  (measure_size : bool) : generator :=
  match fuel with
  | O => gen_raise RecursionError
  | S fuel' =>
      gen_bind (_check_transfer_precnds src_url dst_url)
        (fun '(src_path, dst_path) =>
      gen_bind (is_dir src_path) (fun src_is_dir =>
        if (src_is_dir : bool) then
          gen_yield
            {| title := "Creating " ++ basename dst_url; size := 0;
               fn := fn_mkdir dst_path |}
            (gen_bind (iterdir src_path) (fun names =>
               for_each_child
                 (fun name =>
                    _prepare_copy fuel' (join src_url name)
                                  (join dst_url name) measure_size)
                 names))
        else
          gen_bind (if measure_size then size_bytes src_path else Return 0%Z)
            (fun size => gen_yield (CopyFile src_url dst_url size) gen_done)))
  end.

Definition _prepare_move (fuel : nat) (src_url dst_url : string)
  (measure_size : bool) : generator :=
  gen_bind (_check_transfer_precnds src_url dst_url)
    (fun '(src_path, dst_path) =>
  gen_bind (stat src_path) (fun src_stat =>
  gen_bind (splitscheme (dirname dst_url)) (fun dd =>
  gen_bind (stat (snd dd)) (fun dst_dir_stat =>
  let dst_dir_dev := st_dev dst_dir_stat in
  if Z.eqb (st_dev src_stat) dst_dir_dev then
    gen_yield
      {| title := "Moving " ++ basename src_url; size := 1;
         fn := fn_rename src_url dst_url |}
      gen_done
  else
    gen_seq (_prepare_copy fuel src_url dst_url measure_size)
      (gen_yield
         {| title := "Postprocessing " ++ basename src_url; size := 0;
            fn := fn_delete src_path |}
         gen_done))))).

Definition prepare_move (fuel : nat) (src_url dst_url : string)
  : outcome generator :=
  obind (_check_transfer_precnds src_url dst_url) (fun _ =>
  Return (_prepare_move fuel src_url dst_url true)).

Definition prepare_copy (fuel : nat) (src_url dst_url : string)
  : outcome generator :=
  obind (_check_transfer_precnds src_url dst_url) (fun _ =>
  Return (_prepare_copy fuel src_url dst_url true)).

End LocalFileSystem.

(** ** Generators at run time

    A generator that is run hands out a Task, the caller runs it, and the
    generator goes on from its [yield] on the disk as that Task left it. *)

(** How an OS call that was accepted changes what the host answers. *)
Class World : Type := after : Host -> oscall -> Host.

(** A generator object: exhausted, stopped by an exception of its body, or
    suspended at a [yield]; [resume] is the rest of the body, which reads
    the disk it is advanced on. *)
Inductive resumption : Type :=
| Done
| Raised (e : exn)
| Yield (t : Task) (resume : Host -> resumption).

Definition res_bind {A} (o : outcome A) (k : A -> resumption) : resumption :=
  match o with
  | Return a => k a
  | Raise e => Raised e
  end.

(** [yield from r] followed by the rest of the body, [k]: [r] is a generator
    that was advanced on disk [h]; [k] starts on the disk as it is when [r]
    is exhausted. With [except_FileNotFoundError] the [yield from] stands in
    [try: ... except FileNotFoundError: pass]. *)
Fixpoint yield_from (except_FileNotFoundError : bool) (r : resumption)
  (h : Host) (k : Host -> resumption) : resumption :=
  match r with
  | Done => k h
  | Raised e =>
      if except_FileNotFoundError && is_FileNotFoundError e then k h
      else Raised e
  | Yield t resume =>
      Yield t (fun h' => yield_from except_FileNotFoundError (resume h') h' k)
  end.

(** [for name in names: try: yield from plan(name) except FileNotFoundError:
    pass], advanced on disk [h]. *)
Fixpoint for_each_child_gen (plan : string -> Host -> resumption)
  (names : list string) (h : Host) : resumption :=
  match names with
  | [] => Done
  | name :: rest =>
      yield_from true (plan name h) h (for_each_child_gen plan rest)
  end.

(** The generator [prepare_trash(path)], first advanced on disk [h]. *)
Definition prepare_trash_gen (path : string) (h : Host) : resumption :=
  let os_path := _url_to_os_path h path in
  if negb (isabs h os_path) then Raised (filenotfounderror path)
  else Yield
         {| title := "Deleting " ++ rsplit_last path; size := 1;
            fn := fn_do_trash path os_path |}
         (fun _ => Done).

(** The generator [prepare_delete(path)], first advanced on disk [h]. *)
Fixpoint prepare_delete_gen (fuel : nat) (path : string) (h : Host)
  : resumption :=
  match fuel with
  | O => Raised RecursionError
  | S fuel' =>
      let deleting (delete_fn : delete_fn) (_ : Host) :=
        Yield
          {| title := "Deleting " ++ rsplit_last path; size := 1;
             fn := fn_do_delete path delete_fn |}
          (fun _ => Done) in
      res_bind (is_dir h path) (fun d =>
        if (d : bool) then
          res_bind (iterdir h path) (fun names =>
            yield_from false
              (for_each_child_gen
                 (fun name => prepare_delete_gen fuel' (path ++ "/" ++ name))
                 names h)
              h (deleting rmdir))
        else deleting remove h)
  end.

(** The generator [_prepare_copy(src_url, dst_url, measure_size)], first
    advanced on disk [h]. The source directory is listed after the [yield]
    of its creation Task. *)
Fixpoint _prepare_copy_gen (fuel : nat) (src_url dst_url : string)
  (measure_size : bool) (h : Host) : resumption :=
  match fuel with
  | O => Raised RecursionError
  | S fuel' =>
      res_bind (_check_transfer_precnds h src_url dst_url)
        (fun '(src_path, dst_path) =>
      res_bind (is_dir h src_path) (fun src_is_dir =>
        if (src_is_dir : bool) then
          Yield
            {| title := "Creating " ++ basename dst_url; size := 0;
               fn := fn_mkdir dst_path |}
            (fun h' =>
               res_bind (iterdir h' src_path) (fun names =>
                 for_each_child_gen
                   (fun name =>
                      _prepare_copy_gen fuel' (join src_url name)
                                        (join dst_url name) measure_size)
                   names h'))
        else
          res_bind (if measure_size then size_bytes h src_path
                    else Return 0%Z)
            (fun size =>
               Yield (CopyFile src_url dst_url size) (fun _ => Done))))
  end.

(** The generator [_prepare_move(src_url, dst_url, measure_size)], first
    advanced on disk [h]. *)
Definition _prepare_move_gen (fuel : nat) (src_url dst_url : string)
  (measure_size : bool) (h : Host) : resumption :=
  res_bind (_check_transfer_precnds h src_url dst_url)
    (fun '(src_path, dst_path) =>
  res_bind (stat h src_path) (fun src_stat =>
  res_bind (splitscheme (dirname dst_url)) (fun dd =>
  res_bind (stat h (snd dd)) (fun dst_dir_stat =>
  let dst_dir_dev := st_dev dst_dir_stat in
  if Z.eqb (st_dev src_stat) dst_dir_dev then
    Yield
      {| title := "Moving " ++ basename src_url; size := 1;
         fn := fn_rename src_url dst_url |}
      (fun _ => Done)
  else
    yield_from false
      (_prepare_copy_gen fuel src_url dst_url measure_size h) h
      (fun _ =>
         Yield
           {| title := "Postprocessing " ++ basename src_url; size := 0;
              fn := fn_delete src_path |}
           (fun _ => Done)))))).

(** The plan of a generator that is advanced to its end with no Task run in
    between, on a disk [h] that stays as it is. *)
Fixpoint exhaust (h : Host) (r : resumption) : generator :=
  match r with
  | Done => gen_done
  | Raised e => gen_raise e
  | Yield t resume => gen_yield t (exhaust h (resume h))
  end.

Section Running.

Context {W : World}.

(** The disk after the OS calls of [tr], where [tr] is the trace of a Task
    that returned: each of its calls was accepted. *)
Definition host_after (h : Host) (tr : list event) : Host :=
  fold_left (fun h' ev => match ev with
                          | Sys c => after h' c
                          | _ => h'
                          end) tr h.

(** [for task in r: task()] on disk [h]: the Task is called on the disk the
    generator was advanced on, and the generator is advanced again on the
    disk the Task left. A Task that raises ends the loop. *)
Fixpoint for_each_task (call : Host -> Task -> M unit) (r : resumption)
  (h : Host) : M unit :=
  match r with
  | Done => ret tt
  | Raised e => throw e
  | Yield t resume =>
      let m := call h t in
      (m ;;
       let h' := host_after h (trace_of m) in
       for_each_task call (resume h') h')%trace
  end.

(** [for task in g: task()] for a generator [g] that was not advanced yet. *)
Definition run_generator (call : Host -> Task -> M unit)
  (g : Host -> resumption) (h : Host) : M unit :=
  for_each_task call (g h) h.

(** [Task.__call__] on disk [h]; [fuel] bounds the recursion of [delete]. *)
Fixpoint call (h : Host) (canceled : nat -> bool) (fuel : nat) (t : Task)
  {struct fuel} : M unit :=
  match fn t with
  | fn_rename src_url dst_url => _rename h src_url dst_url
  | fn_mkdir path => mkdir h path
  | fn_do_delete path f => _do_delete h path f
  | fn_do_trash path os_path => _do_trash h path os_path
  | fn_CopyFile src_url dst_url => CopyFile_call h canceled src_url dst_url
  | fn_delete path =>
      match fuel with
      | O => throw RecursionError
      | S fuel' =>
          run_generator (fun h' => call h' canceled fuel')
            (prepare_delete_gen fuel' path) h
      end
  end.

Definition delete (h : Host) (canceled : nat -> bool) (fuel : nat)
  (path : string) : M unit :=
  run_generator (fun h' => call h' canceled fuel)
    (prepare_delete_gen fuel path) h.

Definition move_to_trash (h : Host) (canceled : nat -> bool) (path : string)
  : M unit :=
  run_generator (fun h' => call h' canceled 0) (prepare_trash_gen path) h.

Definition move (h : Host) (canceled : nat -> bool) (fuel : nat)
  (src_url dst_url : string) : M unit :=
  (lift (_check_transfer_precnds h src_url dst_url) ;;
   run_generator (fun h' => call h' canceled fuel)
     (_prepare_move_gen fuel src_url dst_url false) h)%trace.

Definition copy (h : Host) (canceled : nat -> bool) (fuel : nat)
  (src_url dst_url : string) : M unit :=
  (lift (_check_transfer_precnds h src_url dst_url) ;;
   run_generator (fun h' => call h' canceled fuel)
     (_prepare_copy_gen fuel src_url dst_url false) h)%trace.

End Running.

(** ** Snapshots of a directory tree

    What one planning pass sees below a path: a non-directory, a directory
    with the entries its listing names, or a listed name whose [stat] finds
    nothing any more. *)

Inductive entry : Type :=
| File (st : stat_result)
| Dir (st : stat_result) (kids : list (string * entry))
| Vanished.

Fixpoint depth (e : entry) : nat :=
  match e with
  | Dir _ kids =>
      S ((fix go (l : list (string * entry)) : nat :=
            match l with
            | [] => O
            | (_, k) :: r => Nat.max (depth k) (go r)
            end) kids)
  | _ => 1
  end.

Fixpoint count_dirs (e : entry) : nat :=
  match e with
  | Dir _ kids =>
      S ((fix go (l : list (string * entry)) : nat :=
            match l with
            | [] => O
            | (_, k) :: r => count_dirs k + go r
            end) kids)
  | _ => O
  end.

(** The host shows the snapshot [e] at URL path [path]. *)
Fixpoint observes (h : Host) (path : string) (e : entry) : Prop :=
  match e with
  | File st => stat h path = Return st /\ S_ISDIR (st_mode st) = false
  | Vanished => stat h path = Raise FileNotFoundError
  | Dir st kids =>
      stat h path = Return st /\ S_ISDIR (st_mode st) = true /\
      iterdir h path = Return (map fst kids) /\
      (fix all (l : list (string * entry)) : Prop :=
         match l with
         | [] => True
         | (n, k) :: r => observes h (path ++ "/" ++ n) k /\ all r
         end) kids
  end.

(** [child_at root names e]: following [names] down from [root] leads to
    [e]. *)
Inductive child_at : entry -> list string -> entry -> Prop :=
| child_here : forall e, child_at e [] e
| child_below : forall st kids n k names e,
    In (n, k) kids -> child_at k names e ->
    child_at (Dir st kids) (n :: names) e.

Definition join_all (u : string) (names : list string) : string :=
  fold_left join names u.

Definition creating_task (dst_url : string) : Task :=
  {| title := "Creating " ++ basename dst_url; size := 0;
     fn := fn_mkdir (path_of dst_url) |}.

(** The copy Tasks of a snapshot, directories first (pre-order). *)
Fixpoint copy_tasks (measure_size : bool) (src_url dst_url : string)
  (e : entry) : list Task :=
  match e with
  | File st =>
      [CopyFile src_url dst_url (if measure_size then st_size st else 0%Z)]
  | Vanished => []
  | Dir _ kids =>
      creating_task dst_url ::
      (fix go (l : list (string * entry)) : list Task :=
         match l with
         | [] => []
         | (n, k) :: r =>
             copy_tasks measure_size (join src_url n) (join dst_url n) k
             ++ go r
         end) kids
  end.

Definition copy_tasks_of_kids (measure_size : bool) (src_url dst_url : string)
  (kids : list (string * entry)) : list Task :=
  flat_map (fun nk => copy_tasks measure_size (join src_url (fst nk))
                        (join dst_url (fst nk)) (snd nk)) kids.

Definition is_creating (t : Task) : bool :=
  match fn t with
  | fn_mkdir _ => true
  | _ => false
  end.

Definition count_creating (ts : list Task) : nat :=
  List.length (filter is_creating ts).

(** What deleting a snapshot does, children first (post-order). *)
Fixpoint delete_trace (path : string) (e : entry) : list event :=
  match e with
  | File _ => [Sys (os_remove path); Notify (file_removed path)]
  | Vanished => []
  | Dir _ kids =>
      (fix go (l : list (string * entry)) : list event :=
         match l with
         | [] => []
         | (n, k) :: r => delete_trace (path ++ "/" ++ n) k ++ go r
         end) kids
      ++ [Sys (os_rmdir path); Notify (file_removed path)]
  end.

Definition moving_task (src_url dst_url : string) : Task :=
  {| title := "Moving " ++ basename src_url; size := 1;
     fn := fn_rename src_url dst_url |}.

Definition postprocessing_task (src_url src_path : string) : Task :=
  {| title := "Postprocessing " ++ basename src_url; size := 0;
     fn := fn_delete src_path |}.

(** ** Example hosts *)

Fixpoint assoc {A} (k : string) (l : list (string * A)) : option A :=
  match l with
  | [] => None
  | (k', a) :: r => if String.eqb k k' then Some a else assoc k r
  end.

Definition found {A} (o : option A) : A + oserror :=
  match o with
  | Some a => inl a
  | None => inr ENOENT
  end.

(** POSIX: the native path of [file://p] is [p]; absolute paths start with a
    slash. *)
Definition posix_human_readable (u : string) : string :=
  match splitscheme u with
  | Return (s, p) => if String.eqb s "file://" then p else u
  | Raise _ => u
  end.

Definition posix_isabs (p : string) : bool :=
  match p with
  | String "/" _ => true
  | _ => false
  end.

Definition posix_host
  (stats : list (string * stat_result))
  (listings : list (string * list string))
  (links : list (string * string))
  (contents : list (string * bytes))
  (fails : oscall -> option oserror) : Host :=
  {| as_human_readable := posix_human_readable;
     isabs := posix_isabs;
     os_stat := fun p => found (assoc p stats);
     os_listdir := fun p => found (assoc p listings);
     islink := fun p => match assoc p links with Some _ => true | None => false end;
     os_readlink := fun p => found (assoc p links);
     os_content := fun p => match assoc p contents with Some b => b | None => [] end;
     os_fails := fails |}.

Definition never_fails (c : oscall) : option oserror := None.

(** Windows: slashes become backslashes; absolute paths start with a drive. *)
Fixpoint backslashes (s : string) : string :=
  match s with
  | EmptyString => EmptyString
  | String c r =>
      String (if Ascii.eqb c "/"%char then "\"%char else c) (backslashes r)
  end.

Definition windows_human_readable (u : string) : string :=
  match splitscheme u with
  | Return (s, p) => if String.eqb s "file://" then backslashes p else u
  | Raise _ => u
  end.

Definition windows_isabs (p : string) : bool :=
  match p with
  | String _ (String ":" (String "\" _)) => true
  | _ => false
  end.

Definition windows_host
  (stats : list (string * stat_result))
  (listings : list (string * list string)) : Host :=
  {| as_human_readable := windows_human_readable;
     isabs := windows_isabs;
     os_stat := fun p => found (assoc p stats);
     os_listdir := fun p => found (assoc p listings);
     islink := fun _ => false;
     os_readlink := fun _ => inr ENOENT;
     os_content := fun _ => [];
     os_fails := never_fails |}.

Definition a_dir (dev : Z) : stat_result :=
  {| st_mode := 16877; st_ino := 2; st_dev := dev; st_size := 4096;
     st_mtime := 1700000000 |}.

Definition a_file (dev sz : Z) : stat_result :=
  {| st_mode := 33188; st_ino := 3; st_dev := dev; st_size := sz;
     st_mtime := 1700000001 |}.

(** A small POSIX disk: [/src/dir/a.txt] (10 bytes) and [/dst] on device 1,
    [/mnt] on device 2, and a symbolic link [/src/link -> a.txt]. *)
Definition example_stats : list (string * stat_result) :=
  [("/src", a_dir 1); ("/src/dir", a_dir 1); ("/src/dir/a.txt", a_file 1 10);
   ("/dst", a_dir 1); ("/mnt", a_dir 2); ("/src/link", a_file 1 10)].

Definition example_listings : list (string * list string) :=
  [("/src", ["dir"; "link"]); ("/src/dir", ["a.txt"]); ("/dst", []);
   ("/mnt", [])].

Definition example_host : Host :=
  posix_host example_stats example_listings [("/src/link", "dir/a.txt")]
    [("/src/dir/a.txt", repeat Byte.x61 10)] never_fails.

(** The URL path reached from [path] through [names]. *)
Definition descend (path : string) (names : list string) : string :=
  fold_left (fun p name => (p ++ "/" ++ name)%string) names path.

Definition removal (f : delete_fn) (p : string) : oscall :=
  match f with
  | rmdir => os_rmdir p
  | remove => os_remove p
  end.

(** A Windows disk with [C:\Users\a.txt]. *)
Definition windows_example : Host :=
  windows_host [("C:\Users", a_dir 1); ("C:\Users\a.txt", a_file 1 3)]
               [("C:\Users", ["a.txt"])].

(** What a trace wrote, in order. *)
Fixpoint written (tr : list event) : bytes :=
  match tr with
  | [] => []
  | Sys (os_write _ buf) :: r => buf ++ written r
  | _ :: r => written r
  end.

(** Opening a file for reading, or reading from it. *)
Definition reads_content (ev : event) : bool :=
  match ev with
  | Sys (os_open_rb _) | Sys (os_read _ _) => true
  | _ => false
  end.

(** The trace of the copy loop over the chunks [bufs], starting from
    [num_written] bytes. *)
Fixpoint streamed (src dst : string) (num_written : Z) (bufs : list bytes)
  : list event :=
  match bufs with
  | [] => []
  | buf :: rest =>
      let num_written := (num_written + Z.of_nat (length buf))%Z in
      Sys (os_read src (16 * 1024)) :: Sys (os_write dst buf)
      :: Progress num_written :: streamed src dst num_written rest
  end.

(** A 40000 byte file [/big] on the example disk. *)
Definition big_host : Host :=
  posix_host (("/big", a_file 1 40000) :: example_stats) example_listings []
    [("/big", repeat Byte.x61 (40 * 1000))] never_fails.

(** The flag is set between the [k]-th and the [(k+1)]-th check. *)
Definition canceled_after (k : nat) (poll : nat) : bool := Nat.ltb k poll.

(** Below an absolute path every path is absolute, as [os.path.isabs]
    has it. *)
Definition isabs_below (h : Host) : Prop :=
  forall p name,
    isabs h (_url_to_os_path h p) = true ->
    isabs h (_url_to_os_path h (p ++ "/" ++ name)) = true.

Definition deleting_task (path : string) (f : delete_fn) : Task :=
  {| title := "Deleting " ++ rsplit_last path; size := 1;
     fn := fn_do_delete path f |}.

(** The delete Tasks of a snapshot, children first (post-order). *)
Fixpoint delete_tasks (path : string) (e : entry) : list Task :=
  match e with
  | File _ => [deleting_task path remove]
  | Vanished => []
  | Dir _ kids =>
      (fix go (l : list (string * entry)) : list Task :=
         match l with
         | [] => []
         | (n, k) :: r => delete_tasks (path ++ "/" ++ n) k ++ go r
         end) kids
      ++ [deleting_task path rmdir]
  end.

Definition delete_tasks_of_kids (path : string) (kids : list (string * entry))
  : list Task :=
  flat_map (fun nk => delete_tasks (path ++ "/" ++ fst nk) (snd nk)) kids.

Definition delete_trace_of_kids (path : string) (kids : list (string * entry))
  : list event :=
  flat_map (fun nk => delete_trace (path ++ "/" ++ fst nk) (snd nk)) kids.

Definition count_dirs_of_kids (kids : list (string * entry)) : nat :=
  list_sum (map (fun nk => count_dirs (snd nk)) kids).

Definition ended (e : entry) : option exn :=
  match e with
  | Vanished => Some FileNotFoundError
  | _ => None
  end.

(** The example disk as a snapshot below [/src]. *)
Definition example_tree : entry :=
  Dir (a_dir 1)
      [("dir", Dir (a_dir 1) [("a.txt", File (a_file 1 10))]);
       ("link", File (a_file 1 10))].

(** A disk caught in a race: [/src] lists [dir], [gone] and [b.txt];
    [/src/dir] is still a directory for [stat] but its listing fails with
    ENOENT, and [/src/gone] is not found at all. *)
Definition racy_host : Host :=
  posix_host
    [("/src", a_dir 1); ("/src/dir", a_dir 1); ("/src/b.txt", a_file 1 7);
     ("/dst", a_dir 1)]
    [("/src", ["dir"; "gone"; "b.txt"])] [] [] never_fails.

(** The path arguments of an OS call (a link's target string is not one). *)
Definition path_args (c : oscall) : list string :=
  match c with
  | os_replace a b | os_copystat a b _ => [a; b]
  | os_symlink _ p
  | os_remove p | os_rmdir p | os_mkdir p | os_touch p _ | os_open_rb p
  | os_open_wb p | os_read p _ | os_write p _ | os_move_to_trash p => [p]
  end.

(** Every OS call of the trace is on paths that satisfy [ok]. *)
Definition calls_on (ok : string -> Prop) (tr : list event) : Prop :=
  Forall (fun ev => match ev with
                    | Sys c => Forall ok (path_args c)
                    | _ => True
                    end) tr.

(** ** Measures of snapshots, plans and traces *)

(** Files and directories of a snapshot. *)
Fixpoint count_entries (e : entry) : nat :=
  match e with
  | File _ => 1
  | Vanished => 0
  | Dir _ kids =>
      S ((fix go (l : list (string * entry)) : nat :=
            match l with
            | [] => O
            | (_, k) :: r => count_entries k + go r
            end) kids)
  end.

Definition count_entries_of_kids (kids : list (string * entry)) : nat :=
  list_sum (map (fun nk => count_entries (snd nk)) kids).

(** The bytes of the non-directories of a snapshot. *)
Fixpoint total_bytes (e : entry) : Z :=
  match e with
  | File st => st_size st
  | Vanished => 0
  | Dir _ kids =>
      (fix go (l : list (string * entry)) : Z :=
         match l with
         | [] => 0
         | (_, k) :: r => total_bytes k + go r
         end)%Z kids
  end.

Definition total_bytes_of_kids (kids : list (string * entry)) : Z :=
  fold_right (fun nk acc => (total_bytes (snd nk) + acc)%Z) 0%Z kids.

(** What a progress bar adds up. *)
Definition total_size (ts : list Task) : Z :=
  fold_right (fun t acc => (size t + acc)%Z) 0%Z ts.

(** A Task without its size. *)
Definition unsized (t : Task) : string * callable := (title t, fn t).

(** Calls that take an entry away from where it was. *)
Definition removes (ev : event) : bool :=
  match ev with
  | Sys (os_remove _) | Sys (os_rmdir _) | Sys (os_replace _ _)
  | Sys (os_move_to_trash _) => true
  | _ => false
  end.

Definition is_notification (ev : event) : bool :=
  match ev with
  | Notify _ => true
  | _ => false
  end.

(** Every progress report of the trace states the bytes written before it,
    counted from [num_written]. *)
Fixpoint progress_consistent (num_written : Z) (tr : list event) : Prop :=
  match tr with
  | [] => True
  | Sys (os_write _ buf) :: r =>
      progress_consistent (num_written + Z.of_nat (length buf)) r
  | Progress n :: r => n = num_written /\ progress_consistent num_written r
  | _ :: r => progress_consistent num_written r
  end.

Fixpoint no_slash (s : string) : bool :=
  match s with
  | EmptyString => true
  | String c r => negb (Ascii.eqb c "/"%char) && no_slash r
  end.

(** The example disk when the OS refuses to remove [/src/dir/a.txt]. *)
Definition locked_host : Host :=
  posix_host example_stats example_listings [("/src/link", "dir/a.txt")]
    [("/src/dir/a.txt", repeat Byte.x61 10)]
    (fun c => match c with
              | os_remove p =>
                  if String.eqb p "/src/dir/a.txt" then Some EACCES else None
              | _ => None
              end).

(** The example disk when the OS refuses every [mkdir] with EACCES. *)
Definition readonly_host : Host :=
  posix_host example_stats example_listings [] []
    (fun c => match c with
              | os_mkdir _ => Some EACCES
              | _ => None
              end).

(** A disk where [/src] lists [a.txt], [secret] and [z.txt], and [stat] of
    [/src/secret] is refused with EACCES. *)
Definition denied_host : Host :=
  {| as_human_readable := posix_human_readable;
     isabs := posix_isabs;
     os_stat := fun p =>
       if String.eqb p "/src/secret" then inr EACCES
       else found (assoc p [("/src", a_dir 1); ("/src/a.txt", a_file 1 5);
                            ("/src/z.txt", a_file 1 6); ("/dst", a_dir 1)]);
     os_listdir := fun p =>
       found (assoc p [("/src", ["a.txt"; "secret"; "z.txt"])]);
     islink := fun _ => false;
     os_readlink := fun _ => inr ENOENT;
     os_content := fun _ => [];
     os_fails := never_fails |}.

(** [path] is not there for [exists]: it is not absolute, or it is and
    [os.stat] finds no entry; [e] is the errno of that lookup. *)
Definition absent (h : Host) (path : string) (e : oserror) : Prop :=
  let os_path := _url_to_os_path h path in
  if isabs h os_path
  then os_stat h os_path = inr e /\ (e = ENOENT \/ e = ENOTDIR)
  else e = ENOENT.

(** The example disk with POSIX's answer for what lies below the regular
    file [/src/dir/a.txt]: ENOTDIR. *)
Definition below_file_host : Host :=
  {| as_human_readable := posix_human_readable;
     isabs := posix_isabs;
     os_stat := fun p =>
       if String.prefix "/src/dir/a.txt/" p then inr ENOTDIR
       else os_stat example_host p;
     os_listdir := fun p =>
       if String.prefix "/src/dir/a.txt" p then inr ENOTDIR
       else os_listdir example_host p;
     islink := islink example_host;
     os_readlink := os_readlink example_host;
     os_content := os_content example_host;
     os_fails := never_fails |}.

(** ** resolve *)

Inductive platform : Type := Windows | Mac | Linux.

(** What [resolve] needs beyond the host: the platform, [Path(p).resolve()]
    and [fman.url.as_url]. *)
Record PathLib : Type := {
  PLATFORM : platform;
  Path_resolve : string -> string + oserror;
  as_url : string -> string
}.

(** ['\\' in s]. *)
Fixpoint contains_backslash (s : string) : bool :=
  match s with
  | EmptyString => false
  | String c r => Ascii.eqb c "\"%char || contains_backslash r
  end.

(** [s.startswith(r'\\')]. *)
Definition startswith_backslashes (s : string) : bool :=
  match s with
  | String a (String b _) => Ascii.eqb a "\"%char && Ascii.eqb b "\"%char
  | _ => false
  end.

(** [s[2:]]. *)
Definition from_third (s : string) : string :=
  match s with
  | String _ (String _ r) => r
  | _ => EmptyString
  end.

Definition is_unc_server (path : string) : bool :=
  startswith_backslashes path && negb (contains_backslash (from_third path)).

Definition resolve (h : Host) (lib : PathLib) (path : string)
  : outcome string :=
  let path := _url_to_os_path h path in
  if negb (isabs h path) then Raise (filenotfounderror path)
  else if match PLATFORM lib with Windows => is_unc_server path | _ => false end
  then Return ("network://" ++ from_third path)%string
  else
    match Path_resolve lib path with
    | inl resolved => Return (as_url lib resolved)
    | inr ENOENT =>
        obind (Path_exists h path) (fun ex =>
          if (ex : bool) then Return (as_url lib path)
          else Raise FileNotFoundError)
    | inr e => Raise (OSError e)
    end.

(** A Windows host on which UNC paths are absolute as well. *)
Definition unc_host : Host :=
  {| as_human_readable := windows_human_readable;
     isabs := fun p => windows_isabs p || startswith_backslashes p;
     os_stat := fun _ => inr ENOENT;
     os_listdir := fun _ => inr ENOENT;
     islink := fun _ => false;
     os_readlink := fun _ => inr ENOENT;
     os_content := fun _ => [];
     os_fails := never_fails |}.

(** A library whose [Path.resolve] finds nothing, as Python 3.5 does on
    virtual drives. *)
Definition blind_lib (p : platform) : PathLib :=
  {| PLATFORM := p;
     Path_resolve := fun _ => inr ENOENT;
     as_url := fun p => ("file://" ++ p)%string |}.

(** A disk where [/src] holds the directory [d] with the file [f], and the
    symbolic link [l -> d]: [os.stat] and [os.listdir] follow the link. *)
Definition linked_host : Host :=
  posix_host
    [("/src", a_dir 1); ("/src/d", a_dir 1); ("/src/d/f", a_file 1 3);
     ("/src/l", a_dir 1); ("/src/l/f", a_file 1 3); ("/dst", a_dir 1)]
    [("/src", ["d"; "l"]); ("/src/d", ["f"]); ("/src/l", ["f"]); ("/dst", [])]
    [("/src/l", "d")]
    [("/src/d/f", repeat Byte.x61 3); ("/src/l/f", repeat Byte.x61 3)]
    never_fails.

(** ** Runs against a changing disk *)

(** How the run of a generator ended. *)
Inductive ending : Type :=
| Exhausted
| GeneratorRaised (e : exn)
| TaskRaised (e : exn).

Definition outcome_of (en : ending) : outcome unit :=
  match en with
  | Exhausted => Return tt
  | GeneratorRaised e | TaskRaised e => Raise e
  end.

(** A run [x] followed by the run [k] of the rest, which starts on the disk
    [x] ended on; [k] runs when [x] exhausted its generator or, with
    [except_FileNotFoundError], when that generator raised it. *)
Definition followed_by (x : list event * Host * ending)
  (except_FileNotFoundError : bool)
  (k : Host -> list event * Host * ending) : list event * Host * ending :=
  let '(tr, h, en) := x in
  let continue := let '(tr', h', en') := k h in (tr ++ tr', h', en') in
  match en with
  | Exhausted => continue
  | GeneratorRaised e =>
      if except_FileNotFoundError && is_FileNotFoundError e then continue
      else x
  | TaskRaised _ => x
  end.

(** What a generator may yield, on whatever disk it is advanced. *)
Inductive yields_only (P : Task -> Prop) : resumption -> Prop :=
| yields_only_Done : yields_only P Done
| yields_only_Raised : forall e, yields_only P (Raised e)
| yields_only_Yield : forall t resume,
    P t -> (forall h, yields_only P (resume h)) ->
    yields_only P (Yield t resume).

Section Runs.

Context {W : World}.

(** [for_each_task] with its bookkeeping: the trace, the disk at the end,
    and whether the generator or a Task ended the run. *)
Fixpoint drive (call : Host -> Task -> M unit) (r : resumption) (h : Host)
  : list event * Host * ending :=
  match r with
  | Done => ([], h, Exhausted)
  | Raised e => ([], h, GeneratorRaised e)
  | Yield t resume =>
      match call h t with
      | (tr, Return _) =>
          let h' := host_after h tr in
          let '(tr', h'', en) := drive call (resume h') h' in
          (tr ++ tr', h'', en)
      | (tr, Raise e) => (tr, h, TaskRaised e)
      end
  end.

(** Going through the calls of [full] from disk [h] for as long as the OS
    accepts them; [en] is how the run ends when it accepts them all. *)
Fixpoint replay (h : Host) (full : list event) (en : ending)
  : list event * Host * ending :=
  match full with
  | [] => ([], h, en)
  | Sys c :: full' =>
      match os_fails h c with
      | None =>
          let '(tr, h', en') := replay (after h c) full' en in
          (Sys c :: tr, h', en')
      | Some oe => ([Sys c], h, TaskRaised (OSError oe))
      end
  | ev :: full' =>
      let '(tr, h', en') := replay h full' en in (ev :: tr, h', en')
  end.

(** From disk [h] on, the OS accepts every call of [tr]. *)
Fixpoint accepted (h : Host) (tr : list event) : Prop :=
  match tr with
  | [] => True
  | Sys c :: r => os_fails h c = None /\ accepted (after h c) r
  | _ :: r => accepted h r
  end.

(** The run [m], started on disk [h], did the calls of [full] in order and
    either finished them, all accepted, or stopped at the first call the OS
    refused, raising its error. *)
Definition runs_prefix_of (h : Host) (full : list event) (m : M unit) : Prop :=
  match result_of m with
  | Return _ => trace_of m = full /\ accepted h full
  | Raise ex =>
      exists pre c oe rest,
        trace_of m = pre ++ [Sys c] /\ accepted h pre /\
        os_fails (host_after h pre) c = Some oe /\
        ex = OSError oe /\ full = pre ++ Sys c :: rest
  end.

(** What [delete] sees of the subtree at [path] while it removes it,
    starting on disk [h]: an entry is looked at when its turn has come, on
    the disk as the removal of the children listed before it has left it. *)
Fixpoint seen_while_deleting (h : Host) (path : string) (e : entry) : Prop :=
  match e with
  | File st => stat h path = Return st /\ S_ISDIR (st_mode st) = false
  | Vanished => stat h path = Raise FileNotFoundError
  | Dir st kids =>
      stat h path = Return st /\ S_ISDIR (st_mode st) = true /\
      iterdir h path = Return (map fst kids) /\
      (fix all (h' : Host) (l : list (string * entry)) : Prop :=
         match l with
         | [] => True
         | (n, k) :: r =>
             seen_while_deleting h' (path ++ "/" ++ n) k /\
             all (host_after h' (delete_trace (path ++ "/" ++ n) k)) r
         end) h kids
  end.

Definition kids_seen_while_deleting (h : Host) (path : string)
  (kids : list (string * entry)) : Prop :=
  (fix all (h' : Host) (l : list (string * entry)) : Prop :=
     match l with
     | [] => True
     | (n, k) :: r =>
         seen_while_deleting h' (path ++ "/" ++ n) k /\
         all (host_after h' (delete_trace (path ++ "/" ++ n) k)) r
     end) h kids.

End Runs.

(** How the run of a generator over a snapshot ends. *)
Definition ending_of (e : entry) : ending :=
  match e with
  | Vanished => GeneratorRaised FileNotFoundError
  | _ => Exhausted
  end.

(** ** A world for the examples *)

(** The link at [q] points to [p]; its target is resolved from the
    directory the link is in. *)
Definition link_to (h : Host) (p q : string) : bool :=
  islink h q &&
  match os_readlink h q with
  | inl target => String.eqb (parent q ++ "/" ++ target) p
  | inr _ => false
  end.

(** The disk [h] once [p] was removed: [stat] finds nothing at [p] nor
    through a link to [p], the listing of its directory lacks it, and
    [rmdir] is refused for just the directories that still list entries. *)
Definition without (h : Host) (p : string) : Host :=
  let listdir := fun d =>
    if String.eqb d p then inr ENOENT
    else match os_listdir h d with
         | inl names =>
             inl (filter (fun n => negb (String.eqb (d ++ "/" ++ n) p)) names)
         | inr e => inr e
         end in
  {| as_human_readable := as_human_readable h;
     isabs := isabs h;
     os_stat := fun q =>
       if String.eqb q p || link_to h p q then inr ENOENT else os_stat h q;
     os_listdir := listdir;
     islink := fun q => if String.eqb q p then false else islink h q;
     os_readlink := fun q =>
       if String.eqb q p then inr ENOENT else os_readlink h q;
     os_content := os_content h;
     os_fails := fun c =>
       match c with
       | os_rmdir d =>
           match listdir d with
           | inl (_ :: _) => Some ENOTEMPTY
           | _ => None
           end
       | _ => os_fails h c
       end |}.

(** The disk [h] once the directory [p] was made: [stat] finds a directory
    on the device of its parent, its listing is empty, and the listing of
    its parent names it. *)
Definition with_dir (h : Host) (p : string) : Host :=
  {| as_human_readable := as_human_readable h;
     isabs := isabs h;
     os_stat := fun q =>
       if String.eqb q p
       then match os_stat h (parent p) with
            | inl s => inl (a_dir (st_dev s))
            | inr e => inr e
            end
       else os_stat h q;
     os_listdir := fun d =>
       if String.eqb d p then inl []
       else match os_listdir h d with
            | inl names =>
                inl (if String.eqb d (parent p)
                     then names ++ [rsplit_last p] else names)
            | inr e => inr e
            end;
     islink := islink h;
     os_readlink := os_readlink h;
     os_content := os_content h;
     os_fails := os_fails h |}.

(** A world for the examples, with the three changes they need: [remove]
    and [rmdir] take the entry away and [mkdir] makes an empty directory.
    The other calls leave the answers of [stat] and [listdir] as they
    were. *)
Definition example_world : World :=
  fun h c =>
    match c with
    | os_remove p | os_rmdir p => without h p
    | os_mkdir p => with_dir h p
    | _ => h
    end.

(** The example disk as [delete] of [/src] sees it in [example_world]: by
    the time it comes to [/src/link], the link dangles. *)
Definition example_tree_while_deleting : entry :=
  Dir (a_dir 1)
      [("dir", Dir (a_dir 1) [("a.txt", File (a_file 1 10))]);
       ("link", Vanished)].

(** The example disk with the root directory, on device 1. *)
Definition root_host : Host :=
  posix_host (("/", a_dir 1) :: example_stats)
    (("/", ["src"; "dst"; "mnt"]) :: example_listings)
    [("/src/link", "dir/a.txt")]
    [("/src/dir/a.txt", repeat Byte.x61 10)] never_fails.

(** * Properties *)

(** ** URLs *)

Lemma after_separator_Some u p :
  after_separator u = Some p -> u = ("://" ++ p)%string.
Proof.
  destruct u as [|a [|b [|c r]]]; simpl; try discriminate.
  destruct (Ascii.eqb a ":") eqn:Ha; simpl; try discriminate.
  destruct (Ascii.eqb b "/") eqn:Hb; simpl; try discriminate.
  destruct (Ascii.eqb c "/") eqn:Hc; simpl; try discriminate.
  apply Ascii.eqb_eq in Ha, Hb, Hc. subst. intros [= ->]. reflexivity.
Qed.

Lemma after_separator_app u p x :
  after_separator u = Some p -> after_separator (u ++ x)%string = Some (p ++ x)%string.
Proof.
  intros H. apply after_separator_Some in H. subst u. reflexivity.
Qed.

Lemma splitscheme_app u s p :
  splitscheme u = Return (s, p) -> u = (s ++ p)%string.
Proof.
  revert s p. induction u as [|c r IH]; intros s p; [discriminate|].
  cbn [splitscheme].
  destruct (after_separator (String c r)) as [q|] eqn:Hq.
  - intros [= <- <-]. now apply after_separator_Some.
  - destruct (splitscheme r) as [[s' p']|e]; [|discriminate].
    intros [= <- <-]. simpl. f_equal. now apply IH.
Qed.

Lemma splitscheme_extend u s p x :
  splitscheme u = Return (s, p) ->
  splitscheme (u ++ x)%string = Return (s, (p ++ x)%string).
Proof.
  revert s p. induction u as [|c r IH]; intros s p; [discriminate|].
  cbn [splitscheme append].
  change (String c (r ++ x)%string) with (String c r ++ x)%string.
  destruct (after_separator (String c r)) as [q|] eqn:Hq.
  - intros [= <- <-]. now rewrite (after_separator_app _ x Hq).
  - destruct (splitscheme r) as [[s' p']|e] eqn:Hr; [|discriminate].
    intros [= <- <-].
    assert (Hn : after_separator (String c r ++ x)%string = None).
    { destruct r as [|b [|d r']].
      - discriminate Hr.
      - discriminate Hr.
      - cbn in Hq |- *.
        destruct (Ascii.eqb c ":" && Ascii.eqb b "/" && Ascii.eqb d "/");
          [discriminate Hq | reflexivity]. }
    rewrite Hn. cbn [append]. now rewrite (IH _ _ eq_refl).
Qed.

Lemma splitscheme_join u s p name :
  splitscheme u = Return (s, p) ->
  splitscheme (join u name) = Return (s, (p ++ "/" ++ name)%string).
Proof. apply splitscheme_extend. Qed.

(** ** The precondition check *)

Lemma string_eqb_false_iff (a b : string) : String.eqb a b = false <-> a <> b.
Proof.
  split.
  - intros H E. apply String.eqb_eq in E. congruence.
  - intros H. destruct (String.eqb a b) eqn:E; [|reflexivity].
    apply String.eqb_eq in E. contradiction.
Qed.

(** C3 (amended): for URLs that split into scheme and path, the transfer
    precondition check raises UnsupportedOperation exactly when the source's
    or the destination's scheme is not the file system's own scheme
    [file://]; in particular it raises it whenever the two schemes differ. *)
Theorem check_transfer_precnds_unsupported
  h src_url dst_url src_scheme src_path dst_scheme dst_path :
  splitscheme src_url = Return (src_scheme, src_path) ->
  splitscheme dst_url = Return (dst_scheme, dst_path) ->
  (src_scheme <> dst_scheme ->
   _check_transfer_precnds h src_url dst_url = Raise UnsupportedOperation) /\
  (_check_transfer_precnds h src_url dst_url = Raise UnsupportedOperation <->
   src_scheme <> scheme \/ dst_scheme <> scheme).
Proof.
  intros Hs Hd.
  assert (Hiff : _check_transfer_precnds h src_url dst_url
                 = Raise UnsupportedOperation <->
                 src_scheme <> scheme \/ dst_scheme <> scheme).
  { unfold _check_transfer_precnds. rewrite Hs, Hd. cbn [obind].
    destruct (String.eqb src_scheme scheme) eqn:E1;
      destruct (String.eqb dst_scheme scheme) eqn:E2; cbn [negb orb].
    - apply String.eqb_eq in E1, E2. split.
      + destruct (negb (isabs h (_url_to_os_path h dst_path))); discriminate.
      + intros [H|H]; contradiction.
    - apply string_eqb_false_iff in E2. split; auto.
    - apply string_eqb_false_iff in E1. split; auto.
    - apply string_eqb_false_iff in E1. split; auto. }
  split; [|exact Hiff].
  intros Hne. apply Hiff.
  destruct (string_dec src_scheme scheme) as [E|E]; [|now left].
  right. congruence.
Qed.

Lemma check_transfer_precnds_unsupported_witness :
  _check_transfer_precnds example_host "file:///src" "zip:///dst"
  = Raise UnsupportedOperation.
Proof.
  apply (proj1 (check_transfer_precnds_unsupported example_host
                  "file:///src" "zip:///dst" eq_refl eq_refl)).
  discriminate.
Defined.

(** C3 as stated fails: both URLs have the scheme [zip://], and the check
    raises UnsupportedOperation all the same. *)
Lemma equal_schemes_still_unsupported :
  scheme_of "zip:///src" = scheme_of "zip:///dst" /\
  _check_transfer_precnds example_host "zip:///src" "zip:///dst"
  = Raise UnsupportedOperation.
Proof. split; reflexivity. Qed.

(** ** Metadata queries *)

Lemma stat_not_found h path :
  isabs h (_url_to_os_path h path) = false \/
  os_stat h (_url_to_os_path h path) = inr ENOENT ->
  stat h path = Raise FileNotFoundError.
Proof.
  unfold stat. intros [H|H].
  - now rewrite H.
  - rewrite H. now destruct (isabs h (_url_to_os_path h path)).
Qed.

(** C4 (amended): on a path that [exists] reports absent, because it is not
    absolute or because [os.stat] finds no entry there, [exists] raises
    nothing, and [is_dir], [size_bytes], [modified_datetime] and [samefile]
    (in either argument) raise the error of the lookup: FileNotFoundError
    for a path that is not absolute or that has no entry (ENOENT),
    NotADirectoryError for a path below something that is not a directory
    (ENOTDIR). *)
Theorem metadata_queries_not_found h path :
  exists_ h path = Return false ->
  exists e,
    absent h path e /\
    is_dir h path = Raise (OSError e) /\
    size_bytes h path = Raise (OSError e) /\
    modified_datetime h path = Raise (OSError e) /\
    (forall other, samefile h path other = Raise (OSError e)) /\
    (forall other s, stat h other = Return s ->
                     samefile h other path = Raise (OSError e)).
Proof.
  unfold exists_, Path_exists, absent. intros H.
  assert (Hq : forall e, stat h path = Raise (OSError e) ->
    is_dir h path = Raise (OSError e) /\
    size_bytes h path = Raise (OSError e) /\
    modified_datetime h path = Raise (OSError e) /\
    (forall other, samefile h path other = Raise (OSError e)) /\
    (forall other s, stat h other = Return s ->
                     samefile h other path = Raise (OSError e))).
  { intros e Hs. unfold is_dir, size_bytes, modified_datetime, samefile.
    rewrite Hs. cbn [obind]. repeat split.
    intros other s Ho. now rewrite Ho. }
  unfold stat in Hq.
  destruct (isabs h (_url_to_os_path h path)) eqn:Ha; cbn [negb] in Hq.
  - destruct (os_stat h (_url_to_os_path h path)) as [s|e] eqn:Hs;
      [discriminate H|].
    exists e. split; [|now apply Hq].
    split; [reflexivity|]. destruct e; try discriminate H; auto.
  - exists ENOENT. split; [reflexivity | now apply Hq].
Qed.

Lemma metadata_queries_not_found_witness :
  is_dir example_host "/src/missing" = Raise FileNotFoundError /\
  size_bytes example_host "src/dir" = Raise FileNotFoundError /\
  is_dir below_file_host "/src/dir/a.txt/x" = Raise (OSError ENOTDIR).
Proof.
  destruct (metadata_queries_not_found example_host "/src/missing" eq_refl)
    as (e1 & [H1 _] & Hdir & _).
  destruct (metadata_queries_not_found example_host "src/dir" eq_refl)
    as (e2 & H2 & _ & Hsize & _).
  destruct (metadata_queries_not_found below_file_host "/src/dir/a.txt/x"
              eq_refl) as (e3 & [H3 _] & Hbelow & _).
  cbv in H1, H2, H3.
  injection H1 as <-. subst e2. injection H3 as <-.
  split; [exact Hdir|]. split; [exact Hsize | exact Hbelow].
Defined.

(** The cases of the theorem are exactly those where [exists] returns
    False. *)
Lemma exists_false_iff_absent h path :
  exists_ h path = Return false <-> exists e, absent h path e.
Proof.
  unfold exists_, Path_exists, absent.
  destruct (isabs h (_url_to_os_path h path)).
  - split.
    + destruct (os_stat h (_url_to_os_path h path)) as [s|e];
        [discriminate|].
      intros H. exists e. split; [reflexivity|].
      destruct e; try discriminate H; auto.
    + intros (e & -> & [-> | ->]); reflexivity.
  - split; [now exists ENOENT | reflexivity].
Qed.

(** C4 as stated fails for [exists]: on a relative path and on a missing
    absolute path it returns False and raises nothing. It also fails for the
    other queries on an absolute path below a regular file, which does not
    exist either: they raise NotADirectoryError, which is not
    FileNotFoundError. *)
Lemma exists_returns_false_instead_of_raising :
  (isabs example_host (_url_to_os_path example_host "src/dir") = false /\
   exists_ example_host "src/dir" = Return false /\
   exists_ example_host "src/dir" <> Raise FileNotFoundError) /\
  (os_stat example_host (_url_to_os_path example_host "/src/missing")
   = inr ENOENT /\
   exists_ example_host "/src/missing" = Return false /\
   exists_ example_host "/src/missing" <> Raise FileNotFoundError) /\
  (isabs below_file_host (_url_to_os_path below_file_host "/src/dir/a.txt/x")
   = true /\
   exists_ below_file_host "/src/dir/a.txt/x" = Return false /\
   is_dir below_file_host "/src/dir/a.txt/x" = Raise (OSError ENOTDIR) /\
   size_bytes below_file_host "/src/dir/a.txt/x" <> Raise FileNotFoundError /\
   samefile below_file_host "/src/dir/a.txt/x" "/src"
   <> Raise FileNotFoundError).
Proof. repeat split; discriminate. Qed.

(** ** Where precondition failures surface *)

(** C2 (amended): when the transfer precondition check raises [e], the calls
    [prepare_move], [prepare_copy], [move] and [copy] raise [e] themselves,
    with nothing done; on a path that is not absolute [delete] and
    [move_to_trash] raise FileNotFoundError with nothing done. [prepare_trash]
    and [prepare_delete] are generator functions: the call returns a
    generator, and the failure is raised when the generator is first
    advanced, before it yields any Task. *)
Theorem precondition_failures_before_any_task {W : World}
  h canceled fuel src_url dst_url e path :
  _check_transfer_precnds h src_url dst_url = Raise e ->
  isabs h (_url_to_os_path h path) = false ->
  prepare_move h fuel src_url dst_url = Raise e /\
  prepare_copy h fuel src_url dst_url = Raise e /\
  move h canceled fuel src_url dst_url = ([], Raise e) /\
  copy h canceled fuel src_url dst_url = ([], Raise e) /\
  move_to_trash h canceled path = ([], Raise FileNotFoundError) /\
  delete h canceled (S fuel) path = ([], Raise FileNotFoundError) /\
  prepare_trash h path = Return ([], Some FileNotFoundError) /\
  prepare_delete h (S fuel) path = Return ([], Some FileNotFoundError).
Proof.
  intros Hc Ha.
  assert (Hs : is_dir h path = Raise FileNotFoundError).
  { unfold is_dir. rewrite (stat_not_found h path); [reflexivity | now left]. }
  unfold prepare_move, prepare_copy, move, copy, move_to_trash, delete,
    run_generator, prepare_trash, prepare_delete, call_generator,
    prepare_trash_body, prepare_trash_gen.
  cbn [prepare_delete_body prepare_delete_gen]. rewrite Hc, Hs, Ha.
  repeat split.
Qed.

Lemma precondition_failures_before_any_task_witness :
  prepare_copy example_host 5 "zip:///src" "file:///dst"
  = Raise UnsupportedOperation /\
  delete (W:=example_world) example_host (fun _ => false) 6 "src/dir"
  = ([], Raise FileNotFoundError).
Proof.
  pose proof (precondition_failures_before_any_task (W:=example_world)
                example_host (fun _ => false) 5 "zip:///src" "file:///dst"
                "src/dir" eq_refl eq_refl) as H.
  split; apply H.
Defined.

(** C2 as stated fails for the plan-returning variants of trash and delete:
    called on a relative path they raise nothing and hand back a generator;
    the error waits inside it. *)
Lemma prepare_trash_and_delete_do_not_raise_at_the_call :
  isabs example_host (_url_to_os_path example_host "src/dir") = false /\
  (forall e, prepare_trash example_host "src/dir" <> Raise e) /\
  (forall e, prepare_delete example_host 5 "src/dir" <> Raise e).
Proof. repeat split; discriminate. Qed.

(** ** Delete planning *)

Lemma for_each_child_Forall (P : Task -> Prop) plan names :
  (forall name, In name names -> Forall P (fst (plan name))) ->
  Forall P (fst (for_each_child plan names)).
Proof.
  induction names as [|n r IH]; intros H; cbn [for_each_child].
  - constructor.
  - assert (Hn : Forall P (fst (gen_except_FileNotFoundError (plan n)))).
    { unfold gen_except_FileNotFoundError.
      destruct (snd (plan n)) as [e|]; [destruct (is_FileNotFoundError e)|];
        apply H; now left. }
    unfold gen_seq.
    destruct (snd (gen_except_FileNotFoundError (plan n))); [exact Hn|].
    cbn [fst]. apply Forall_app. split; [exact Hn|].
    apply IH. intros name Hin. apply H. now right.
Qed.

Lemma descend_cons path name names :
  descend (path ++ "/" ++ name)%string names = descend path (name :: names).
Proof. reflexivity. Qed.

(** C10: every Task of a delete plan calls [os.rmdir] (for a directory) or
    [os.remove] (otherwise) on the URL path itself, the requested path
    extended by slash and child names, and then notifies; the string handed
    to the OS is not passed through [_url_to_os_path]. *)
Theorem removal_tasks_use_the_url_path {W : World} h fuel path :
  Forall
    (fun t =>
       exists names f,
         let p := descend path names in
         fn t = fn_do_delete p f /\
         is_dir h p = Return (match f with rmdir => true | remove => false end)
         /\
         forall canceled fl,
           call h canceled fl t
           = match os_fails h (removal f p) with
             | None => ([Sys (removal f p); Notify (file_removed p)],
                        Return tt)
             | Some e => ([Sys (removal f p)], Raise (OSError e))
             end)
    (fst (prepare_delete_body h fuel path)).
Proof.
  revert path. induction fuel as [|fuel IH]; intros path;
    cbn [prepare_delete_body]; [constructor|].
  assert (Last : forall f,
    is_dir h path = Return (match f with rmdir => true | remove => false end)
    -> exists names f0,
         let p := descend path names in
         fn {| title := "Deleting " ++ rsplit_last path; size := 1;
               fn := fn_do_delete path f |} = fn_do_delete p f0 /\
         is_dir h p = Return (match f0 with rmdir => true | remove => false end)
         /\
         forall canceled fl,
           call h canceled fl
             {| title := "Deleting " ++ rsplit_last path; size := 1;
                fn := fn_do_delete path f |}
           = match os_fails h (removal f0 p) with
             | None => ([Sys (removal f0 p); Notify (file_removed p)],
                        Return tt)
             | Some e => ([Sys (removal f0 p)], Raise (OSError e))
             end).
  { intros f Hf. exists [], f. cbn [descend fold_left fn]. repeat split.
    - exact Hf.
    - intros canceled fl. destruct fl; cbn [call fn];
        unfold _do_delete, call_delete_fn, sys, notify_file_removed, emit, bind;
        destruct f; cbn [removal];
        match goal with |- context [os_fails h ?c] =>
          destruct (os_fails h c) end; reflexivity. }
  destruct (is_dir h path) as [[|]|e] eqn:Hd; cbn [gen_bind].
  - destruct (iterdir h path) as [names|e] eqn:Hi; cbn [gen_bind];
      [|constructor].
    unfold gen_seq.
    assert (Kids : Forall
      (fun t =>
         exists names0 f,
           let p := descend path names0 in
           fn t = fn_do_delete p f /\
           is_dir h p
           = Return (match f with rmdir => true | remove => false end) /\
           forall canceled fl,
             call h canceled fl t
             = match os_fails h (removal f p) with
               | None => ([Sys (removal f p); Notify (file_removed p)],
                          Return tt)
               | Some e => ([Sys (removal f p)], Raise (OSError e))
               end)
      (fst (for_each_child
              (fun name => prepare_delete_body h fuel (path ++ "/" ++ name))
              names))).
    { apply for_each_child_Forall. intros name _.
      eapply Forall_impl; [|apply IH].
      intros t (ns & f & H). exists (name :: ns), f.
      rewrite <- descend_cons. exact H. }
    destruct (snd (for_each_child _ names)); [exact Kids|].
    cbn [fst gen_yield gen_done]. apply Forall_app. split; [exact Kids|].
    constructor; [|constructor]. now apply Last.
  - cbn [gen_yield gen_done fst]. constructor; [|constructor]. now apply Last.
  - constructor.
Qed.

(** On Windows the two strings differ: the plan removes [C:/Users/a.txt],
    while the native path of that entry is [C:\Users\a.txt]. *)
Example windows_removal_path :
  fst (prepare_delete_body windows_example 3 "C:/Users/a.txt")
  = [{| title := "Deleting a.txt"; size := 1;
        fn := fn_do_delete "C:/Users/a.txt" remove |}] /\
  _url_to_os_path windows_example "C:/Users/a.txt" = "C:\Users\a.txt" /\
  fst (prepare_trash_body windows_example "C:/Users/a.txt")
  = [{| title := "Deleting a.txt"; size := 1;
        fn := fn_do_trash "C:/Users/a.txt" "C:\Users\a.txt" |}].
Proof. repeat split. Qed.

(** ** Reading in chunks *)

Lemma chunks_from_concat n room cur l :
  concat (chunks_from n room cur l) = rev cur ++ l.
Proof.
  revert room cur. induction l as [|b l IH]; intros room cur;
    cbn [chunks_from].
  - destruct cur; [reflexivity|]. cbn [concat]. now rewrite !app_nil_r.
  - destruct room as [|r].
    + cbn [concat]. now rewrite IH.
    + rewrite IH. cbn [rev]. now rewrite <- app_assoc.
Qed.

Lemma chunks_from_bounded n room cur l :
  1 <= n -> length cur + room = n ->
  Forall (fun buf => 1 <= length buf <= n) (chunks_from n room cur l).
Proof.
  intros Hn. revert room cur. induction l as [|b l IH]; intros room cur Hr;
    cbn [chunks_from].
  - destruct cur as [|c cur]; constructor; [|constructor].
    rewrite length_rev. cbn [length] in *. lia.
  - destruct room as [|r].
    + constructor.
      * rewrite length_rev. lia.
      * apply IH. cbn [length]. lia.
    + apply IH. cbn [length]. lia.
Qed.

Lemma chunks_concat l : concat (chunks l) = l.
Proof. unfold chunks. now rewrite chunks_from_concat. Qed.

Lemma CHUNK_positive : 1 <= CHUNK.
Proof. unfold CHUNK. lia. Qed.

Lemma chunks_bounded l :
  Forall (fun buf => 1 <= length buf <= CHUNK) (chunks l).
Proof.
  unfold chunks. apply chunks_from_bounded; [apply CHUNK_positive|reflexivity].
Qed.

Lemma firstn_step_length (cs : list bytes) k n :
  Forall (fun buf => 1 <= length buf <= n) cs ->
  length (concat (firstn (S k) cs)) <= length (concat (firstn k cs)) + n.
Proof.
  intros H. revert k. induction H as [|buf cs Hb _ IH]; intros k.
  - destruct k; cbn; lia.
  - destruct k as [|k].
    + cbn [firstn concat]. rewrite length_app.
      destruct cs; cbn [firstn concat length]; lia.
    + specialize (IH k). cbn [firstn concat] in *. rewrite !length_app. lia.
Qed.

(** ** CopyFile *)

Section CopyStream.

Variable h : Host.
Variable canceled : nat -> bool.
Variables src dst : string.
Hypothesis os_ok : forall c, os_fails h c = None.

Lemma sys_ok c : sys h c = ([Sys c], Return tt).
Proof using os_ok. unfold sys. now rewrite os_ok. Qed.

(** The loop when the [k]-th check from now is the first to see the flag. *)
Lemma copy_stream_canceled k :
  forall poll reads n,
    (forall j, j < k -> canceled (poll + j) = false) ->
    canceled (poll + k) = true ->
    k <= length reads ->
    copy_stream h canceled src dst poll reads n
    = (streamed src dst n (firstn k reads), Raise Canceled).
Proof using os_ok.
  induction k as [|k IH]; intros poll reads n Hbefore Hk Hlen.
  - rewrite Nat.add_0_r in Hk.
    destruct reads; cbn [copy_stream]; unfold check_canceled;
      rewrite Hk; reflexivity.
  - destruct reads as [|buf rest]; [cbn in Hlen; lia|].
    cbn [copy_stream firstn streamed]. unfold check_canceled.
    rewrite <- (Nat.add_0_r poll) at 1.
    rewrite (Hbefore 0) by lia. rewrite !sys_ok.
    rewrite (IH (S poll) rest (n + Z.of_nat (length buf))%Z).
    + reflexivity.
    + intros j Hj. replace (S poll + j) with (poll + S j) by lia.
      apply Hbefore. lia.
    + now replace (S poll + k) with (poll + S k) by lia.
    + cbn in Hlen. lia.
Qed.

(** The loop when no check sees the flag. *)
Lemma copy_stream_completes :
  forall reads poll n,
    (forall j, j <= length reads -> canceled (poll + j) = false) ->
    copy_stream h canceled src dst poll reads n
    = (streamed src dst n reads ++ [Sys (os_read src (16 * 1024))],
       Return tt).
Proof using os_ok.
  induction reads as [|buf rest IH]; intros poll n Hnever;
    cbn [copy_stream streamed]; unfold check_canceled;
    rewrite <- (Nat.add_0_r poll) at 1;
    rewrite (Hnever 0) by (cbn; lia); rewrite !sys_ok.
  - reflexivity.
  - rewrite (IH (S poll) (n + Z.of_nat (length buf))%Z).
    + reflexivity.
    + intros j Hj. replace (S poll + j) with (poll + S j) by lia.
      apply Hnever. cbn. lia.
Qed.

Lemma written_streamed n bufs : written (streamed src dst n bufs) = concat bufs.
Proof.
  revert n. induction bufs as [|buf rest IH]; intros n; [reflexivity|].
  cbn [streamed written concat]. now rewrite IH.
Qed.

End CopyStream.

Lemma concat_length_le (cs : list bytes) n :
  Forall (fun buf => 1 <= length buf <= n) cs ->
  length (concat cs) <= length cs * n.
Proof.
  induction 1 as [|buf cs Hb _ IH]; [reflexivity|].
  cbn [concat length]. rewrite length_app. lia.
Qed.

(** All chunks but the last are full. *)
Lemma chunks_from_prefix n (Hn : 1 <= n) l :
  forall room cur k,
    k < length (chunks_from n room cur l) ->
    length cur + room = n ->
    length (concat (firstn k (chunks_from n room cur l))) = k * n.
Proof.
  induction l as [|b l IH]; intros room cur k Hk Hroom; cbn [chunks_from] in *.
  - destruct cur; cbn [length] in Hk; destruct k; try lia; reflexivity.
  - destruct room as [|r].
    + destruct k as [|k]; [reflexivity|].
      cbn [length] in Hk. cbn [firstn concat]. rewrite length_app, length_rev.
      rewrite (IH (n - 1) [b] k); [cbn [Nat.mul]; lia | lia | cbn [length]; lia].
    + apply IH; [exact Hk | cbn [length]; lia].
Qed.

Lemma chunks_prefix l k :
  k < length (chunks l) ->
  length (concat (firstn k (chunks l))) = k * CHUNK.
Proof.
  intros Hk. unfold chunks in *.
  now apply chunks_from_prefix; [apply CHUNK_positive | |].
Qed.

(** C8: a copy of a regular file whose [k]-th cancellation check is the first
    to see the flag set, while the source still had [k] chunks or more to
    deliver, ends by raising Canceled; it has written exactly the first [k]
    chunks, a prefix of the source; the last of them, the only one written
    since the previous check, has at most 16 KiB; nothing is rolled back and
    neither metadata copy nor notification follows. *)
Theorem copy_canceled_mid_stream h canceled src_url dst_url dd existed k :
  islink h (as_human_readable h src_url) = false ->
  splitscheme dst_url = Return dd ->
  exists_ h (snd dd) = Return existed ->
  (forall c, os_fails h c = None) ->
  (forall j, j < k -> canceled j = false) ->
  canceled k = true ->
  k <= length (chunks (os_content h (as_human_readable h src_url))) ->
  CopyFile_call h canceled src_url dst_url
  = (Sys (os_open_rb (as_human_readable h src_url))
     :: Sys (os_open_wb (as_human_readable h dst_url))
     :: streamed (as_human_readable h src_url) (as_human_readable h dst_url) 0
          (firstn k (chunks (os_content h (as_human_readable h src_url)))),
     Raise Canceled) /\
  written (trace_of (CopyFile_call h canceled src_url dst_url))
  = concat (firstn k (chunks (os_content h (as_human_readable h src_url)))) /\
  (exists rest,
     os_content h (as_human_readable h src_url)
     = concat (firstn k (chunks (os_content h (as_human_readable h src_url))))
       ++ rest) /\
  length (concat (firstn k
                    (chunks (os_content h (as_human_readable h src_url)))))
  <= length (concat (firstn (pred k)
                       (chunks (os_content h (as_human_readable h src_url)))))
     + 16 * 1024.
Proof.
  intros Hlink Hsplit Hex Hok Hbefore Hk Hlen.
  set (src := as_human_readable h src_url) in *.
  set (dst := as_human_readable h dst_url) in *.
  set (reads := chunks (os_content h src)) in *.
  assert (Hrun : CopyFile_call h canceled src_url dst_url
                 = (Sys (os_open_rb src) :: Sys (os_open_wb dst)
                    :: streamed src dst 0 (firstn k reads), Raise Canceled)).
  { unfold CopyFile_call. rewrite Hsplit. cbn [lift bind].
    rewrite Hex. cbn [lift bind]. fold src dst. rewrite Hlink.
    rewrite !sys_ok by exact Hok. fold reads.
    rewrite (@copy_stream_canceled h canceled src dst Hok k 0 reads 0%Z
               Hbefore Hk Hlen).
    reflexivity. }
  split; [exact Hrun|]. rewrite Hrun. cbn [trace_of fst written].
  rewrite written_streamed. split; [reflexivity|]. split.
  - exists (concat (skipn k reads)).
    rewrite <- concat_app, firstn_skipn. unfold reads.
    now rewrite chunks_concat.
  - destruct k as [|k]; [cbn; lia|]. cbn [pred].
    apply (@firstn_step_length reads k CHUNK).
    apply chunks_bounded.
Qed.

Lemma copy_canceled_mid_stream_witness :
  result_of (CopyFile_call big_host (canceled_after 1)
               "file:///big" "file:///dst/big") = Raise Canceled /\
  Z.of_nat
    (length (written (trace_of (CopyFile_call big_host (canceled_after 1)
                                  "file:///big" "file:///dst/big"))))
  = (2 * (16 * 1024))%Z.
Proof.
  assert (Hcontent :
    os_content big_host (as_human_readable big_host "file:///big")
    = repeat Byte.x61 (40 * 1000)) by reflexivity.
  assert (Hthree :
    2 < length (chunks (os_content big_host
                          (as_human_readable big_host "file:///big")))).
  { pose proof (concat_length_le
                  (chunks_bounded
                     (os_content big_host
                        (as_human_readable big_host "file:///big")))) as Hb.
    rewrite chunks_concat in Hb. rewrite Hcontent in Hb |- *.
    rewrite repeat_length in Hb. unfold CHUNK in Hb. lia. }
  destruct (copy_canceled_mid_stream big_host (canceled_after 1)
              "file:///big" "file:///dst/big" (k:=2)
              (dd:=("file://", "/dst/big")) (existed:=false))
    as (Hrun & Hw & _).
  - reflexivity.
  - reflexivity.
  - reflexivity.
  - reflexivity.
  - intros [|[|j]] Hj; [reflexivity | reflexivity | lia].
  - reflexivity.
  - lia.
  - split.
    + now rewrite Hrun.
    + rewrite Hw, (chunks_prefix _ Hthree).
      unfold CHUNK. lia.
Defined.

Lemma splitscheme_error u e :
  splitscheme u = Raise e -> e = ValueError "Not a valid URL".
Proof.
  induction u as [|c r IH]; cbn [splitscheme]; [congruence|].
  destruct (after_separator (String c r)); [discriminate|].
  destruct (splitscheme r) as [[s p]|e']; [discriminate|].
  intros [= <-]. now apply IH.
Qed.

Lemma exists_error h path e :
  exists_ h path = Raise e -> exists oe, e = OSError oe.
Proof.
  unfold exists_, Path_exists.
  destruct (isabs h (_url_to_os_path h path)); [|discriminate].
  destruct (os_stat h (_url_to_os_path h path)) as [s|oe]; [discriminate|].
  destruct oe; try discriminate; intros [= <-]; eauto.
Qed.

(** The symbolic link branch of [CopyFile.__call__], step by step. *)
Lemma CopyFile_call_symlink h canceled src_url dst_url dd existed target :
  islink h (as_human_readable h src_url) = true ->
  splitscheme dst_url = Return dd ->
  exists_ h (snd dd) = Return existed ->
  os_readlink h (as_human_readable h src_url) = inl target ->
  CopyFile_call h canceled src_url dst_url
  = let src := as_human_readable h src_url in
    let dst := as_human_readable h dst_url in
    match os_fails h (os_symlink target dst) with
    | Some e => ([Sys (os_symlink target dst)], Raise (OSError e))
    | None =>
        match os_fails h (os_copystat src dst false) with
        | Some e =>
            ([Sys (os_symlink target dst); Sys (os_copystat src dst false)],
             Raise (OSError e))
        | None =>
            ([Sys (os_symlink target dst); Sys (os_copystat src dst false)]
             ++ (if existed then [] else [Notify (file_added (snd dd))]),
             Return tt)
        end
    end.
Proof.
  intros Hlink Hsplit Hex Hread. unfold CopyFile_call.
  rewrite Hsplit. cbn [lift bind]. rewrite Hex. cbn [lift bind].
  rewrite Hlink, Hread. unfold sys, notify_file_added, emit, ret.
  cbn [of_os lift bind].
  destruct (os_fails h (os_symlink target (as_human_readable h dst_url)));
    [reflexivity|].
  destruct (os_fails h (os_copystat (as_human_readable h src_url)
                          (as_human_readable h dst_url) false));
    [reflexivity|].
  destruct existed; reflexivity.
Qed.

Lemma CopyFile_call_symlink_quiet h canceled src_url dst_url :
  islink h (as_human_readable h src_url) = true ->
  Forall (fun ev => reads_content ev = false)
         (trace_of (CopyFile_call h canceled src_url dst_url)) /\
  written (trace_of (CopyFile_call h canceled src_url dst_url)) = [] /\
  result_of (CopyFile_call h canceled src_url dst_url) <> Raise Canceled.
Proof.
  intros Hlink. unfold CopyFile_call.
  destruct (splitscheme dst_url) as [dd|e] eqn:Hsplit; cbn [lift bind].
  2:{ apply splitscheme_error in Hsplit. subst e.
      repeat split; [constructor | discriminate]. }
  destruct (exists_ h (snd dd)) as [existed|e] eqn:Hex; cbn [lift bind].
  2:{ apply exists_error in Hex. destruct Hex as [oe ->].
      repeat split; [constructor | discriminate]. }
  rewrite Hlink. unfold sys, notify_file_added, emit, ret.
  destruct (os_readlink h (as_human_readable h src_url)) as [target|oe];
    cbn [of_os lift bind].
  2:{ repeat split; [constructor | discriminate]. }
  destruct (os_fails h (os_symlink target (as_human_readable h dst_url)));
    cbn [bind app].
  { repeat split; [repeat constructor | discriminate]. }
  destruct (os_fails h (os_copystat (as_human_readable h src_url)
                          (as_human_readable h dst_url) false));
    cbn [bind app].
  { repeat split; [repeat constructor | discriminate]. }
  destruct existed; cbn; (repeat split; [repeat constructor | discriminate]).
Qed.

(** C7: a Copy Task whose source is a symbolic link never opens or reads a
    file and writes no bytes; once the destination's prior existence and the
    link's target string are known, its first OS call creates a symbolic link
    at the destination with exactly that target string, followed by the
    metadata copy and, for a new destination, the added notification. *)
Theorem copy_of_symlink_recreates_link h canceled src_url dst_url :
  islink h (as_human_readable h src_url) = true ->
  Forall (fun ev => reads_content ev = false)
         (trace_of (CopyFile_call h canceled src_url dst_url)) /\
  written (trace_of (CopyFile_call h canceled src_url dst_url)) = [] /\
  forall dd existed target,
    splitscheme dst_url = Return dd ->
    exists_ h (snd dd) = Return existed ->
    os_readlink h (as_human_readable h src_url) = inl target ->
    exists rest,
      trace_of (CopyFile_call h canceled src_url dst_url)
      = Sys (os_symlink target (as_human_readable h dst_url)) :: rest /\
      (os_fails h (os_symlink target (as_human_readable h dst_url)) = None ->
       os_fails h (os_copystat (as_human_readable h src_url)
                     (as_human_readable h dst_url) false) = None ->
       rest = Sys (os_copystat (as_human_readable h src_url)
                     (as_human_readable h dst_url) false)
              :: (if existed then [] else [Notify (file_added (snd dd))]) /\
       result_of (CopyFile_call h canceled src_url dst_url) = Return tt).
Proof.
  intros Hlink.
  destruct (CopyFile_call_symlink_quiet h canceled src_url dst_url Hlink)
    as (Hq & Hw & _).
  split; [exact Hq|]. split; [exact Hw|].
  intros dd existed target Hsplit Hex Hread.
  rewrite (CopyFile_call_symlink h canceled src_url dst_url
             Hlink Hsplit Hex Hread). cbv zeta.
  destruct (os_fails h (os_symlink target (as_human_readable h dst_url))).
  { eexists. split; [reflexivity|]. discriminate. }
  destruct (os_fails h (os_copystat (as_human_readable h src_url)
                          (as_human_readable h dst_url) false)).
  { eexists. split; [reflexivity|]. discriminate. }
  eexists. split; [reflexivity|]. intros _ _. split; reflexivity.
Qed.

Lemma copy_of_symlink_recreates_link_witness :
  CopyFile_call example_host (fun _ => false)
    "file:///src/link" "file:///dst/link"
  = ([Sys (os_symlink "dir/a.txt" "/dst/link");
      Sys (os_copystat "/src/link" "/dst/link" false);
      Notify (file_added "/dst/link")], Return tt) /\
  Forall (fun ev => reads_content ev = false)
    (trace_of (CopyFile_call example_host (fun _ => false)
                 "file:///src/link" "file:///dst/link")).
Proof.
  destruct (copy_of_symlink_recreates_link example_host (fun _ => false)
              "file:///src/link" "file:///dst/link" eq_refl)
    as (Hq & _ & Hrun).
  split; [reflexivity | exact Hq].
Defined.

(** C9: when the source is a symbolic link the Task body never looks at the
    cancellation flag: whatever the flag does, the run is the same and never
    raises Canceled; with the OS calls succeeding it creates the link, copies
    the metadata and notifies of a destination that did not exist before. *)
Theorem copy_of_symlink_ignores_cancellation h src_url dst_url :
  islink h (as_human_readable h src_url) = true ->
  (forall canceled canceled',
     CopyFile_call h canceled src_url dst_url
     = CopyFile_call h canceled' src_url dst_url) /\
  (forall canceled,
     result_of (CopyFile_call h canceled src_url dst_url) <> Raise Canceled) /\
  forall canceled dd existed target,
    splitscheme dst_url = Return dd ->
    exists_ h (snd dd) = Return existed ->
    os_readlink h (as_human_readable h src_url) = inl target ->
    os_fails h (os_symlink target (as_human_readable h dst_url)) = None ->
    os_fails h (os_copystat (as_human_readable h src_url)
                  (as_human_readable h dst_url) false) = None ->
    CopyFile_call h canceled src_url dst_url
    = ([Sys (os_symlink target (as_human_readable h dst_url));
        Sys (os_copystat (as_human_readable h src_url)
               (as_human_readable h dst_url) false)]
       ++ (if existed then [] else [Notify (file_added (snd dd))]),
       Return tt).
Proof.
  intros Hlink. split; [|split].
  - intros canceled canceled'. unfold CopyFile_call.
    now rewrite Hlink.
  - intros canceled.
    apply (CopyFile_call_symlink_quiet h canceled src_url dst_url Hlink).
  - intros canceled dd existed target Hsplit Hex Hread Hsym Hstat.
    rewrite (CopyFile_call_symlink h canceled src_url dst_url
               Hlink Hsplit Hex Hread). cbv zeta.
    now rewrite Hsym, Hstat.
Qed.

Lemma copy_of_symlink_ignores_cancellation_witness :
  CopyFile_call example_host (fun _ => true)
    "file:///src/link" "file:///dst/link"
  = ([Sys (os_symlink "dir/a.txt" "/dst/link");
      Sys (os_copystat "/src/link" "/dst/link" false);
      Notify (file_added "/dst/link")], Return tt).
Proof.
  destruct (copy_of_symlink_ignores_cancellation example_host
              "file:///src/link" "file:///dst/link" eq_refl)
    as (_ & _ & Hrun).
  apply (Hrun (fun _ => true) ("file://", "/dst/link") false "dir/a.txt");
    reflexivity.
Defined.

(** ** Snapshots *)

Lemma entry_induction (P : entry -> Prop) :
  (forall st, P (File st)) ->
  P Vanished ->
  (forall st kids, Forall (fun nk => P (snd nk)) kids -> P (Dir st kids)) ->
  forall e, P e.
Proof.
  intros HF HV HD. fix IH 1. intros [st|st kids|].
  - apply HF.
  - apply HD. induction kids as [|[n k] r IHr]; constructor.
    + apply IH.
    + exact IHr.
  - apply HV.
Qed.

Lemma copy_tasks_Dir m src_url dst_url st kids :
  copy_tasks m src_url dst_url (Dir st kids)
  = creating_task dst_url :: copy_tasks_of_kids m src_url dst_url kids.
Proof.
  cbn [copy_tasks]. f_equal. unfold copy_tasks_of_kids.
  induction kids as [|[n k] r IH]; [reflexivity|].
  cbn [flat_map fst snd]. now rewrite IH.
Qed.

Lemma delete_tasks_Dir path st kids :
  delete_tasks path (Dir st kids)
  = delete_tasks_of_kids path kids ++ [deleting_task path rmdir].
Proof.
  cbn [delete_tasks]. f_equal. unfold delete_tasks_of_kids.
  induction kids as [|[n k] r IH]; [reflexivity|].
  cbn [flat_map fst snd]. now rewrite IH.
Qed.

Lemma delete_trace_Dir path st kids :
  delete_trace path (Dir st kids)
  = delete_trace_of_kids path kids
    ++ [Sys (os_rmdir path); Notify (file_removed path)].
Proof.
  cbn [delete_trace]. f_equal. unfold delete_trace_of_kids.
  induction kids as [|[n k] r IH]; [reflexivity|].
  cbn [flat_map fst snd]. now rewrite IH.
Qed.

Lemma count_dirs_Dir st kids :
  count_dirs (Dir st kids) = S (count_dirs_of_kids kids).
Proof.
  cbn [count_dirs]. f_equal. unfold count_dirs_of_kids.
  induction kids as [|[n k] r IH]; [reflexivity|].
  cbn [map list_sum fst snd]. now rewrite IH.
Qed.

Lemma depth_Dir st kids :
  Forall (fun nk => depth (snd nk) < depth (Dir st kids)) kids.
Proof.
  cbn [depth].
  induction kids as [|[n k] r IH]; constructor.
  - cbn [snd]. lia.
  - eapply Forall_impl; [|exact IH]. intros [n' k'] H. cbn [snd] in *. lia.
Qed.

Lemma observes_Dir h path st kids :
  observes h path (Dir st kids) <->
  stat h path = Return st /\ S_ISDIR (st_mode st) = true /\
  iterdir h path = Return (map fst kids) /\
  Forall (fun nk => observes h (path ++ "/" ++ fst nk) (snd nk)) kids.
Proof.
  cbn [observes].
  assert (H : (fix all (l : list (string * entry)) : Prop :=
                 match l with
                 | [] => True
                 | (n, k) :: r => observes h (path ++ "/" ++ n) k /\ all r
                 end) kids
              <-> Forall (fun nk => observes h (path ++ "/" ++ fst nk) (snd nk))
                         kids).
  { induction kids as [|[n k] r IH]; [split; constructor|].
    split.
    - intros [H1 H2]. constructor; [exact H1 | now apply IH].
    - intros H. inversion H; subst. split; [assumption | now apply IH]. }
  tauto.
Qed.

(** ** Generators *)

Lemma gen_seq_done_l g : gen_seq gen_done g = g.
Proof. now destruct g. Qed.

Lemma gen_seq_assoc g1 g2 g3 :
  gen_seq (gen_seq g1 g2) g3 = gen_seq g1 (gen_seq g2 g3).
Proof.
  destruct g1 as [t1 [e1|]], g2 as [t2 [e2|]], g3 as [t3 e3];
    unfold gen_seq; cbn [fst snd]; try reflexivity.
  now rewrite app_assoc.
Qed.

Lemma for_each_child_app plan l1 l2 :
  for_each_child plan (l1 ++ l2)
  = gen_seq (for_each_child plan l1) (for_each_child plan l2).
Proof.
  induction l1 as [|n r IH]; cbn [for_each_child app].
  - now rewrite gen_seq_done_l.
  - now rewrite IH, gen_seq_assoc.
Qed.

(** A child that raises FileNotFoundError leaves what it had yielded and
    does not end the loop. *)
Lemma for_each_child_skips plan before child after :
  snd (plan child) = Some FileNotFoundError ->
  for_each_child plan (before ++ child :: after)
  = gen_seq (for_each_child plan before)
      (gen_seq (fst (plan child), None) (for_each_child plan after)).
Proof.
  intros H. rewrite for_each_child_app. f_equal.
  cbn [for_each_child]. unfold gen_except_FileNotFoundError.
  now rewrite H.
Qed.

(** The loop over the children never ends with FileNotFoundError; when it
    ends with an exception, some child raised it. *)
Lemma for_each_child_end plan names e :
  snd (for_each_child plan names) = Some e ->
  is_FileNotFoundError e = false /\
  exists name, In name names /\ snd (plan name) = Some e.
Proof.
  induction names as [|n r IH]; cbn [for_each_child]; [discriminate|].
  unfold gen_seq, gen_except_FileNotFoundError.
  destruct (snd (plan n)) as [e'|] eqn:Hn.
  - destruct (is_FileNotFoundError e') eqn:Hf; cbn [snd].
    + intros H. destruct (IH H) as (Hnf & name & Hin & Hp).
      split; [exact Hnf|]. exists name. split; [now right | exact Hp].
    + rewrite Hn. cbn [snd]. rewrite Hn. intros [= <-].
      split; [exact Hf|]. exists n. split; [now left | exact Hn].
  - rewrite Hn. cbn [snd]. intros H.
    destruct (IH H) as (Hnf & name & Hin & Hp).
    split; [exact Hnf|]. exists name. split; [now right | exact Hp].
Qed.

(** Over a snapshot's children, each planned as the snapshot says, the loop
    yields their Tasks one child after the other and ends normally. *)
Lemma for_each_child_observed plan (tasks_of : string * entry -> list Task)
  kids :
  Forall (fun nk => plan (fst nk) = (tasks_of nk, ended (snd nk))) kids ->
  for_each_child plan (map fst kids) = (flat_map tasks_of kids, None).
Proof.
  induction 1 as [|[n k] r Hk _ IH]; [reflexivity|].
  cbn [map fst snd for_each_child flat_map] in *.
  rewrite Hk, IH. unfold gen_seq, gen_except_FileNotFoundError.
  destruct k; reflexivity.
Qed.

(** ** Copy planning over a snapshot *)

Lemma check_transfer_precnds_ok h src_url dst_url sp dp :
  splitscheme src_url = Return (scheme, sp) ->
  splitscheme dst_url = Return (scheme, dp) ->
  isabs h (_url_to_os_path h dp) = true ->
  _check_transfer_precnds h src_url dst_url = Return (sp, dp).
Proof.
  intros Hs Hd Ha. unfold _check_transfer_precnds.
  rewrite Hs, Hd. cbn [obind]. rewrite String.eqb_refl, Ha. reflexivity.
Qed.

Lemma check_transfer_precnds_inv h src_url dst_url sp dp :
  _check_transfer_precnds h src_url dst_url = Return (sp, dp) ->
  splitscheme src_url = Return (scheme, sp) /\
  splitscheme dst_url = Return (scheme, dp) /\
  isabs h (_url_to_os_path h dp) = true.
Proof.
  unfold _check_transfer_precnds.
  destruct (splitscheme src_url) as [[ss sp']|e]; [|discriminate].
  destruct (splitscheme dst_url) as [[ds dp']|e]; [|discriminate].
  cbn [obind].
  destruct (String.eqb ss scheme) eqn:E1; [|discriminate].
  destruct (String.eqb ds scheme) eqn:E2; [|discriminate].
  cbn [negb orb].
  destruct (isabs h (_url_to_os_path h dp')) eqn:Ha; [|discriminate].
  cbn [negb]. intros [= <- <-].
  apply String.eqb_eq in E1, E2. subst. repeat split. exact Ha.
Qed.

Lemma is_dir_of_stat h path st :
  stat h path = Return st -> is_dir h path = Return (S_ISDIR (st_mode st)).
Proof. unfold is_dir. now intros ->. Qed.

Section CopyPlan.

Variable h : Host.
Hypothesis below : isabs_below h.
Variable measure_size : bool.

Lemma prepare_copy_observed e :
  forall fuel src_url dst_url sp dp,
    splitscheme src_url = Return (scheme, sp) ->
    splitscheme dst_url = Return (scheme, dp) ->
    isabs h (_url_to_os_path h dp) = true ->
    observes h sp e ->
    depth e <= fuel ->
    _prepare_copy h fuel src_url dst_url measure_size
    = (copy_tasks measure_size src_url dst_url e, ended e).
Proof using below.
  induction e as [st| |st kids IH] using entry_induction;
    intros fuel src_url dst_url sp dp Hs Hd Ha Hobs Hfuel;
    (destruct fuel as [|fuel]; [cbn [depth] in Hfuel; lia|]);
    cbn [_prepare_copy];
    rewrite (check_transfer_precnds_ok h _ _ Hs Hd Ha); cbn [gen_bind].
  - destruct Hobs as [Hst Hmode].
    rewrite (is_dir_of_stat _ _ Hst), Hmode. cbn [gen_bind].
    unfold size_bytes. rewrite Hst.
    destruct measure_size; reflexivity.
  - cbn [observes] in Hobs. unfold is_dir. rewrite Hobs. reflexivity.
  - apply observes_Dir in Hobs. destruct Hobs as (Hst & Hmode & Hls & Hkids).
    rewrite (is_dir_of_stat _ _ Hst), Hmode, Hls. cbn [gen_bind].
    rewrite copy_tasks_Dir. unfold creating_task, path_of. rewrite Hd.
    pose proof (depth_Dir st kids) as Hdepth.
    assert (Hloop :
      for_each_child
        (fun name => _prepare_copy h fuel (join src_url name)
                       (join dst_url name) measure_size)
        (map fst kids)
      = (copy_tasks_of_kids measure_size src_url dst_url kids, None)).
    { apply for_each_child_observed.
      rewrite Forall_forall in *. intros [n k] Hin. cbn [fst snd].
      apply (IH _ Hin fuel (join src_url n) (join dst_url n)
               (sp ++ "/" ++ n)%string (dp ++ "/" ++ n)%string).
      - now apply splitscheme_join.
      - now apply splitscheme_join.
      - now apply below.
      - apply (Hkids _ Hin).
      - specialize (Hdepth _ Hin). cbn [snd] in Hdepth |- *. lia. }
    rewrite Hloop. reflexivity.
Qed.

Lemma count_creating_app ts1 ts2 :
  count_creating (ts1 ++ ts2) = count_creating ts1 + count_creating ts2.
Proof. unfold count_creating. now rewrite filter_app, length_app. Qed.

Lemma count_creating_copy_tasks e :
  forall src_url dst_url,
    count_creating (copy_tasks measure_size src_url dst_url e) = count_dirs e.
Proof.
  induction e as [st| |st kids IH] using entry_induction;
    intros src_url dst_url; try reflexivity.
  rewrite copy_tasks_Dir, count_dirs_Dir.
  change (creating_task dst_url
          :: copy_tasks_of_kids measure_size src_url dst_url kids)
    with ([creating_task dst_url]
          ++ copy_tasks_of_kids measure_size src_url dst_url kids).
  rewrite count_creating_app. cbn [count_creating filter is_creating fn
    creating_task length Nat.add]. f_equal.
  unfold copy_tasks_of_kids, count_dirs_of_kids.
  induction IH as [|[n k] r IHk _ IHr]; [reflexivity|].
  cbn [flat_map map list_sum fst snd] in *.
  now rewrite count_creating_app, IHk, IHr.
Qed.

Lemma copy_tasks_segment root names e :
  child_at root names e ->
  forall src_url dst_url,
  exists before after,
    copy_tasks measure_size src_url dst_url root
    = before
      ++ copy_tasks measure_size (join_all src_url names)
           (join_all dst_url names) e
      ++ after.
Proof.
  induction 1 as [e|st kids n k names e Hin _ IH]; intros src_url dst_url.
  - exists [], []. cbn [join_all fold_left app]. now rewrite app_nil_r.
  - rewrite copy_tasks_Dir. unfold copy_tasks_of_kids.
    destruct (in_split _ _ Hin) as (l1 & l2 & ->).
    rewrite flat_map_app. cbn [flat_map fst snd].
    destruct (IH (join src_url n) (join dst_url n)) as (b & a & ->).
    set (tasks_of := fun nk : string * entry =>
           copy_tasks measure_size (join src_url (fst nk))
             (join dst_url (fst nk)) (snd nk)).
    exists (creating_task dst_url :: flat_map tasks_of l1 ++ b),
           (a ++ flat_map tasks_of l2).
    cbn [join_all fold_left app]. f_equal.
    now rewrite <- !app_assoc.
Qed.

End CopyPlan.

Lemma posix_url_to_os_path stats listings links contents fails path :
  _url_to_os_path (posix_host stats listings links contents fails) path = path.
Proof. reflexivity. Qed.

Lemma posix_isabs_below stats listings links contents fails :
  isabs_below (posix_host stats listings links contents fails).
Proof.
  intros p name. rewrite !posix_url_to_os_path. cbn [isabs posix_host].
  destruct p as [|c p]; [discriminate|]. exact (fun H => H).
Qed.

(** Copying a directory whose subtree the host shows as a snapshot yields,
    with enough recursion depth, the pre-order Task list of the snapshot. A
    directory of the snapshot is what [os.stat] reports as one, so a
    symbolic link to a directory counts as a directory here: there are as
    many directory-creation Tasks as the snapshot has such entries, and for
    each of them its creation Task is immediately followed by all the Tasks
    of its children. *)
Lemma copy_plan_creates_directories_first
  h measure_size fuel src_url dst_url sp dp st kids :
  isabs_below h ->
  _check_transfer_precnds h src_url dst_url = Return (sp, dp) ->
  observes h sp (Dir st kids) ->
  depth (Dir st kids) <= fuel ->
  _prepare_copy h fuel src_url dst_url measure_size
  = (copy_tasks measure_size src_url dst_url (Dir st kids), None) /\
  count_creating (copy_tasks measure_size src_url dst_url (Dir st kids))
  = count_dirs (Dir st kids) /\
  forall names st' kids',
    child_at (Dir st kids) names (Dir st' kids') ->
    exists before after,
      copy_tasks measure_size src_url dst_url (Dir st kids)
      = before
        ++ creating_task (join_all dst_url names)
        :: copy_tasks_of_kids measure_size (join_all src_url names)
             (join_all dst_url names) kids'
        ++ after.
Proof.
  intros Hbelow Hcheck Hobs Hfuel.
  apply check_transfer_precnds_inv in Hcheck.
  destruct Hcheck as (Hs & Hd & Ha).
  split; [|split].
  - now apply (@prepare_copy_observed h Hbelow measure_size (Dir st kids)
                 fuel src_url dst_url sp dp).
  - apply count_creating_copy_tasks.
  - intros names st' kids' Hchild.
    destruct (@copy_tasks_segment measure_size _ _ _ Hchild src_url dst_url)
      as (before & after & Heq).
    exists before, after. now rewrite Heq, copy_tasks_Dir.
Qed.

Example copy_plan_of_the_example_disk :
  _prepare_copy example_host 5 "file:///src" "file:///dst/copy" true
  = ([creating_task "file:///dst/copy";
      creating_task "file:///dst/copy/dir";
      CopyFile "file:///src/dir/a.txt" "file:///dst/copy/dir/a.txt" 10;
      CopyFile "file:///src/link" "file:///dst/copy/link" 10], None) /\
  count_creating
    (copy_tasks true "file:///src" "file:///dst/copy" example_tree) = 2.
Proof.
  destruct (@copy_plan_creates_directories_first example_host true 5
              "file:///src" "file:///dst/copy" "/src" "/dst/copy" (a_dir 1)
              [("dir", Dir (a_dir 1) [("a.txt", File (a_file 1 10))]);
               ("link", File (a_file 1 10))])
    as (Hplan & Hcount & _).
  - apply posix_isabs_below.
  - reflexivity.
  - cbn. repeat split.
  - cbn. lia.
  - split; [exact Hplan | exact Hcount].
Defined.

(** C5 fails on a source that holds a symbolic link to a directory. The
    subtree below [/src] has two directories, [/src] and [/src/d], and the
    link [/src/l -> d]. [is_dir] follows the link, so the plan has three
    creation Tasks: the link gets one, and the contents of its target are
    planned a second time below it. No Task of the plan is a [CopyFile] of
    the link, whose [islink] branch would have recreated it. *)
Lemma link_to_directory_is_planned_as_directory :
  islink linked_host "/src/l" = true /\
  os_readlink linked_host "/src/l" = inl "d" /\
  prepare_copy linked_host 5 "file:///src" "file:///dst/copy"
  = Return ([creating_task "file:///dst/copy";
             creating_task "file:///dst/copy/d";
             CopyFile "file:///src/d/f" "file:///dst/copy/d/f" 3;
             creating_task "file:///dst/copy/l";
             CopyFile "file:///src/l/f" "file:///dst/copy/l/f" 3], None) /\
  count_creating
    (fst (_prepare_copy linked_host 5 "file:///src" "file:///dst/copy" true))
  = 3 /\
  ~ In (fn_CopyFile "file:///src/l" "file:///dst/copy/l")
       (map fn (fst (_prepare_copy linked_host 5 "file:///src"
                       "file:///dst/copy" true))).
Proof.
  repeat split.
  cbn. intros [H|[H|[H|[H|[H|[]]]]]]; discriminate H.
Qed.

(** ** Delete planning over a snapshot *)

Section DeletePlan.

Variable h : Host.

Lemma prepare_delete_observed e :
  forall fuel path,
    observes h path e ->
    depth e <= fuel ->
    prepare_delete_body h fuel path = (delete_tasks path e, ended e).
Proof.
  induction e as [st| |st kids IH] using entry_induction;
    intros fuel path Hobs Hfuel;
    (destruct fuel as [|fuel]; [cbn [depth] in Hfuel; lia|]);
    cbn [prepare_delete_body].
  - destruct Hobs as [Hst Hmode].
    rewrite (is_dir_of_stat _ _ Hst), Hmode. reflexivity.
  - cbn [observes] in Hobs. unfold is_dir. rewrite Hobs. reflexivity.
  - apply observes_Dir in Hobs. destruct Hobs as (Hst & Hmode & Hls & Hkids).
    rewrite (is_dir_of_stat _ _ Hst), Hmode, Hls. cbn [gen_bind].
    rewrite delete_tasks_Dir.
    pose proof (depth_Dir st kids) as Hdepth.
    assert (Hloop :
      for_each_child
        (fun name => prepare_delete_body h fuel (path ++ "/" ++ name))
        (map fst kids)
      = (delete_tasks_of_kids path kids, None)).
    { apply for_each_child_observed.
      rewrite Forall_forall in *. intros [n k] Hin. cbn [fst snd].
      apply (IH _ Hin).
      - apply (Hkids _ Hin).
      - specialize (Hdepth _ Hin). cbn [snd] in Hdepth |- *. lia. }
    rewrite Hloop. reflexivity.
Qed.

End DeletePlan.

(** ** Running generators *)

Lemma exhaust_yield_from sw r :
  forall h k,
    exhaust h (yield_from sw r h k)
    = gen_seq (if sw then gen_except_FileNotFoundError (exhaust h r)
               else exhaust h r)
              (exhaust h (k h)).
Proof.
  induction r as [|e|t resume IH]; intros h k; cbn [yield_from exhaust].
  - destruct sw; cbn; now destruct (exhaust h (k h)).
  - destruct sw; cbn [andb].
    + destruct (is_FileNotFoundError e) eqn:He;
        unfold gen_except_FileNotFoundError, gen_raise, gen_seq;
        cbn [fst snd exhaust]; rewrite He; cbn [fst snd app];
        [now destruct (exhaust h (k h)) | reflexivity].
    + reflexivity.
  - rewrite IH.
    unfold gen_seq, gen_except_FileNotFoundError, gen_yield.
    destruct (exhaust h (resume h)) as [ts [e|]];
      destruct sw; cbn [fst snd];
      try destruct (is_FileNotFoundError e); cbn [fst snd app]; reflexivity.
Qed.

Lemma exhaust_for_each_child plan_gen plan names h :
  (forall name, exhaust h (plan_gen name h) = plan name) ->
  exhaust h (for_each_child_gen plan_gen names h) = for_each_child plan names.
Proof.
  intros Hplan. induction names as [|n r IH];
    cbn [for_each_child_gen for_each_child exhaust]; [reflexivity|].
  now rewrite exhaust_yield_from, Hplan, IH.
Qed.

(** Advanced to its end on a disk that stays as it is, each generator
    yields the plan of the same name. *)
Lemma prepare_delete_gen_exhausted h :
  forall fuel path,
    exhaust h (prepare_delete_gen fuel path h) = prepare_delete_body h fuel path.
Proof.
  induction fuel as [|fuel IH]; intros path;
    cbn [prepare_delete_gen prepare_delete_body]; [reflexivity|].
  destruct (is_dir h path) as [[|]|e]; cbn [res_bind gen_bind];
    try reflexivity.
  destruct (iterdir h path) as [names|e]; cbn [res_bind gen_bind];
    [|reflexivity].
  rewrite exhaust_yield_from.
  rewrite (exhaust_for_each_child _
             (fun name => prepare_delete_body h fuel (path ++ "/" ++ name)));
    [reflexivity|].
  intros name. apply IH.
Qed.

Lemma _prepare_copy_gen_exhausted h measure_size :
  forall fuel src_url dst_url,
    exhaust h (_prepare_copy_gen fuel src_url dst_url measure_size h)
    = _prepare_copy h fuel src_url dst_url measure_size.
Proof.
  induction fuel as [|fuel IH]; intros src_url dst_url;
    cbn [_prepare_copy_gen _prepare_copy]; [reflexivity|].
  destruct (_check_transfer_precnds h src_url dst_url) as [[sp dp]|e];
    cbn [res_bind gen_bind]; [|reflexivity].
  destruct (is_dir h sp) as [[|]|e]; cbn [res_bind gen_bind exhaust];
    [| |reflexivity].
  - f_equal.
    destruct (iterdir h sp) as [names|e]; cbn [res_bind gen_bind];
      [|reflexivity].
    apply exhaust_for_each_child. intros name. apply IH.
  - destruct (if measure_size then size_bytes h sp else Return 0%Z);
      reflexivity.
Qed.

Lemma _prepare_move_gen_exhausted h fuel src_url dst_url measure_size :
  exhaust h (_prepare_move_gen fuel src_url dst_url measure_size h)
  = _prepare_move h fuel src_url dst_url measure_size.
Proof.
  unfold _prepare_move_gen, _prepare_move.
  destruct (_check_transfer_precnds h src_url dst_url) as [[sp dp]|e];
    cbn [res_bind gen_bind]; [|reflexivity].
  destruct (stat h sp) as [src_stat|e]; cbn [res_bind gen_bind];
    [|reflexivity].
  destruct (splitscheme (dirname dst_url)) as [dd|e]; cbn [res_bind gen_bind];
    [|reflexivity].
  destruct (stat h (snd dd)) as [dst_dir_stat|e]; cbn [res_bind gen_bind];
    [|reflexivity].
  destruct (Z.eqb (st_dev src_stat) (st_dev dst_dir_stat)); [reflexivity|].
  now rewrite exhaust_yield_from, _prepare_copy_gen_exhausted.
Qed.

Lemma prepare_trash_gen_exhausted h path :
  exhaust h (prepare_trash_gen path h) = prepare_trash_body h path.
Proof.
  unfold prepare_trash_gen, prepare_trash_body.
  now destruct (isabs h (_url_to_os_path h path)).
Qed.

Section RunLemmas.

Context {W : World}.

Variable call : Host -> Task -> M unit.

Lemma for_each_task_drive r :
  forall h,
    for_each_task call r h
    = (fst (fst (drive call r h)), outcome_of (snd (drive call r h))).
Proof.
  induction r as [|e|t resume IH]; intros h; cbn [for_each_task drive];
    try reflexivity.
  unfold bind, trace_of. destruct (call h t) as [tr [[]|e]]; cbn [fst snd];
    [|reflexivity].
  rewrite IH.
  now destruct (drive call (resume (host_after h tr)) (host_after h tr))
    as [[tr' h''] en].
Qed.

Lemma drive_yield_from sw r :
  forall h k,
    drive call (yield_from sw r h k) h
    = followed_by (drive call r h) sw (fun h' => drive call (k h') h').
Proof.
  induction r as [|e|t resume IH]; intros h k;
    cbn [yield_from drive followed_by].
  - now destruct (drive call (k h) h) as [[tr' h''] en].
  - destruct (sw && is_FileNotFoundError e); [|reflexivity].
    now destruct (drive call (k h) h) as [[tr' h''] en].
  - destruct (call h t) as [tr [[]|e]]; [|reflexivity].
    rewrite IH. unfold followed_by.
    destruct (drive call (resume (host_after h tr)) (host_after h tr))
      as [[tr1 h1] en1].
    destruct (drive call (k h1) h1) as [[tr2 h2] en2].
    destruct en1 as [|e|e]; try reflexivity.
    + now rewrite app_assoc.
    + destruct (sw && is_FileNotFoundError e); [|reflexivity].
      now rewrite app_assoc.
Qed.

End RunLemmas.

Section Replay.

Context {W : World}.

Lemma followed_by_cons ev x sw k :
  followed_by (let '(tr, h', en) := x in (ev :: tr, h', en)) sw k
  = let '(tr, h', en) := followed_by x sw k in (ev :: tr, h', en).
Proof.
  destruct x as [[tr h'] en]. unfold followed_by.
  destruct (k h') as [[tr' h''] en'].
  destruct en as [|e|e]; try reflexivity.
  now destruct (sw && is_FileNotFoundError e).
Qed.

Lemma replay_app full1 full2 en :
  forall h,
    replay h (full1 ++ full2) en
    = followed_by (replay h full1 Exhausted) false
        (fun h' => replay h' full2 en).
Proof.
  induction full1 as [|ev full1 IH]; intros h; cbn [app replay].
  - cbn [followed_by app]. now destruct (replay h full2 en) as [[tr h'] en'].
  - destruct ev as [c|n|n]; try (rewrite IH, followed_by_cons; reflexivity).
    destruct (os_fails h c); [reflexivity|].
    now rewrite IH, followed_by_cons.
Qed.

Lemma replay_ending full :
  forall h,
    snd (replay h full Exhausted) = Exhausted \/
    exists e, snd (replay h full Exhausted) = TaskRaised e.
Proof.
  induction full as [|ev full IH]; intros h; cbn [replay]; [now left|].
  destruct ev as [c|n|n].
  - destruct (os_fails h c) as [oe|]; [right; now eexists|].
    specialize (IH (after h c)).
    now destruct (replay (after h c) full Exhausted) as [[tr h'] en].
  - specialize (IH h). now destruct (replay h full Exhausted) as [[tr h'] en].
  - specialize (IH h). now destruct (replay h full Exhausted) as [[tr h'] en].
Qed.

(** What ends the run of a vanished child is swallowed. *)
Lemma followed_by_replay_child full e k :
  (e = Vanished -> full = []) ->
  forall h,
    followed_by (replay h full (ending_of e)) true k
    = followed_by (replay h full Exhausted) false k.
Proof.
  intros Hv h.
  assert (Hsw : followed_by (replay h full Exhausted) true k
                = followed_by (replay h full Exhausted) false k).
  { pose proof (replay_ending full h) as Hen.
    destruct (replay h full Exhausted) as [[tr h'] en]. cbn [snd] in Hen.
    destruct Hen as [-> | [e' ->]]; reflexivity. }
  destruct e; try exact Hsw.
  rewrite (Hv eq_refl). reflexivity.
Qed.

(** The rest of a run starts on the disk the calls so far have left. *)
Lemma followed_by_replay_ext full k1 k2 :
  forall h,
    k1 (host_after h full) = k2 (host_after h full) ->
    followed_by (replay h full Exhausted) false k1
    = followed_by (replay h full Exhausted) false k2.
Proof.
  induction full as [|ev full IH]; intros h Hk; cbn [replay].
  - cbn [followed_by]. cbn in Hk. now rewrite Hk.
  - destruct ev as [c|n|n]; try (rewrite !followed_by_cons, (IH h Hk);
      reflexivity).
    destruct (os_fails h c); [reflexivity|].
    now rewrite !followed_by_cons, (IH (after h c) Hk).
Qed.

Lemma replay_accepted full en :
  forall h,
    accepted h full -> replay h full en = (full, host_after h full, en).
Proof.
  induction full as [|ev full IH]; intros h Hok; cbn [replay];
    [reflexivity|].
  destruct ev as [c|n|n]; cbn [accepted] in Hok;
    try (now rewrite (IH h Hok)).
  destruct Hok as [Hc Hok]. now rewrite Hc, (IH _ Hok).
Qed.

Lemma runs_prefix_replay full :
  forall h,
    runs_prefix_of h full
      (fst (fst (replay h full Exhausted)),
       outcome_of (snd (replay h full Exhausted))).
Proof.
  unfold runs_prefix_of, trace_of, result_of.
  induction full as [|ev full IH]; intros h;
    cbn [replay fst snd outcome_of].
  - now split.
  - assert (Hstep : forall h1,
      (match ev with Sys c => after h c | _ => h end) = h1 ->
      (match ev with Sys c => os_fails h c = None | _ => True end) ->
      match outcome_of (snd (let '(tr, h', en') := replay h1 full Exhausted in
                             (ev :: tr, h', en'))) with
      | Return _ =>
          fst (fst (let '(tr, h', en') := replay h1 full Exhausted in
                    (ev :: tr, h', en'))) = ev :: full /\
          accepted h (ev :: full)
      | Raise ex =>
          exists pre c oe rest,
            fst (fst (let '(tr, h', en') := replay h1 full Exhausted in
                      (ev :: tr, h', en'))) = pre ++ [Sys c] /\
            accepted h pre /\ os_fails (host_after h pre) c = Some oe /\
            ex = OSError oe /\ ev :: full = pre ++ Sys c :: rest
      end).
    { intros h1 Hh1 Hev. specialize (IH h1).
      destruct (replay h1 full Exhausted) as [[tr h'] en'].
      cbn [fst snd] in *.
      destruct (outcome_of en') as [[]|ex].
      - destruct IH as [-> Hok]. split; [reflexivity|].
        destruct ev; cbn [accepted]; subst h1; auto.
      - destruct IH as (pre & c & oe & rest & -> & Hok & Hf & -> & ->).
        exists (ev :: pre), c, oe, rest. repeat split.
        + destruct ev; cbn [accepted]; subst h1; auto.
        + destruct ev; subst h1; exact Hf. }
    destruct ev as [c|n|n]; try (apply Hstep; [reflexivity | exact I]).
    destruct (os_fails h c) as [oe|] eqn:Hc; [|now apply Hstep].
    cbn [fst snd outcome_of].
    exists [], c, oe, full. now repeat split.
Qed.

End Replay.

(** ** Deleting while the disk changes *)

Section DeleteRun.

Context {W : World}.
Variable canceled : nat -> bool.
Variable fl : nat.

Lemma call_deleting_task h path f :
  call h canceled fl (deleting_task path f) = _do_delete h path f.
Proof. destruct fl; reflexivity. Qed.

Lemma drive_deleting_task h path f :
  drive (fun h' => call h' canceled fl)
    (Yield (deleting_task path f) (fun _ => Done)) h
  = replay h [Sys (removal f path); Notify (file_removed path)] Exhausted.
Proof.
  cbn [drive replay]. rewrite call_deleting_task.
  unfold _do_delete, call_delete_fn, sys, notify_file_removed, emit, bind.
  destruct f; cbn [removal];
    match goal with |- context [os_fails h ?c] =>
      destruct (os_fails h c) end; reflexivity.
Qed.

Lemma seen_while_deleting_Dir h path st kids :
  seen_while_deleting h path (Dir st kids) <->
  stat h path = Return st /\ S_ISDIR (st_mode st) = true /\
  iterdir h path = Return (map fst kids) /\
  kids_seen_while_deleting h path kids.
Proof. reflexivity. Qed.

Lemma kids_seen_while_deleting_cons h path n k r :
  kids_seen_while_deleting h path ((n, k) :: r) <->
  seen_while_deleting h (path ++ "/" ++ n) k /\
  kids_seen_while_deleting
    (host_after h (delete_trace (path ++ "/" ++ n) k)) path r.
Proof. reflexivity. Qed.

(** The run of a delete generator over what it sees goes through the
    post-order removals until the OS refuses one. *)
Lemma drive_prepare_delete e :
  forall fuel path h,
    seen_while_deleting h path e ->
    depth e <= fuel ->
    drive (fun h' => call h' canceled fl) (prepare_delete_gen fuel path h) h
    = replay h (delete_trace path e) (ending_of e).
Proof.
  induction e as [st| |st kids IH] using entry_induction;
    intros fuel path h Hseen Hfuel;
    (destruct fuel as [|fuel]; [cbn [depth] in Hfuel; lia|]);
    cbn [prepare_delete_gen].
  - destruct Hseen as [Hst Hmode].
    rewrite (is_dir_of_stat _ _ Hst), Hmode. cbn [res_bind].
    apply (drive_deleting_task h path remove).
  - cbn [seen_while_deleting] in Hseen. unfold is_dir. rewrite Hseen.
    reflexivity.
  - apply seen_while_deleting_Dir in Hseen.
    destruct Hseen as (Hst & Hmode & Hls & Hkids).
    rewrite (is_dir_of_stat _ _ Hst), Hmode, Hls. cbn [res_bind].
    rewrite drive_yield_from, delete_trace_Dir, replay_app.
    cbn [ending_of].
    assert (Hdepth : Forall (fun nk => depth (snd nk) <= fuel) kids).
    { eapply Forall_impl; [|apply (depth_Dir st kids)].
      intros nk H. cbn beta in H. lia. }
    assert (Hloop :
      drive (fun h' => call h' canceled fl)
        (for_each_child_gen
           (fun name => prepare_delete_gen fuel (path ++ "/" ++ name))
           (map fst kids) h) h
      = replay h (delete_trace_of_kids path kids) Exhausted).
    { clear Hst Hmode Hls Hfuel. revert h Hkids.
      induction IH as [|[n k] r IHk _ IHr]; intros h Hkids;
        [reflexivity|].
      apply kids_seen_while_deleting_cons in Hkids.
      destruct Hkids as [Hk Hr].
      inversion Hdepth as [|? ? Hdk Hdr]; subst. cbn [snd] in Hdk.
      cbn [map fst for_each_child_gen].
      rewrite drive_yield_from, (IHk fuel _ h Hk Hdk).
      unfold delete_trace_of_kids. cbn [flat_map fst snd].
      rewrite replay_app, followed_by_replay_child.
      - apply followed_by_replay_ext. now apply IHr.
      - now intros ->. }
    rewrite Hloop. apply followed_by_replay_ext.
    apply (drive_deleting_task _ path rmdir).
Qed.

Lemma delete_replays path e h :
  seen_while_deleting h path e ->
  e <> Vanished ->
  depth e <= fl ->
  delete h canceled fl path
  = (fst (fst (replay h (delete_trace path e) Exhausted)),
     outcome_of (snd (replay h (delete_trace path e) Exhausted))).
Proof.
  intros Hseen Hne Hfuel. unfold delete, run_generator.
  rewrite for_each_task_drive, (@drive_prepare_delete e fl path h Hseen Hfuel).
  now destruct e.
Qed.

(** Deleting what is seen goes through the post-order removals of it and
    stops at the first call the OS refuses. *)
Lemma delete_runs_prefix path e h :
  seen_while_deleting h path e ->
  e <> Vanished ->
  depth e <= fl ->
  runs_prefix_of h (delete_trace path e) (delete h canceled fl path).
Proof.
  intros Hseen Hne Hfuel. rewrite (@delete_replays path e h Hseen Hne Hfuel).
  apply runs_prefix_replay.
Qed.

(** When the OS accepts every removal, everything seen is removed. *)
Lemma delete_accepted path e h :
  seen_while_deleting h path e ->
  e <> Vanished ->
  depth e <= fl ->
  accepted h (delete_trace path e) ->
  delete h canceled fl path = (delete_trace path e, Return tt).
Proof.
  intros Hseen Hne Hfuel Hok.
  rewrite (@delete_replays path e h Hseen Hne Hfuel).
  now rewrite (@replay_accepted _ _ Exhausted h Hok).
Qed.

End DeleteRun.

(** ** Move planning *)

Lemma splitscheme_scheme x :
  splitscheme (scheme ++ x) = Return (scheme, x).
Proof. reflexivity. Qed.

Lemma splitscheme_dirname dst_url dp :
  splitscheme dst_url = Return (scheme, dp) ->
  splitscheme (dirname dst_url) = Return (scheme, parent dp).
Proof.
  intros Hd. unfold dirname, scheme_of, path_of. rewrite Hd.
  apply splitscheme_scheme.
Qed.

(** C1: for a move request that passes the precondition check and whose
    source and destination parent can be stat'ed: on equal devices the plan
    is the single Task [Moving <name>] of size 1, whose body renames the
    native source path to the native destination path in one OS call and,
    that done, notifies removed(src) and then added(dst); on different
    devices the plan is the copy plan of (src, dst) followed by the one Task
    [Postprocessing <name>], whose body is [delete] of the source path. On
    the disk it is called on, that body goes through the subtree as it sees
    it, children before their directory, removing each entry and announcing
    it, and stops at the first call the OS refuses; when the OS refuses
    none, everything it saw is removed. The plan is stated both as it is
    looked at and as the generator that is run. *)
Theorem prepare_move_plan {W : World}
  h canceled fuel measure_size src_url dst_url sp dp src_stat dst_dir_stat :
  _check_transfer_precnds h src_url dst_url = Return (sp, dp) ->
  stat h sp = Return src_stat ->
  stat h (path_of (dirname dst_url)) = Return dst_dir_stat ->
  if Z.eqb (st_dev src_stat) (st_dev dst_dir_stat) then
    _prepare_move h fuel src_url dst_url measure_size
    = ([moving_task src_url dst_url], None) /\
    _prepare_move_gen fuel src_url dst_url measure_size h
    = Yield (moving_task src_url dst_url) (fun _ => Done) /\
    forall h',
      call h' canceled fuel (moving_task src_url dst_url)
      = match os_fails h' (os_replace (_url_to_os_path h' sp)
                             (_url_to_os_path h' dp)) with
        | None =>
            ([Sys (os_replace (_url_to_os_path h' sp) (_url_to_os_path h' dp));
              Notify (file_removed sp); Notify (file_added dp)], Return tt)
        | Some e =>
            ([Sys (os_replace (_url_to_os_path h' sp) (_url_to_os_path h' dp))],
             Raise (OSError e))
        end
  else
    _prepare_move h fuel src_url dst_url measure_size
    = gen_seq (_prepare_copy h fuel src_url dst_url measure_size)
        ([postprocessing_task src_url sp], None) /\
    (forall copy_plan,
       _prepare_copy h fuel src_url dst_url measure_size = (copy_plan, None) ->
       _prepare_move h fuel src_url dst_url measure_size
       = (copy_plan ++ [postprocessing_task src_url sp], None)) /\
    _prepare_move_gen fuel src_url dst_url measure_size h
    = yield_from false
        (_prepare_copy_gen fuel src_url dst_url measure_size h) h
        (fun _ => Yield (postprocessing_task src_url sp) (fun _ => Done)) /\
    forall h',
      call h' canceled (S fuel) (postprocessing_task src_url sp)
      = delete h' canceled fuel sp /\
      forall tree,
        seen_while_deleting h' sp tree ->
        tree <> Vanished ->
        depth tree <= fuel ->
        runs_prefix_of h' (delete_trace sp tree)
          (call h' canceled (S fuel) (postprocessing_task src_url sp)) /\
        (accepted h' (delete_trace sp tree) ->
         call h' canceled (S fuel) (postprocessing_task src_url sp)
         = (delete_trace sp tree, Return tt)).
Proof.
  intros Hcheck Hsrc Hdir.
  pose proof (check_transfer_precnds_inv _ _ _ Hcheck) as (Hs & Hd & Ha).
  assert (Hplan :
    _prepare_move h fuel src_url dst_url measure_size
    = if Z.eqb (st_dev src_stat) (st_dev dst_dir_stat)
      then ([moving_task src_url dst_url], None)
      else gen_seq (_prepare_copy h fuel src_url dst_url measure_size)
             ([postprocessing_task src_url sp], None)).
  { unfold _prepare_move. rewrite Hcheck. cbn [gen_bind]. rewrite Hsrc.
    cbn [gen_bind]. unfold path_of in Hdir.
    rewrite (splitscheme_dirname _ Hd) in Hdir |- *. cbn [gen_bind snd].
    rewrite Hdir. reflexivity. }
  assert (Hgen :
    _prepare_move_gen fuel src_url dst_url measure_size h
    = if Z.eqb (st_dev src_stat) (st_dev dst_dir_stat)
      then Yield (moving_task src_url dst_url) (fun _ => Done)
      else yield_from false
             (_prepare_copy_gen fuel src_url dst_url measure_size h) h
             (fun _ =>
                Yield (postprocessing_task src_url sp) (fun _ => Done))).
  { unfold _prepare_move_gen. rewrite Hcheck. cbn [res_bind]. rewrite Hsrc.
    cbn [res_bind]. unfold path_of in Hdir.
    rewrite (splitscheme_dirname _ Hd) in Hdir |- *. cbn [res_bind snd].
    rewrite Hdir. reflexivity. }
  rewrite Hplan, Hgen.
  destruct (Z.eqb (st_dev src_stat) (st_dev dst_dir_stat)).
  - split; [reflexivity|]. split; [reflexivity|]. intros h'.
    destruct fuel; cbn [call fn moving_task]; unfold _rename;
      rewrite Hs, Hd; cbn [lift bind snd]; unfold sys;
      destruct (os_fails h' (os_replace (_url_to_os_path h' sp)
                               (_url_to_os_path h' dp))); reflexivity.
  - split; [reflexivity|]. split; [|split; [reflexivity|]].
    + intros copy_plan ->. reflexivity.
    + intros h'. split; [reflexivity|].
      intros tree Hseen Hne Hfuel.
      change (call h' canceled (S fuel) (postprocessing_task src_url sp))
        with (delete h' canceled fuel sp).
      split.
      * now apply delete_runs_prefix.
      * now apply delete_accepted.
Qed.

Lemma prepare_move_plan_witness :
  _prepare_move example_host 5 "file:///src/dir" "file:///dst/dir" true
  = ([moving_task "file:///src/dir" "file:///dst/dir"], None) /\
  _prepare_move root_host 5 "file:///src/dir" "file:///moved" true
  = ([moving_task "file:///src/dir" "file:///moved"], None) /\
  _prepare_move example_host 5 "file:///src/dir" "file:///mnt/dir" true
  = ([creating_task "file:///mnt/dir";
      CopyFile "file:///src/dir/a.txt" "file:///mnt/dir/a.txt" 10;
      postprocessing_task "file:///src/dir" "/src/dir"], None) /\
  call (W:=example_world) example_host (fun _ => false) 6
    (postprocessing_task "file:///src/dir" "/src/dir")
  = ([Sys (os_remove "/src/dir/a.txt");
      Notify (file_removed "/src/dir/a.txt");
      Sys (os_rmdir "/src/dir"); Notify (file_removed "/src/dir")],
     Return tt) /\
  runs_prefix_of (W:=example_world) example_host
    (delete_trace "/src" example_tree_while_deleting)
    (call (W:=example_world) example_host (fun _ => false) 6
       (postprocessing_task "file:///src" "/src")).
Proof.
  pose proof (@prepare_move_plan example_world example_host (fun _ => false)
                5 true
                "file:///src/dir" "file:///dst/dir" "/src/dir" "/dst/dir"
                (a_dir 1) (a_dir 1) eq_refl eq_refl eq_refl) as Hsame.
  pose proof (@prepare_move_plan example_world root_host (fun _ => false)
                5 true
                "file:///src/dir" "file:///moved" "/src/dir" "/moved"
                (a_dir 1) (a_dir 1) eq_refl eq_refl eq_refl) as Hroot.
  pose proof (@prepare_move_plan example_world example_host (fun _ => false)
                5 true
                "file:///src/dir" "file:///mnt/dir" "/src/dir" "/mnt/dir"
                (a_dir 1) (a_dir 2) eq_refl eq_refl eq_refl) as Hcross.
  pose proof (@prepare_move_plan example_world example_host (fun _ => false)
                5 true
                "file:///src" "file:///mnt/src" "/src" "/mnt/src"
                (a_dir 1) (a_dir 2) eq_refl eq_refl eq_refl) as Hlink.
  cbv beta iota delta [Z.eqb st_dev a_dir Pos.eqb] in Hsame, Hroot, Hcross,
    Hlink.
  destruct Hsame as [Hplan _]. destruct Hroot as [Hrootplan _].
  destruct Hcross as (_ & Hcopy & _ & Hdelete).
  destruct Hlink as (_ & _ & _ & Hdangling).
  split; [exact Hplan|]. split; [exact Hrootplan|]. split; [|split].
  - apply (Hcopy [creating_task "file:///mnt/dir";
                  CopyFile "file:///src/dir/a.txt" "file:///mnt/dir/a.txt"
                    10]).
    reflexivity.
  - destruct (proj2 (Hdelete example_host)
                (Dir (a_dir 1) [("a.txt", File (a_file 1 10))]))
      as [_ Haccepted].
    + cbn. repeat split.
    + discriminate.
    + cbn. lia.
    + apply Haccepted. cbn. repeat split.
  - destruct (proj2 (Hdangling example_host) example_tree_while_deleting)
      as [Hprefix _].
    + cbn. repeat split.
    + discriminate.
    + cbn. lia.
    + exact Hprefix.
Defined.

(** The run of the last example, on the example disk with its link: once
    [/src/dir/a.txt] is removed the link [/src/link] dangles, [stat] does
    not find it and it is skipped, and [rmdir] of [/src], which still lists
    it, is refused. *)
Example postprocessing_with_a_dangling_link :
  call (W:=example_world) example_host (fun _ => false) 6
    (postprocessing_task "file:///src" "/src")
  = ([Sys (os_remove "/src/dir/a.txt");
      Notify (file_removed "/src/dir/a.txt");
      Sys (os_rmdir "/src/dir"); Notify (file_removed "/src/dir");
      Sys (os_rmdir "/src")],
     Raise (OSError ENOTEMPTY)).
Proof. reflexivity. Qed.

Example dirname_of_a_root_entry :
  dirname "file:///moved" = "file:///" /\
  dirname "file:///dst/dir" = "file:///dst" /\
  dirname "file://C:/Users/a.txt" = "file://C:/Users" /\
  dirname "file://C:/Users" = "file://C:".
Proof. repeat split. Qed.

(** ** Children that vanish during planning *)

Lemma gen_seq_end_not_found g t :
  snd (gen_seq g ([t], None)) = Some FileNotFoundError ->
  snd g = Some FileNotFoundError.
Proof.
  unfold gen_seq. destruct (snd g) as [e|] eqn:Hg; cbn [snd].
  - now rewrite Hg.
  - discriminate.
Qed.

(** A delete plan that ends with FileNotFoundError has yielded nothing. *)
Lemma prepare_delete_not_found h fuel path :
  snd (prepare_delete_body h fuel path) = Some FileNotFoundError ->
  fst (prepare_delete_body h fuel path) = [].
Proof.
  destruct fuel as [|fuel]; cbn [prepare_delete_body]; [discriminate|].
  destruct (is_dir h path) as [[|]|e]; cbn [gen_bind];
    [|discriminate|reflexivity].
  destruct (iterdir h path) as [names|e]; cbn [gen_bind]; [|reflexivity].
  intros H. apply gen_seq_end_not_found in H.
  apply for_each_child_end in H. destruct H as [H _]. discriminate.
Qed.

(** A copy plan that ends with FileNotFoundError has yielded nothing, or only
    the creation Task of its own directory, whose listing then failed. *)
Lemma prepare_copy_not_found h fuel src_url dst_url measure_size :
  snd (_prepare_copy h fuel src_url dst_url measure_size)
  = Some FileNotFoundError ->
  fst (_prepare_copy h fuel src_url dst_url measure_size) = [] \/
  (fst (_prepare_copy h fuel src_url dst_url measure_size)
   = [creating_task dst_url] /\
   exists sp, is_dir h sp = Return true /\
              iterdir h sp = Raise FileNotFoundError).
Proof.
  destruct fuel as [|fuel]; cbn [_prepare_copy]; [discriminate|].
  destruct (_check_transfer_precnds h src_url dst_url) as [[sp dp]|e]
    eqn:Hcheck; cbn [gen_bind]; [|now left].
  destruct (is_dir h sp) as [[|]|e] eqn:Hdir; cbn [gen_bind]; [| |now left].
  - destruct (iterdir h sp) as [names|e] eqn:Hls; cbn [gen_bind].
    + cbn [gen_yield snd]. intros H.
      apply for_each_child_end in H. destruct H as [H _]. discriminate.
    + cbn [gen_yield gen_raise fst snd]. intros [= ->]. right. split.
      * apply check_transfer_precnds_inv in Hcheck.
        destruct Hcheck as (_ & Hd & _).
        unfold creating_task, path_of. now rewrite Hd.
      * now exists sp.
  - destruct (if measure_size then size_bytes h sp else Return 0%Z);
      cbn [gen_bind]; [discriminate | now left].
Qed.

(** C6 (amended): in a copy or delete planning pass over a directory, a
    child whose planning raises FileNotFoundError does not end the
    directory's plan, which goes on with the children listed after it and
    never ends with FileNotFoundError itself. In delete planning the child
    contributes no Task, as if it had not been listed; in copy planning it
    contributes no Task or just its own creation Task, yielded before the
    directory's listing raised the error. *)
Theorem vanished_child_is_skipped
  h fuel measure_size src_url dst_url sp dp before child after :
  _check_transfer_precnds h src_url dst_url = Return (sp, dp) ->
  is_dir h sp = Return true ->
  iterdir h sp = Return (before ++ child :: after) ->
  snd (prepare_delete_body h fuel (sp ++ "/" ++ child))
  = Some FileNotFoundError ->
  snd (_prepare_copy h fuel (join src_url child) (join dst_url child)
         measure_size) = Some FileNotFoundError ->
  let plan_delete := fun name => prepare_delete_body h fuel (sp ++ "/" ++ name)
  in
  let plan_copy := fun name =>
    _prepare_copy h fuel (join src_url name) (join dst_url name) measure_size
  in
  (prepare_delete_body h (S fuel) sp
   = gen_seq (for_each_child plan_delete (before ++ after))
       ([deleting_task sp rmdir], None) /\
   snd (prepare_delete_body h (S fuel) sp) <> Some FileNotFoundError) /\
  (_prepare_copy h (S fuel) src_url dst_url measure_size
   = gen_yield (creating_task dst_url)
       (gen_seq (for_each_child plan_copy before)
          (gen_seq (fst (plan_copy child), None)
             (for_each_child plan_copy after))) /\
   (fst (plan_copy child) = [] \/
    fst (plan_copy child) = [creating_task (join dst_url child)]) /\
   snd (_prepare_copy h (S fuel) src_url dst_url measure_size)
   <> Some FileNotFoundError).
Proof.
  intros Hcheck Hdir Hls Hdel Hcopy plan_delete plan_copy.
  split.
  - assert (Heq : prepare_delete_body h (S fuel) sp
                  = gen_seq (for_each_child plan_delete (before ++ after))
                      ([deleting_task sp rmdir], None)).
    { cbn [prepare_delete_body]. rewrite Hdir, Hls. cbn [gen_bind].
      fold plan_delete.
      rewrite (for_each_child_skips plan_delete before child after Hdel).
      pose proof (prepare_delete_not_found h fuel _ Hdel) as Hnil.
      change (fst (plan_delete child) = []) in Hnil. rewrite Hnil.
      change (@nil Task, @None exn) with gen_done. rewrite gen_seq_done_l.
      now rewrite <- for_each_child_app. }
    split; [exact Heq|]. rewrite Heq. intros H.
    apply gen_seq_end_not_found in H.
    apply for_each_child_end in H. destruct H as [H _]. discriminate.
  - assert (Heq : _prepare_copy h (S fuel) src_url dst_url measure_size
                  = gen_yield (creating_task dst_url)
                      (gen_seq (for_each_child plan_copy before)
                         (gen_seq (fst (plan_copy child), None)
                            (for_each_child plan_copy after)))).
    { cbn [_prepare_copy]. rewrite Hcheck. cbn [gen_bind].
      rewrite Hdir, Hls. cbn [gen_bind]. fold plan_copy.
      rewrite (for_each_child_skips plan_copy before child after Hcopy).
      apply check_transfer_precnds_inv in Hcheck.
      destruct Hcheck as (_ & Hd & _).
      unfold creating_task, path_of. now rewrite Hd. }
    split; [exact Heq|]. split.
    + destruct (prepare_copy_not_found h fuel _ _ measure_size Hcopy)
        as [H|[H _]]; [now left | now right].
    + rewrite Heq. cbn [gen_yield snd].
      rewrite <- (for_each_child_skips plan_copy before child after Hcopy).
      intros H. apply for_each_child_end in H. destruct H as [H _].
      discriminate.
Qed.

Lemma vanished_child_is_skipped_witness :
  prepare_delete_body racy_host 5 "/src"
  = ([deleting_task "/src/b.txt" remove; deleting_task "/src" rmdir], None) /\
  _prepare_copy racy_host 5 "file:///src" "file:///dst/copy" false
  = ([creating_task "file:///dst/copy";
      creating_task "file:///dst/copy/dir";
      CopyFile "file:///src/b.txt" "file:///dst/copy/b.txt" 0], None).
Proof.
  destruct (@vanished_child_is_skipped racy_host 4 false
              "file:///src" "file:///dst/copy" "/src" "/dst/copy"
              [] "dir" ["gone"; "b.txt"]
              eq_refl eq_refl eq_refl eq_refl eq_refl)
    as ((Hdelete & _) & (Hcopy & _)).
  split.
  - rewrite Hdelete. reflexivity.
  - rewrite Hcopy. reflexivity.
Defined.

(** C6 as stated fails for copy planning: planning the child [dir] raises
    FileNotFoundError, no error reaches the consumer, and yet the child's
    creation Task is in the plan. *)
Lemma vanished_directory_keeps_its_creating_task :
  snd (_prepare_copy racy_host 4 (join "file:///src" "dir")
         (join "file:///dst/copy" "dir") false) = Some FileNotFoundError /\
  snd (_prepare_copy racy_host 5 "file:///src" "file:///dst/copy" false)
  = None /\
  In (creating_task (join "file:///dst/copy" "dir"))
     (fst (_prepare_copy racy_host 5 "file:///src" "file:///dst/copy" false)).
Proof. repeat split. right. left. reflexivity. Qed.

(** ** Native paths in the other mutating operations *)

Section CallsOn.

Variable h : Host.
Variable ok : string -> Prop.

Lemma calls_on_bind {A B} (m : M A) (k : A -> M B) :
  calls_on ok (trace_of m) ->
  (forall a, calls_on ok (trace_of (k a))) ->
  calls_on ok (trace_of (bind m k)).
Proof.
  unfold calls_on, bind. destruct m as [tr [a|e]]; cbn [trace_of fst].
  - intros Hm Hk. specialize (Hk a). destruct (k a) as [tr' r].
    cbn [trace_of fst] in *. apply Forall_app. now split.
  - now intros Hm _.
Qed.

Lemma calls_on_sys c : Forall ok (path_args c) -> calls_on ok (trace_of (sys h c)).
Proof. intros H. unfold calls_on, sys. cbn [trace_of fst]. now constructor. Qed.

Lemma calls_on_silent {A} (o : outcome A) : calls_on ok (trace_of (lift o)).
Proof. constructor. Qed.

Lemma calls_on_notify n r : calls_on ok (trace_of (A:=unit) ([Notify n], r)).
Proof. repeat constructor. Qed.

Lemma calls_on_progress n r : calls_on ok (trace_of (A:=unit) ([Progress n], r)).
Proof. repeat constructor. Qed.

Lemma calls_on_catch {A} (m : M A) handler :
  calls_on ok (trace_of m) ->
  (forall e m', handler e = Some m' -> calls_on ok (trace_of m')) ->
  calls_on ok (trace_of (catch m handler)).
Proof.
  unfold calls_on, catch. destruct m as [tr [a|e]]; [auto|].
  intros Hm Hh. destruct (handler e) as [[tr' r]|] eqn:He; [|exact Hm].
  specialize (Hh e _ He). cbn [trace_of fst] in *. apply Forall_app.
  now split.
Qed.

Lemma copy_stream_calls_on canceled src dst :
  ok src -> ok dst ->
  forall reads poll n,
    calls_on ok (trace_of (copy_stream h canceled src dst poll reads n)).
Proof.
  intros Hsrc Hdst.
  induction reads as [|buf rest IH]; intros poll n; cbn [copy_stream];
    (apply calls_on_bind;
     [unfold check_canceled; destruct (canceled poll); constructor|]);
    intros _;
    (apply calls_on_bind; [apply calls_on_sys; now repeat constructor|]);
    intros _.
  - constructor.
  - apply calls_on_bind; [apply calls_on_sys; now repeat constructor|].
    intros _. apply calls_on_bind; [apply calls_on_progress|].
    intros _. apply IH.
Qed.

End CallsOn.

(** [touch], [mkdir], [_rename], the trash Task and [CopyFile] hand the OS
    only strings that went through the native-path translation. *)
Lemma other_mutations_use_native_paths h canceled path src_url dst_url :
  calls_on (fun s => s = _url_to_os_path h path) (trace_of (touch h path)) /\
  calls_on (fun s => s = _url_to_os_path h path) (trace_of (mkdir h path)) /\
  calls_on (fun s => exists p, s = _url_to_os_path h p)
           (trace_of (_rename h src_url dst_url)) /\
  (forall t, In t (fst (prepare_trash_body h path)) ->
             fn t = fn_do_trash path (_url_to_os_path h path)) /\
  calls_on (fun s => s = _url_to_os_path h path)
           (trace_of (_do_trash h path (_url_to_os_path h path))) /\
  calls_on (fun s => s = as_human_readable h src_url \/
                     s = as_human_readable h dst_url)
           (trace_of (CopyFile_call h canceled src_url dst_url)).
Proof.
  split; [|split; [|split; [|split; [|split]]]].
  - unfold touch.
    destruct (isabs h (_url_to_os_path h path)); cbn [negb]; [|constructor].
    assert (Hfirst :
      calls_on (fun s => s = _url_to_os_path h path)
        (trace_of (sys h (os_touch (_url_to_os_path h path) false)))).
    { apply calls_on_sys. now repeat constructor. }
    destruct (sys h (os_touch (_url_to_os_path h path) false))
      as [tr [[]|[[]| | | |]]]; try exact Hfirst;
      (apply calls_on_bind; [exact Hfirst|]); intros _.
    + apply calls_on_notify.
    + apply calls_on_sys. now repeat constructor.
  - unfold mkdir.
    destruct (isabs h (_url_to_os_path h path)); cbn [negb]; [|constructor].
    apply calls_on_bind; [|intros _; apply calls_on_notify].
    apply calls_on_catch; [apply calls_on_sys; now repeat constructor|].
    intros e m' He.
    assert (Hq : forall e',
      calls_on (fun s => s = _url_to_os_path h path)
        (trace_of (bind (lift (Path_exists h (_url_to_os_path h path)))
                     (fun ex : bool =>
                        if ex then throw FileExistsError
                        else throw (A:=unit) e')))).
    { intros e'. apply calls_on_bind; [apply calls_on_silent|].
      intros []; constructor. }
    destruct e as [[]| | | |]; try discriminate He;
      injection He as <-; try apply Hq; constructor.
  - unfold _rename.
    apply calls_on_bind; [apply calls_on_silent|]. intros sp.
    apply calls_on_bind; [apply calls_on_silent|]. intros dp.
    apply calls_on_bind;
      [apply calls_on_sys;
       constructor; [eauto | constructor; [eauto | constructor]]|].
    intros _. apply calls_on_bind; [apply calls_on_notify|].
    intros _. apply calls_on_notify.
  - unfold prepare_trash_body.
    destruct (isabs h (_url_to_os_path h path)); cbn [negb].
    + intros t [<-|[]]. reflexivity.
    + intros t [].
  - unfold _do_trash.
    apply calls_on_bind; [apply calls_on_sys; now repeat constructor|].
    intros _. apply calls_on_notify.
  - unfold CopyFile_call.
    apply calls_on_bind; [apply calls_on_silent|]. intros dd.
    apply calls_on_bind; [apply calls_on_silent|]. intros existed.
    apply calls_on_bind.
    + destruct (islink h (as_human_readable h src_url)).
      * apply calls_on_bind; [apply calls_on_silent|]. intros target.
        apply calls_on_sys. constructor; [now right | constructor].
      * apply calls_on_bind;
          [apply calls_on_sys; constructor; [now left | constructor]|].
        intros _.
        apply calls_on_bind;
          [apply calls_on_sys; constructor; [now right | constructor]|].
        intros _. apply copy_stream_calls_on; [now left | now right].
    + intros _.
      apply calls_on_bind;
        [apply calls_on_sys;
         constructor; [now left | constructor; [now right | constructor]]|].
      intros _. destruct existed; cbn [negb];
        [constructor | apply calls_on_notify].
Qed.

(** * Further properties *)

(** ** Running a regular-file copy *)

Lemma written_app tr1 tr2 : written (tr1 ++ tr2) = written tr1 ++ written tr2.
Proof.
  induction tr1 as [|ev r IH]; [reflexivity|].
  destruct ev as [[]| |]; cbn [written app]; try exact IH.
  now rewrite IH, app_assoc.
Qed.

Lemma progress_consistent_app n tr1 tr2 :
  progress_consistent n (tr1 ++ tr2) <->
  progress_consistent n tr1 /\
  progress_consistent (n + Z.of_nat (length (written tr1))) tr2.
Proof.
  revert n. induction tr1 as [|ev r IH]; intros n.
  - cbn [app written length progress_consistent]. rewrite Z.add_0_r. tauto.
  - destruct ev as [[]|m|m]; cbn [app written progress_consistent];
      rewrite ?IH; try tauto.
    rewrite length_app, Nat2Z.inj_add, Z.add_assoc. tauto.
Qed.

Lemma copy_stream_progress h canceled src dst :
  forall reads poll n,
    progress_consistent n
      (trace_of (copy_stream h canceled src dst poll reads n)).
Proof.
  induction reads as [|buf rest IH]; intros poll n; cbn [copy_stream];
    unfold check_canceled, sys, emit, ret, throw, bind;
    (destruct (canceled poll); [exact I|]);
    (destruct (os_fails h (os_read src (16 * 1024))); [exact I|]).
  - exact I.
  - destruct (os_fails h (os_write dst buf)); [exact I|].
    specialize (IH (S poll) (n + Z.of_nat (length buf))%Z).
    destruct (copy_stream h canceled src dst (S poll) rest
                (n + Z.of_nat (length buf))) as [tr r].
    cbn [trace_of fst app progress_consistent] in *. auto.
Qed.

Lemma Forall_bind (P : event -> Prop) {A B} (m : M A) (k : A -> M B) :
  Forall P (trace_of m) ->
  (forall a, Forall P (trace_of (k a))) ->
  Forall P (trace_of (bind m k)).
Proof.
  unfold bind. destruct m as [tr [a|e]]; cbn [trace_of fst].
  - intros Hm Hk. specialize (Hk a). destruct (k a) as [tr' r].
    cbn [trace_of fst] in *. apply Forall_app. now split.
  - now intros Hm _.
Qed.

Lemma Forall_sys (P : event -> Prop) h c :
  P (Sys c) -> Forall P (trace_of (sys h c)).
Proof. intros H. unfold sys. cbn [trace_of fst]. now constructor. Qed.

Lemma copy_stream_Forall (P : event -> Prop) h canceled src dst :
  (forall n, P (Sys (os_read src n))) ->
  (forall buf, P (Sys (os_write dst buf))) ->
  (forall n, P (Progress n)) ->
  forall reads poll n,
    Forall P (trace_of (copy_stream h canceled src dst poll reads n)).
Proof.
  intros Hread Hwrite Hprog.
  induction reads as [|buf rest IH]; intros poll n; cbn [copy_stream];
    (apply Forall_bind;
     [unfold check_canceled; destruct (canceled poll); constructor|]);
    intros _; (apply Forall_bind; [now apply Forall_sys|]); intros _.
  - constructor.
  - apply Forall_bind; [now apply Forall_sys|]. intros _.
    apply Forall_bind; [repeat constructor; apply Hprog|]. intros _.
    apply IH.
Qed.

(** The part of [CopyFile.__call__] before the metadata copy. *)
Lemma CopyFile_transfer_Forall (P : event -> Prop) h canceled src dst :
  (forall c, P (Sys c)) -> (forall n, P (Progress n)) ->
  Forall P
    (trace_of
       (if islink h src
        then bind (lift (of_os (os_readlink h src)))
                  (fun target => sys h (os_symlink target dst))
        else bind (sys h (os_open_rb src))
               (fun _ => bind (sys h (os_open_wb dst))
                  (fun _ => copy_stream h canceled src dst 0
                              (chunks (os_content h src)) 0)))).
Proof.
  intros Hsys Hprog. destruct (islink h src).
  - apply Forall_bind; [constructor|]. intros target. now apply Forall_sys.
  - apply Forall_bind; [now apply Forall_sys|]. intros _.
    apply Forall_bind; [now apply Forall_sys|]. intros _.
    apply copy_stream_Forall; auto.
Qed.

(** The regular-file branch of [CopyFile.__call__] when nothing stops it. *)
Lemma CopyFile_call_regular h canceled src_url dst_url dd existed :
  islink h (as_human_readable h src_url) = false ->
  splitscheme dst_url = Return dd ->
  exists_ h (snd dd) = Return existed ->
  (forall c, os_fails h c = None) ->
  (forall j, j <= length (chunks (os_content h (as_human_readable h src_url)))
             -> canceled j = false) ->
  CopyFile_call h canceled src_url dst_url
  = (Sys (os_open_rb (as_human_readable h src_url))
     :: Sys (os_open_wb (as_human_readable h dst_url))
     :: streamed (as_human_readable h src_url) (as_human_readable h dst_url) 0
          (chunks (os_content h (as_human_readable h src_url)))
     ++ Sys (os_read (as_human_readable h src_url) (16 * 1024))
     :: Sys (os_copystat (as_human_readable h src_url)
               (as_human_readable h dst_url) false)
     :: (if existed then [] else [Notify (file_added (snd dd))]),
     Return tt).
Proof.
  intros Hlink Hsplit Hex Hok Hnever.
  set (src := as_human_readable h src_url) in *.
  set (dst := as_human_readable h dst_url) in *.
  unfold CopyFile_call. rewrite Hsplit. cbn [lift bind].
  rewrite Hex. cbn [lift bind]. fold src dst. rewrite Hlink.
  rewrite !sys_ok by exact Hok.
  rewrite (@copy_stream_completes h canceled src dst Hok
             (chunks (os_content h src)) 0 0%Z Hnever).
  unfold notify_file_added, emit, ret, bind.
  destruct existed; cbn [negb app]; rewrite <- ?app_assoc; reflexivity.
Qed.

(** X1: A copy of a regular file that is never canceled, with an OS that
    refuses nothing, writes the bytes of the source, all of them and in
    order, then copies the metadata, and announces the destination if it
    did not exist before. *)
Theorem copy_of_regular_file_completes
  h canceled src_url dst_url dd existed :
  islink h (as_human_readable h src_url) = false ->
  splitscheme dst_url = Return dd ->
  exists_ h (snd dd) = Return existed ->
  (forall c, os_fails h c = None) ->
  (forall j, j <= length (chunks (os_content h (as_human_readable h src_url)))
             -> canceled j = false) ->
  CopyFile_call h canceled src_url dst_url
  = (Sys (os_open_rb (as_human_readable h src_url))
     :: Sys (os_open_wb (as_human_readable h dst_url))
     :: streamed (as_human_readable h src_url) (as_human_readable h dst_url) 0
          (chunks (os_content h (as_human_readable h src_url)))
     ++ Sys (os_read (as_human_readable h src_url) (16 * 1024))
     :: Sys (os_copystat (as_human_readable h src_url)
               (as_human_readable h dst_url) false)
     :: (if existed then [] else [Notify (file_added (snd dd))]),
     Return tt) /\
  written (trace_of (CopyFile_call h canceled src_url dst_url))
  = os_content h (as_human_readable h src_url).
Proof.
  intros Hlink Hsplit Hex Hok Hnever.
  pose proof (CopyFile_call_regular h canceled src_url dst_url
                Hlink Hsplit Hex Hok Hnever) as Hrun.
  split; [exact Hrun|]. rewrite Hrun. cbn [trace_of fst written].
  rewrite written_app, written_streamed.
  destruct existed; cbn [written]; rewrite app_nil_r; apply chunks_concat.
Qed.

Lemma copy_of_regular_file_completes_witness :
  written (trace_of (CopyFile_call big_host (fun _ => false)
                       "file:///big" "file:///dst/big"))
  = os_content big_host "/big".
Proof.
  apply (@copy_of_regular_file_completes big_host (fun _ => false)
           "file:///big" "file:///dst/big" ("file://", "/dst/big") false);
    reflexivity.
Defined.

Lemma progress_consistent_bind n {A B} (m : M A) (k : A -> M B) :
  progress_consistent n (trace_of m) ->
  (forall a, progress_consistent
               (n + Z.of_nat (length (written (trace_of m))))
               (trace_of (k a))) ->
  progress_consistent n (trace_of (bind m k)).
Proof.
  unfold bind. destruct m as [tr [a|e]]; cbn [trace_of fst].
  - intros Hm Hk. specialize (Hk a). destruct (k a) as [tr' r].
    cbn [trace_of fst] in *. apply progress_consistent_app. now split.
  - now intros Hm _.
Qed.

Lemma progress_consistent_sys n h c :
  progress_consistent n (trace_of (sys h c)).
Proof. unfold sys. cbn [trace_of fst]. now destruct c. Qed.

(** X2: Whatever the flag and the OS do, each progress report of a Copy Task
    states exactly the number of bytes the task has written so far. *)
Theorem copy_progress_counts_written_bytes h canceled src_url dst_url :
  progress_consistent 0 (trace_of (CopyFile_call h canceled src_url dst_url)).
Proof.
  unfold CopyFile_call.
  apply progress_consistent_bind; [exact I|]. intros dd.
  apply progress_consistent_bind; [exact I|]. intros existed.
  apply progress_consistent_bind.
  - destruct (islink h (as_human_readable h src_url)).
    + apply progress_consistent_bind; [exact I|]. intros target.
      apply progress_consistent_sys.
    + apply progress_consistent_bind; [apply progress_consistent_sys|].
      intros _.
      apply progress_consistent_bind; [apply progress_consistent_sys|].
      intros _. apply copy_stream_progress.
  - intros _.
    apply progress_consistent_bind; [apply progress_consistent_sys|].
    intros _. destruct existed; exact I.
Qed.

Lemma bind_lift {A B} (o : outcome A) (k : A -> M B) :
  bind (lift o) k = match o with
                    | Return a => k a
                    | Raise e => ([], Raise e)
                    end.
Proof. unfold bind, lift. destruct o as [a|e]; [now destruct (k a)|reflexivity]. Qed.

(** X3: A Copy Task notifies at most once, as the very last thing it does and
    only when everything before succeeded: the notification is added(dst)
    for a destination that did not exist when the Task started. *)
Theorem copy_notifies_only_after_success h canceled src_url dst_url n :
  In (Notify n) (trace_of (CopyFile_call h canceled src_url dst_url)) ->
  result_of (CopyFile_call h canceled src_url dst_url) = Return tt /\
  exists dd tr,
    splitscheme dst_url = Return dd /\
    exists_ h (snd dd) = Return false /\
    n = file_added (snd dd) /\
    trace_of (CopyFile_call h canceled src_url dst_url) = tr ++ [Notify n] /\
    Forall (fun ev => is_notification ev = false) tr.
Proof.
  unfold CopyFile_call. rewrite bind_lift.
  destruct (splitscheme dst_url) as [dd|e] eqn:Hsplit; [|intros []].
  rewrite bind_lift.
  destruct (exists_ h (snd dd)) as [existed|e] eqn:Hex; [|intros []].
  set (src := as_human_readable h src_url).
  set (dst := as_human_readable h dst_url).
  pose proof (@CopyFile_transfer_Forall
                (fun ev => is_notification ev = false) h canceled src dst
                (fun _ => eq_refl) (fun _ => eq_refl)) as Hbody.
  match goal with |- In _ (trace_of (bind ?m _)) -> _ =>
    destruct m as [tr [[]|e]] end; cbn [trace_of fst] in Hbody.
  2:{ cbn [bind trace_of fst]. intros Hin.
      rewrite Forall_forall in Hbody. specialize (Hbody _ Hin).
      discriminate. }
  unfold bind, sys, notify_file_added, emit, ret.
  destruct (os_fails h (os_copystat src dst false)); destruct existed;
    cbn [negb trace_of result_of fst snd app]; intros Hin;
    apply in_app_or in Hin; destruct Hin as [Hin|Hin];
    try (rewrite Forall_forall in Hbody; specialize (Hbody _ Hin);
         discriminate);
    cbn [In] in Hin;
    repeat match goal with
           | H : _ \/ _ |- _ => destruct H as [H|H]
           | H : False |- _ => destruct H
           | H : Sys _ = Notify _ |- _ => discriminate H
           end.
  injection Hin as <-. split; [reflexivity|].
  exists dd, (tr ++ [Sys (os_copystat src dst false)]).
  split; [reflexivity|]. split; [exact Hex|]. split; [reflexivity|]. split.
  - now rewrite <- app_assoc.
  - apply Forall_app. split; [exact Hbody|]. now repeat constructor.
Qed.

Lemma copy_notifies_only_after_success_witness :
  result_of (CopyFile_call example_host (fun _ => false)
               "file:///src/dir/a.txt" "file:///dst/a.txt") = Return tt.
Proof.
  apply (@copy_notifies_only_after_success example_host (fun _ => false)
           "file:///src/dir/a.txt" "file:///dst/a.txt"
           (file_added "/dst/a.txt")).
  vm_compute. tauto.
Defined.

(** ** Queries *)

(** X4: [exists] answers True exactly when [stat] succeeds, and when it answers
    False [stat] raises. *)
Theorem exists_agrees_with_stat h path :
  (exists_ h path = Return true <-> exists s, stat h path = Return s) /\
  (exists_ h path = Return false -> exists e, stat h path = Raise e).
Proof.
  unfold exists_, stat, Path_exists.
  destruct (isabs h (_url_to_os_path h path)); cbn [negb].
  - destruct (os_stat h (_url_to_os_path h path)) as [s|[]]; cbn [of_os];
      (split; [split; [intros H; try discriminate H; eauto
                      | intros [s' H]; try discriminate H; reflexivity]
              | intros H; try discriminate H; eauto]).
  - split; [split; [discriminate | intros [s H]; discriminate H]|eauto].
Qed.

Lemma samestat_refl s : samestat s s = true.
Proof. unfold samestat. now rewrite !Z.eqb_refl. Qed.

Lemma samestat_sym s1 s2 : samestat s1 s2 = samestat s2 s1.
Proof.
  unfold samestat.
  now rewrite (Z.eqb_sym (st_ino s1)), (Z.eqb_sym (st_dev s1)).
Qed.

(** X5: On entries that exist [samefile] is reflexive and symmetric, and it
    holds exactly when inode and device agree. *)
Theorem samefile_on_existing_entries h path1 path2 s1 s2 :
  stat h path1 = Return s1 ->
  stat h path2 = Return s2 ->
  samefile h path1 path1 = Return true /\
  samefile h path1 path2 = samefile h path2 path1 /\
  (samefile h path1 path2 = Return true <->
   st_ino s1 = st_ino s2 /\ st_dev s1 = st_dev s2).
Proof.
  intros H1 H2. unfold samefile. rewrite H1, H2. cbn [obind].
  rewrite samestat_refl, (samestat_sym s2 s1). repeat split.
  - unfold samestat in H. injection H as H.
    apply andb_true_iff in H. now apply Z.eqb_eq.
  - unfold samestat in H. injection H as H.
    apply andb_true_iff in H. now apply Z.eqb_eq.
  - intros [Hi Hd]. unfold samestat. now rewrite Hi, Hd, !Z.eqb_refl.
Qed.

Lemma samefile_on_existing_entries_witness :
  samefile example_host "/src" "/src" = Return true /\
  samefile example_host "/src" "/mnt" = samefile example_host "/mnt" "/src".
Proof.
  destruct (@samefile_on_existing_entries example_host "/src" "/mnt"
              (a_dir 1) (a_dir 2) eq_refl eq_refl) as (Hrefl & Hsym & _).
  split; [exact Hrefl | exact Hsym].
Defined.

(** X6: When the precondition check passes, both URLs are [file://] followed by
    the path it returns, the destination is absolute, and the native path a
    Task derives from a URL is the one planning derives from its path. *)
Theorem check_transfer_precnds_paths h src_url dst_url sp dp :
  _check_transfer_precnds h src_url dst_url = Return (sp, dp) ->
  src_url = (scheme ++ sp)%string /\
  dst_url = (scheme ++ dp)%string /\
  isabs h (_url_to_os_path h dp) = true /\
  as_human_readable h src_url = _url_to_os_path h sp /\
  as_human_readable h dst_url = _url_to_os_path h dp.
Proof.
  intros H. apply check_transfer_precnds_inv in H.
  destruct H as (Hs & Hd & Ha).
  apply splitscheme_app in Hs, Hd. subst. unfold _url_to_os_path. auto.
Qed.

Lemma check_transfer_precnds_paths_witness :
  as_human_readable example_host "file:///src/dir"
  = _url_to_os_path example_host "/src/dir".
Proof.
  apply (@check_transfer_precnds_paths example_host "file:///src/dir"
           "file:///dst/dir" "/src/dir" "/dst/dir" eq_refl).
Defined.

(** X7: [touch] announces a file exactly when its exclusive creation succeeded:
    never for a path that is not absolute, never for a file that was
    already there. *)
Theorem touch_notifies_exactly_on_creation h path n :
  In (Notify n) (trace_of (touch h path)) <->
  isabs h (_url_to_os_path h path) = true /\
  os_fails h (os_touch (_url_to_os_path h path) false) = None /\
  n = file_added path.
Proof.
  unfold touch, sys, notify_file_added, emit, bind.
  destruct (isabs h (_url_to_os_path h path)); cbn [negb].
  2:{ split; [intros [] | intros (H & _); discriminate H]. }
  destruct (os_fails h (os_touch (_url_to_os_path h path) false))
    as [oe|] eqn:Hf.
  - assert (Hno : ~ In (Notify n)
      (trace_of
         match ([Sys (os_touch (_url_to_os_path h path) false)],
                @Raise unit (OSError oe)) with
         | (tr, Return _) =>
             let (tr', r) := ([Notify (file_added path)], Return tt) in
             (tr ++ tr', r)
         | (tr, Raise FileExistsError) =>
             let (tr', r) :=
               ([Sys (os_touch (_url_to_os_path h path) true)],
                match os_fails h (os_touch (_url_to_os_path h path) true)
                with
                | Some e => Raise (OSError e)
                | None => Return tt
                end) in
             (tr ++ tr', r)
         | m => m
         end)).
    { destruct oe; cbn [trace_of fst app In]; intros H;
        repeat (destruct H as [H|H]; try discriminate H); exact H. }
    split; [intros H; now apply Hno in H | intros (_ & H & _); discriminate H].
  - cbn [trace_of fst app In]. split.
    + intros [H|[H|[]]]; [discriminate H|]. injection H as <-. auto.
    + intros (_ & _ & ->). right. now left.
Qed.

(** X8: [mkdir] on a path that exists raises FileExistsError, whatever error
    other than ENOENT the OS reports for the failed creation, and it
    announces nothing. *)
Theorem mkdir_of_existing_path h path s oe :
  isabs h (_url_to_os_path h path) = true ->
  os_stat h (_url_to_os_path h path) = inl s ->
  os_fails h (os_mkdir (_url_to_os_path h path)) = Some oe ->
  oe <> ENOENT ->
  mkdir h path
  = ([Sys (os_mkdir (_url_to_os_path h path))], Raise FileExistsError).
Proof.
  intros Ha Hs Hf Hne. unfold mkdir, sys, catch, bind, lift, Path_exists.
  rewrite Ha, Hf, Hs. cbn [negb].
  destruct oe; try contradiction; reflexivity.
Qed.

Lemma mkdir_of_existing_path_witness :
  mkdir readonly_host "/dst" = ([Sys (os_mkdir "/dst")], Raise FileExistsError).
Proof.
  apply (@mkdir_of_existing_path readonly_host "/dst" (a_dir 1) EACCES);
    [reflexivity | reflexivity | reflexivity | discriminate].
Defined.

(** ** Running plans *)

(** A run whose generator or whose Task raised does not reach what follows
    the [yield from]. *)
Lemma for_each_task_yield_from_raise {W : World} call r h k e :
  result_of (for_each_task call r h) = Raise e ->
  for_each_task call (yield_from false r h k) h = for_each_task call r h.
Proof.
  rewrite !for_each_task_drive, drive_yield_from. unfold result_of.
  destruct (drive call r h) as [[tr h'] en]. cbn [fst snd followed_by].
  destruct en; [discriminate | reflexivity | reflexivity].
Qed.

Lemma for_each_task_Forall {W : World} (P : event -> Prop) (Q : Task -> Prop)
  call r :
  yields_only Q r ->
  (forall h t, Q t -> Forall P (trace_of (call h t))) ->
  forall h, Forall P (trace_of (for_each_task call r h)).
Proof.
  intros Hr Hcall.
  induction Hr as [|e|t resume Ht _ IH]; intros h; cbn [for_each_task].
  - constructor.
  - constructor.
  - apply Forall_bind; [now apply Hcall | intros _; apply IH].
Qed.

Lemma yields_only_yield_from Q sw r :
  yields_only Q r ->
  forall h k,
    (forall h', yields_only Q (k h')) ->
    yields_only Q (yield_from sw r h k).
Proof.
  induction 1 as [|e|t resume Ht _ IH]; intros h k Hk; cbn [yield_from].
  - apply Hk.
  - destruct (sw && is_FileNotFoundError e); [apply Hk | constructor].
  - constructor; [exact Ht | intros h'; now apply IH].
Qed.

Lemma yields_only_for_each_child Q plan names :
  (forall name h, yields_only Q (plan name h)) ->
  forall h, yields_only Q (for_each_child_gen plan names h).
Proof.
  intros Hplan. induction names as [|n r IH]; intros h;
    cbn [for_each_child_gen]; [constructor|].
  apply yields_only_yield_from; [apply Hplan | exact IH].
Qed.

Lemma Forall_catch (P : event -> Prop) {A} (m : M A) handler :
  Forall P (trace_of m) ->
  (forall e m', handler e = Some m' -> Forall P (trace_of m')) ->
  Forall P (trace_of (catch m handler)).
Proof.
  unfold catch. destruct m as [tr [a|e]]; [auto|].
  intros Hm Hh. destruct (handler e) as [[tr' r]|] eqn:He; [|exact Hm].
  specialize (Hh e _ He). cbn [trace_of fst] in *. apply Forall_app.
  now split.
Qed.

Lemma mkdir_never_removes h path :
  Forall (fun ev => removes ev = false) (trace_of (mkdir h path)).
Proof.
  unfold mkdir.
  destruct (isabs h (_url_to_os_path h path)); cbn [negb]; [|constructor].
  apply Forall_bind; [|intros _; now repeat constructor].
  apply Forall_catch; [now apply Forall_sys|].
  intros e m' He.
  assert (Hq : forall e',
    Forall (fun ev => removes ev = false)
      (trace_of (bind (lift (Path_exists h (_url_to_os_path h path)))
                   (fun ex : bool =>
                      if ex then throw FileExistsError
                      else throw (A:=unit) e')))).
  { intros e'. apply Forall_bind; [constructor|]. intros []; constructor. }
  destruct e as [[]| | | |]; try discriminate He;
    injection He as <-; try apply Hq; constructor.
Qed.

Lemma CopyFile_never_removes h canceled src_url dst_url :
  Forall (fun ev => removes ev = false)
         (trace_of (CopyFile_call h canceled src_url dst_url)).
Proof.
  unfold CopyFile_call.
  apply Forall_bind; [constructor|]. intros dd.
  apply Forall_bind; [constructor|]. intros existed.
  apply Forall_bind.
  - destruct (islink h (as_human_readable h src_url)).
    + apply Forall_bind; [constructor|]. intros target. now apply Forall_sys.
    + apply Forall_bind; [now apply Forall_sys|]. intros _.
      apply Forall_bind; [now apply Forall_sys|]. intros _.
      apply copy_stream_Forall; reflexivity.
  - intros _. apply Forall_bind; [now apply Forall_sys|]. intros _.
    destruct existed; cbn [negb]; now repeat constructor.
Qed.

Lemma call_mkdir {W : World} h canceled fl t p :
  fn t = fn_mkdir p -> call h canceled fl t = mkdir h p.
Proof. intros H. destruct fl; cbn [call]; now rewrite H. Qed.

Lemma call_CopyFile {W : World} h canceled fl t s d :
  fn t = fn_CopyFile s d -> call h canceled fl t = CopyFile_call h canceled s d.
Proof. intros H. destruct fl; cbn [call]; now rewrite H. Qed.

(** The copy generator yields directory creations and file copies, nothing
    else, on whatever disks it is advanced. *)
Lemma prepare_copy_gen_task_kinds measure_size fuel :
  forall src_url dst_url h,
    yields_only (fun t => (exists p, fn t = fn_mkdir p) \/
                          (exists s d, fn t = fn_CopyFile s d))
      (_prepare_copy_gen fuel src_url dst_url measure_size h).
Proof.
  induction fuel as [|fuel IH]; intros src_url dst_url h;
    cbn [_prepare_copy_gen]; [constructor|].
  destruct (_check_transfer_precnds h src_url dst_url) as [[sp dp]|e];
    cbn [res_bind]; [|constructor].
  destruct (is_dir h sp) as [[|]|e]; cbn [res_bind]; [| |constructor].
  - constructor; [left; now eexists|]. intros h'.
    destruct (iterdir h' sp) as [names|e]; cbn [res_bind]; [|constructor].
    apply yields_only_for_each_child. intros name h''. apply IH.
  - destruct (if measure_size then size_bytes h sp else Return 0%Z);
      cbn [res_bind]; [|constructor].
    constructor; [right; now eexists _, _ | constructor].
Qed.

Lemma run_copy_plan_never_removes {W : World} h canceled fl measure_size fuel
  src_url dst_url :
  Forall (fun ev => removes ev = false)
    (trace_of (run_generator (fun h' => call h' canceled fl)
                 (_prepare_copy_gen fuel src_url dst_url measure_size) h)).
Proof.
  unfold run_generator.
  eapply for_each_task_Forall; [apply prepare_copy_gen_task_kinds|].
  intros h' t [[p H]|(s & d & H)].
  - rewrite (call_mkdir h' canceled fl t H). apply mkdir_never_removes.
  - rewrite (call_CopyFile h' canceled fl t H). apply CopyFile_never_removes.
Qed.

(** X9: Whatever the disk holds and whatever fails, [copy] never removes,
    renames or trashes an entry. *)
Theorem copy_never_removes {W : World} h canceled fuel src_url dst_url :
  Forall (fun ev => removes ev = false)
         (trace_of (copy h canceled fuel src_url dst_url)).
Proof.
  unfold copy. apply Forall_bind; [constructor|]. intros _.
  apply run_copy_plan_never_removes.
Qed.

(** The copy generator lists a directory after the creation Task of its
    copy has run. In [example_world] the copy of [/src] to [/src/copy] so
    finds [copy] among the children of [/src] and goes on to copy it into
    itself, until the recursion is cut off. *)
Example copy_into_its_own_subtree :
  In (Sys (os_mkdir "/src/copy/copy"))
     (trace_of (copy (W:=example_world) example_host (fun _ => false) 3
                  "file:///src" "file:///src/copy")) /\
  result_of (copy (W:=example_world) example_host (fun _ => false) 3
               "file:///src" "file:///src/copy")
  = Raise RecursionError /\
  fst (_prepare_copy example_host 3 "file:///src" "file:///src/copy" false)
  = [creating_task "file:///src/copy";
     creating_task "file:///src/copy/dir";
     CopyFile "file:///src/dir/a.txt" "file:///src/copy/dir/a.txt" 0;
     CopyFile "file:///src/link" "file:///src/copy/link" 0].
Proof.
  split; [|split; reflexivity].
  vm_compute. tauto.
Qed.

Lemma prepare_move_gen_unfolded
  h fuel measure_size src_url dst_url sp dp src_stat dst_dir_stat :
  _check_transfer_precnds h src_url dst_url = Return (sp, dp) ->
  stat h sp = Return src_stat ->
  stat h (path_of (dirname dst_url)) = Return dst_dir_stat ->
  _prepare_move_gen fuel src_url dst_url measure_size h
  = if Z.eqb (st_dev src_stat) (st_dev dst_dir_stat)
    then Yield (moving_task src_url dst_url) (fun _ => Done)
    else yield_from false
           (_prepare_copy_gen fuel src_url dst_url measure_size h) h
           (fun _ => Yield (postprocessing_task src_url sp) (fun _ => Done)).
Proof.
  intros Hcheck Hsrc Hdir.
  pose proof (check_transfer_precnds_inv _ _ _ Hcheck) as (Hs & Hd & Ha).
  unfold _prepare_move_gen. rewrite Hcheck. cbn [res_bind]. rewrite Hsrc.
  cbn [res_bind]. unfold path_of in Hdir.
  rewrite (splitscheme_dirname _ Hd) in Hdir |- *. cbn [res_bind snd].
  rewrite Hdir. reflexivity.
Qed.

(** X10: A move across devices whose copy part fails or is canceled stops
    there: it does exactly what [copy] did, so the source is never
    removed. *)
Theorem failed_copy_keeps_the_source {W : World}
  h canceled fuel src_url dst_url sp dp src_stat dst_dir_stat e :
  _check_transfer_precnds h src_url dst_url = Return (sp, dp) ->
  stat h sp = Return src_stat ->
  stat h (path_of (dirname dst_url)) = Return dst_dir_stat ->
  Z.eqb (st_dev src_stat) (st_dev dst_dir_stat) = false ->
  result_of (copy h canceled fuel src_url dst_url) = Raise e ->
  move h canceled fuel src_url dst_url = copy h canceled fuel src_url dst_url
  /\
  Forall (fun ev => removes ev = false)
         (trace_of (move h canceled fuel src_url dst_url)).
Proof.
  intros Hcheck Hsrc Hdir Hdev Hfail.
  assert (Heq : move h canceled fuel src_url dst_url
                = copy h canceled fuel src_url dst_url).
  { unfold move, copy in Hfail |- *. rewrite Hcheck in Hfail |- *.
    rewrite bind_lift in Hfail. rewrite !bind_lift.
    unfold run_generator in Hfail |- *.
    rewrite (prepare_move_gen_unfolded h fuel false _ _ Hcheck Hsrc Hdir),
      Hdev.
    now apply for_each_task_yield_from_raise with (e := e). }
  split; [exact Heq|]. rewrite Heq. unfold copy.
  apply Forall_bind; [constructor|]. intros _.
  apply run_copy_plan_never_removes.
Qed.

Lemma failed_copy_keeps_the_source_witness :
  move (W:=example_world) readonly_host (fun _ => false) 5
    "file:///src/dir" "file:///mnt/dir"
  = ([Sys (os_mkdir "/mnt/dir")], Raise (OSError EACCES)).
Proof.
  destruct (@failed_copy_keeps_the_source example_world readonly_host
              (fun _ => false) 5
              "file:///src/dir" "file:///mnt/dir" "/src/dir" "/mnt/dir"
              (a_dir 1) (a_dir 2) (OSError EACCES)
              eq_refl eq_refl eq_refl eq_refl eq_refl) as [Heq _].
  rewrite Heq. reflexivity.
Defined.

(** X11: On one device [move] is a single rename of the native path; the two
    notifications follow only if the OS accepted it, and an OS error is
    raised as it is with nothing announced. *)
Theorem move_on_one_device {W : World}
  h canceled fuel src_url dst_url sp dp src_stat dst_dir_stat :
  _check_transfer_precnds h src_url dst_url = Return (sp, dp) ->
  stat h sp = Return src_stat ->
  stat h (path_of (dirname dst_url)) = Return dst_dir_stat ->
  st_dev src_stat = st_dev dst_dir_stat ->
  move h canceled fuel src_url dst_url
  = match os_fails h (os_replace (_url_to_os_path h sp)
                        (_url_to_os_path h dp)) with
    | None =>
        ([Sys (os_replace (_url_to_os_path h sp) (_url_to_os_path h dp));
          Notify (file_removed sp); Notify (file_added dp)], Return tt)
    | Some e =>
        ([Sys (os_replace (_url_to_os_path h sp) (_url_to_os_path h dp))],
         Raise (OSError e))
    end.
Proof.
  intros Hcheck Hsrc Hdir Hdev.
  pose proof (check_transfer_precnds_inv _ _ _ Hcheck) as (Hs & Hd & Ha).
  unfold move. rewrite Hcheck, bind_lift. unfold run_generator.
  rewrite (prepare_move_gen_unfolded h fuel false _ _ Hcheck Hsrc Hdir).
  rewrite Hdev, Z.eqb_refl. cbn [for_each_task].
  destruct fuel; cbn [call fn moving_task]; unfold _rename;
    rewrite Hs, Hd; cbn [lift bind snd]; unfold sys;
    destruct (os_fails h (os_replace (_url_to_os_path h sp)
                            (_url_to_os_path h dp))); reflexivity.
Qed.

Lemma move_on_one_device_witness :
  move (W:=example_world) example_host (fun _ => false) 5
    "file:///src/dir" "file:///dst/dir"
  = ([Sys (os_replace "/src/dir" "/dst/dir");
      Notify (file_removed "/src/dir"); Notify (file_added "/dst/dir")],
     Return tt).
Proof.
  apply (@move_on_one_device example_world example_host (fun _ => false) 5
           "file:///src/dir" "file:///dst/dir" "/src/dir" "/dst/dir"
           (a_dir 1) (a_dir 1) eq_refl eq_refl eq_refl eq_refl).
Defined.

(** X12: A source that does not exist is not skipped: [copy], [move] and
    [delete] raise FileNotFoundError before doing anything, and the plans
    raise it when first advanced, before any Task. *)
Theorem missing_source_is_reported {W : World}
  h canceled fuel src_url dst_url sp dp :
  _check_transfer_precnds h src_url dst_url = Return (sp, dp) ->
  stat h sp = Raise FileNotFoundError ->
  copy h canceled (S fuel) src_url dst_url = ([], Raise FileNotFoundError) /\
  move h canceled fuel src_url dst_url = ([], Raise FileNotFoundError) /\
  delete h canceled (S fuel) sp = ([], Raise FileNotFoundError) /\
  prepare_copy h (S fuel) src_url dst_url
  = Return ([], Some FileNotFoundError) /\
  prepare_move h fuel src_url dst_url = Return ([], Some FileNotFoundError) /\
  prepare_delete h (S fuel) sp = Return ([], Some FileNotFoundError).
Proof.
  intros Hcheck Hstat.
  assert (Hdir : is_dir h sp = Raise FileNotFoundError).
  { unfold is_dir. now rewrite Hstat. }
  unfold copy, move, delete, run_generator, prepare_copy, prepare_move,
    prepare_delete, call_generator, _prepare_move, _prepare_move_gen.
  cbn [_prepare_copy prepare_delete_body _prepare_copy_gen prepare_delete_gen].
  rewrite Hcheck. cbn [gen_bind res_bind obind]. rewrite !bind_lift.
  rewrite Hdir, Hstat. repeat split.
Qed.

Lemma missing_source_is_reported_witness :
  copy (W:=example_world) example_host (fun _ => false) 5
    "file:///src/none" "file:///dst/none"
  = ([], Raise FileNotFoundError).
Proof.
  apply (@missing_source_is_reported example_world example_host
           (fun _ => false) 4
           "file:///src/none" "file:///dst/none" "/src/none" "/dst/none"
           eq_refl eq_refl).
Defined.

(** X13: Only FileNotFoundError is skipped. When planning a child raises another
    error, the directory's delete plan ends with that error after what was
    yielded so far: the children listed later are not planned and the
    directory's own removal Task is never yielded. *)
Theorem other_errors_end_the_delete_plan
  h fuel path before child after e :
  is_dir h path = Return true ->
  iterdir h path = Return (before ++ child :: after) ->
  snd (for_each_child
         (fun name => prepare_delete_body h fuel (path ++ "/" ++ name))
         before) = None ->
  snd (prepare_delete_body h fuel (path ++ "/" ++ child)) = Some e ->
  is_FileNotFoundError e = false ->
  prepare_delete_body h (S fuel) path
  = (fst (for_each_child
            (fun name => prepare_delete_body h fuel (path ++ "/" ++ name))
            before)
     ++ fst (prepare_delete_body h fuel (path ++ "/" ++ child)),
     Some e).
Proof.
  intros Hdir Hls Hbefore Hchild Hother.
  cbn [prepare_delete_body]. rewrite Hdir, Hls. cbn [gen_bind].
  rewrite for_each_child_app. cbn [for_each_child].
  unfold gen_seq, gen_except_FileNotFoundError.
  rewrite Hbefore, Hchild, Hother. cbn [fst snd].
  repeat (rewrite ?Hchild; cbn [fst snd]). reflexivity.
Qed.

Lemma other_errors_end_the_delete_plan_witness :
  prepare_delete_body denied_host 5 "/src"
  = ([deleting_task "/src/a.txt" remove], Some (OSError EACCES)).
Proof.
  apply (@other_errors_end_the_delete_plan denied_host 4 "/src"
           ["a.txt"] "secret" ["z.txt"] (OSError EACCES));
    reflexivity.
Defined.

(** X14: [move_to_trash] of an absolute path is one call of the trash mechanism
    on the native path, whether the entry is a file or a directory and
    without looking at it; removed(path) is announced only if the call
    succeeded. *)
Theorem move_to_trash_is_one_call {W : World} h canceled path :
  isabs h (_url_to_os_path h path) = true ->
  prepare_trash_body h path
  = ([{| title := "Deleting " ++ rsplit_last path; size := 1;
         fn := fn_do_trash path (_url_to_os_path h path) |}], None) /\
  move_to_trash h canceled path
  = match os_fails h (os_move_to_trash (_url_to_os_path h path)) with
    | None => ([Sys (os_move_to_trash (_url_to_os_path h path));
                Notify (file_removed path)], Return tt)
    | Some e => ([Sys (os_move_to_trash (_url_to_os_path h path))],
                 Raise (OSError e))
    end.
Proof.
  intros Ha.
  unfold move_to_trash, run_generator, prepare_trash_body, prepare_trash_gen.
  rewrite Ha. split; [reflexivity|].
  cbn [negb for_each_task call fn].
  unfold _do_trash, sys, notify_file_removed, emit, ret, bind.
  destruct (os_fails h (os_move_to_trash (_url_to_os_path h path)));
    reflexivity.
Qed.

Lemma move_to_trash_is_one_call_witness :
  move_to_trash (W:=example_world) example_host (fun _ => false) "/src"
  = ([Sys (os_move_to_trash "/src"); Notify (file_removed "/src")],
     Return tt).
Proof.
  apply (@move_to_trash_is_one_call example_world example_host
           (fun _ => false) "/src" eq_refl).
Defined.

(** ** Deleting a subtree *)

(** X15: Whatever the OS refuses, [delete] goes through the post-order
    removals of the subtree as it sees it (each entry looked at on the disk
    the removals before it have left), each removal followed by its
    notification, and stops at the first call that fails: that error is
    raised, the failed entry is not announced as removed, and nothing after
    it is touched. *)
Theorem delete_stops_at_first_refusal {W : World} h canceled fuel path e :
  seen_while_deleting h path e ->
  e <> Vanished ->
  depth e <= fuel ->
  runs_prefix_of h (delete_trace path e) (delete h canceled fuel path).
Proof. apply delete_runs_prefix. Qed.

Lemma delete_stops_at_first_refusal_witness :
  runs_prefix_of (W:=example_world) locked_host
    (delete_trace "/src" example_tree_while_deleting)
    (delete (W:=example_world) locked_host (fun _ => false) 5 "/src") /\
  delete (W:=example_world) locked_host (fun _ => false) 5 "/src"
  = ([Sys (os_remove "/src/dir/a.txt")], Raise (OSError EACCES)) /\
  runs_prefix_of (W:=example_world) example_host
    (delete_trace "/src" example_tree_while_deleting)
    (delete (W:=example_world) example_host (fun _ => false) 5 "/src") /\
  delete (W:=example_world) example_host (fun _ => false) 5 "/src"
  = ([Sys (os_remove "/src/dir/a.txt");
      Notify (file_removed "/src/dir/a.txt");
      Sys (os_rmdir "/src/dir"); Notify (file_removed "/src/dir");
      Sys (os_rmdir "/src")],
     Raise (OSError ENOTEMPTY)).
Proof.
  split; [|split; [reflexivity|split; [|reflexivity]]].
  - apply (@delete_stops_at_first_refusal example_world locked_host
             (fun _ => false) 5 "/src" example_tree_while_deleting).
    + cbn. repeat split.
    + discriminate.
    + cbn. lia.
  - apply (@delete_stops_at_first_refusal example_world example_host
             (fun _ => false) 5 "/src" example_tree_while_deleting).
    + cbn. repeat split.
    + discriminate.
    + cbn. lia.
Defined.

Lemma count_entries_Dir st kids :
  count_entries (Dir st kids) = S (count_entries_of_kids kids).
Proof.
  cbn [count_entries]. f_equal. unfold count_entries_of_kids.
  induction kids as [|[n k] r IH]; [reflexivity|].
  cbn [map list_sum fst snd]. now rewrite IH.
Qed.

Lemma delete_tasks_count e :
  forall path,
    length (delete_tasks path e) = count_entries e /\
    Forall (fun t => size t = 1%Z) (delete_tasks path e).
Proof.
  induction e as [st| |st kids IH] using entry_induction; intros path.
  - split; [reflexivity | now repeat constructor].
  - split; [reflexivity | constructor].
  - rewrite delete_tasks_Dir, count_entries_Dir, length_app.
    assert (Hkids :
      length (delete_tasks_of_kids path kids) = count_entries_of_kids kids /\
      Forall (fun t => size t = 1%Z) (delete_tasks_of_kids path kids)).
    { unfold delete_tasks_of_kids, count_entries_of_kids.
      induction IH as [|[n k] r IHk _ IHr]; [split; [reflexivity|constructor]|].
      cbn [flat_map map list_sum fst snd] in *.
      destruct (IHk (path ++ "/" ++ n)%string) as [Hl Hs].
      destruct IHr as [Hl' Hs'].
      rewrite length_app, Hl, Hl'. split; [reflexivity|].
      apply Forall_app. now split. }
    destruct Hkids as [Hl Hs]. rewrite Hl. cbn [length]. split; [lia|].
    apply Forall_app. split; [exact Hs | now repeat constructor].
Qed.

Lemma delete_tasks_segment root names e :
  child_at root names e ->
  forall path,
  exists before after,
    delete_tasks path root
    = before ++ delete_tasks (descend path names) e ++ after.
Proof.
  induction 1 as [e|st kids n k names e Hin _ IH]; intros path.
  - exists [], []. cbn [descend fold_left app]. now rewrite app_nil_r.
  - rewrite delete_tasks_Dir. unfold delete_tasks_of_kids.
    destruct (in_split _ _ Hin) as (l1 & l2 & ->).
    rewrite flat_map_app. cbn [flat_map fst snd].
    destruct (IH (path ++ "/" ++ n)%string) as (b & a & ->).
    set (tasks_of := fun nk : string * entry =>
           delete_tasks (path ++ "/" ++ fst nk) (snd nk)).
    exists (flat_map tasks_of l1 ++ b),
           (a ++ flat_map tasks_of l2 ++ [deleting_task path rmdir]).
    rewrite descend_cons. now rewrite <- !app_assoc.
Qed.

(** X16: The delete plan of a snapshot has one Task of size 1 per file and
    directory, and is in post-order: the Tasks of a directory's children
    come first, immediately followed by the Task that removes the directory
    itself. *)
Theorem delete_plan_is_post_order h fuel path e :
  observes h path e ->
  depth e <= fuel ->
  fst (prepare_delete_body h fuel path) = delete_tasks path e /\
  length (fst (prepare_delete_body h fuel path)) = count_entries e /\
  Forall (fun t => size t = 1%Z) (fst (prepare_delete_body h fuel path)) /\
  forall names st kids,
    child_at e names (Dir st kids) ->
    exists before after,
      fst (prepare_delete_body h fuel path)
      = before
        ++ delete_tasks_of_kids (descend path names) kids
        ++ deleting_task (descend path names) rmdir :: after.
Proof.
  intros Hobs Hfuel.
  rewrite (@prepare_delete_observed h e fuel path Hobs Hfuel). cbn [fst].
  destruct (delete_tasks_count e path) as [Hl Hs].
  repeat split; try assumption.
  intros names st kids Hchild.
  destruct (delete_tasks_segment Hchild path) as (before & after & ->).
  exists before, after. rewrite delete_tasks_Dir.
  now rewrite <- !app_assoc.
Qed.

Lemma delete_plan_is_post_order_witness :
  fst (prepare_delete_body example_host 5 "/src")
  = [deleting_task "/src/dir/a.txt" remove; deleting_task "/src/dir" rmdir;
     deleting_task "/src/link" remove; deleting_task "/src" rmdir] /\
  length (fst (prepare_delete_body example_host 5 "/src")) = 4.
Proof.
  destruct (@delete_plan_is_post_order example_host 5 "/src" example_tree)
    as (Hplan & Hcount & _).
  - cbn. repeat split.
  - cbn. lia.
  - split; [exact Hplan | exact Hcount].
Defined.

(** ** Sizes of copy plans *)

Lemma total_size_app ts1 ts2 :
  total_size (ts1 ++ ts2) = (total_size ts1 + total_size ts2)%Z.
Proof.
  induction ts1 as [|t r IH]; cbn [total_size fold_right app]; [reflexivity|].
  fold (total_size (r ++ ts2)). fold (total_size r). rewrite IH. lia.
Qed.

Lemma total_bytes_Dir st kids :
  total_bytes (Dir st kids) = total_bytes_of_kids kids.
Proof.
  cbn [total_bytes]. unfold total_bytes_of_kids.
  induction kids as [|[n k] r IH]; [reflexivity|].
  cbn [fold_right snd]. now rewrite IH.
Qed.

Lemma copy_tasks_sizes e :
  forall src_url dst_url,
    total_size (copy_tasks true src_url dst_url e) = total_bytes e /\
    Forall (fun t => size t = 0%Z) (copy_tasks false src_url dst_url e).
Proof.
  induction e as [st| |st kids IH] using entry_induction;
    intros src_url dst_url.
  - split; [cbn; lia | now repeat constructor].
  - split; [reflexivity | constructor].
  - rewrite !copy_tasks_Dir, total_bytes_Dir.
    assert (Hkids :
      total_size (copy_tasks_of_kids true src_url dst_url kids)
      = total_bytes_of_kids kids /\
      Forall (fun t => size t = 0%Z)
             (copy_tasks_of_kids false src_url dst_url kids)).
    { unfold copy_tasks_of_kids, total_bytes_of_kids.
      induction IH as [|[n k] r IHk _ IHr]; [split; [reflexivity|constructor]|].
      cbn [flat_map fold_right fst snd] in *.
      destruct (IHk (join src_url n) (join dst_url n)) as [Hb Hz].
      destruct IHr as [Hb' Hz'].
      rewrite total_size_app, Hb, Hb'. split; [reflexivity|].
      apply Forall_app. now split. }
    destruct Hkids as [Hb Hz]. split.
    + cbn [total_size fold_right creating_task size].
      fold (total_size (copy_tasks_of_kids true src_url dst_url kids)).
      rewrite Hb. lia.
    + constructor; [reflexivity | exact Hz].
Qed.

(** X17: The plan [prepare_copy] returns for a snapshot adds up to the bytes of
    the snapshot's files, directories counting for nothing; the plan [copy]
    runs, which does not measure, has size 0 in every Task. *)
Theorem prepare_copy_measures_the_snapshot h fuel src_url dst_url sp dp e :
  isabs_below h ->
  _check_transfer_precnds h src_url dst_url = Return (sp, dp) ->
  observes h sp e ->
  depth e <= fuel ->
  prepare_copy h fuel src_url dst_url
  = Return (copy_tasks true src_url dst_url e, ended e) /\
  total_size (copy_tasks true src_url dst_url e) = total_bytes e /\
  Forall (fun t => size t = 0%Z)
         (fst (_prepare_copy h fuel src_url dst_url false)).
Proof.
  intros Hbelow Hcheck Hobs Hfuel.
  pose proof (check_transfer_precnds_inv _ _ _ Hcheck) as (Hs & Hd & Ha).
  destruct (copy_tasks_sizes e src_url dst_url) as [Hb Hz].
  unfold prepare_copy. rewrite Hcheck. cbn [obind].
  rewrite (@prepare_copy_observed h Hbelow true e fuel src_url dst_url sp dp
             Hs Hd Ha Hobs Hfuel).
  rewrite (@prepare_copy_observed h Hbelow false e fuel src_url dst_url sp dp
             Hs Hd Ha Hobs Hfuel).
  auto.
Qed.

Lemma prepare_copy_measures_the_snapshot_witness :
  total_size (copy_tasks true "file:///src" "file:///dst/copy" example_tree)
  = 20%Z.
Proof.
  destruct (@prepare_copy_measures_the_snapshot example_host 5
              "file:///src" "file:///dst/copy" "/src" "/dst/copy"
              example_tree) as (_ & Hsize & _).
  - apply posix_isabs_below.
  - reflexivity.
  - cbn. repeat split.
  - cbn. lia.
  - rewrite Hsize. reflexivity.
Defined.

Lemma for_each_child_unsized plan1 plan2 names :
  (forall name,
     map unsized (fst (plan1 name)) = map unsized (fst (plan2 name)) /\
     snd (plan1 name) = snd (plan2 name)) ->
  map unsized (fst (for_each_child plan1 names))
  = map unsized (fst (for_each_child plan2 names)) /\
  snd (for_each_child plan1 names) = snd (for_each_child plan2 names).
Proof.
  intros H. induction names as [|n r [IHt IHe]]; [now split|].
  cbn [for_each_child]. destruct (H n) as [Ht He].
  destruct (plan1 n) as [t1 e1], (plan2 n) as [t2 e2].
  cbn [fst snd] in Ht, He. subst e1.
  unfold gen_seq, gen_except_FileNotFoundError. cbn [fst snd].
  destruct e2 as [e|]; [destruct (is_FileNotFoundError e)|]; cbn [fst snd];
    rewrite ?map_app, ?Ht, ?IHt, ?IHe; now split.
Qed.

(** X18: On every disk, measuring changes nothing but the sizes: with and
    without [measure_size] a copy plan has the same Tasks, title by title
    and call by call, and ends in the same way. *)
Theorem measure_size_changes_only_sizes h fuel :
  forall src_url dst_url,
    map unsized (fst (_prepare_copy h fuel src_url dst_url true))
    = map unsized (fst (_prepare_copy h fuel src_url dst_url false)) /\
    snd (_prepare_copy h fuel src_url dst_url true)
    = snd (_prepare_copy h fuel src_url dst_url false).
Proof.
  induction fuel as [|fuel IH]; intros src_url dst_url; cbn [_prepare_copy];
    [now split|].
  destruct (_check_transfer_precnds h src_url dst_url) as [[sp dp]|e];
    cbn [gen_bind]; [|now split].
  unfold is_dir, size_bytes.
  destruct (stat h sp) as [st|e]; cbn [obind gen_bind]; [|now split].
  destruct (S_ISDIR (st_mode st)); [|now split].
  cbn [gen_yield fst snd map].
  destruct (iterdir h sp) as [names|e]; cbn [gen_bind]; [|now split].
  destruct (for_each_child_unsized
              (fun name => _prepare_copy h fuel (join src_url name)
                             (join dst_url name) true)
              (fun name => _prepare_copy h fuel (join src_url name)
                             (join dst_url name) false)
              names (fun name => IH (join src_url name) (join dst_url name)))
    as [Ht He].
  rewrite Ht, He. now split.
Qed.

(** ** Titles *)

Lemma rsplit_last_from_no_slash s :
  no_slash s = true -> forall acc, rsplit_last_from acc s = (acc ++ s)%string.
Proof.
  induction s as [|c r IH]; cbn [no_slash rsplit_last_from]; intros H acc.
  - clear H. induction acc as [|a acc IHa]; [reflexivity|].
    cbn [append]. now rewrite <- IHa.
  - apply andb_true_iff in H. destruct H as [Hc Hr].
    apply negb_true_iff in Hc. rewrite Hc, (IH Hr).
    clear. induction acc as [|a acc IHa]; [reflexivity|].
    cbn [append]. now rewrite IHa.
Qed.

Lemma rsplit_last_from_child path name :
  no_slash name = true ->
  forall acc, rsplit_last_from acc (path ++ "/" ++ name)%string = name.
Proof.
  intros H. induction path as [|c r IH]; intros acc.
  - exact (rsplit_last_from_no_slash name H "").
  - cbn [append rsplit_last_from]. destruct (Ascii.eqb c "/"); apply IH.
Qed.

Lemma rsplit_last_child path name :
  no_slash name = true -> rsplit_last (path ++ "/" ++ name)%string = name.
Proof. intros H. now apply rsplit_last_from_child. Qed.

Lemma prepare_delete_titles h fuel :
  forall path,
    Forall (fun t => exists p f, fn t = fn_do_delete p f /\
                                 title t = ("Deleting " ++ rsplit_last p)%string)
           (fst (prepare_delete_body h fuel path)).
Proof.
  induction fuel as [|fuel IH]; intros path; cbn [prepare_delete_body];
    [constructor|].
  destruct (is_dir h path) as [[|]|e]; cbn [gen_bind]; [| |constructor].
  - destruct (iterdir h path) as [names|e]; cbn [gen_bind]; [|constructor].
    unfold gen_seq.
    assert (Kids := @for_each_child_Forall
      (fun t => exists p f, fn t = fn_do_delete p f /\
                            title t = ("Deleting " ++ rsplit_last p)%string)
      (fun name => prepare_delete_body h fuel (path ++ "/" ++ name)) names
      (fun name _ => IH (path ++ "/" ++ name)%string)).
    destruct (snd (for_each_child _ names)); [exact Kids|].
    cbn [fst gen_yield gen_done]. apply Forall_app. split; [exact Kids|].
    constructor; [|constructor]. now eexists _, _.
  - cbn [gen_yield gen_done fst]. constructor; [|constructor].
    now eexists _, _.
Qed.

(** X19: The Tasks that delete or trash [path/name] are titled with the entry's
    own name, [Deleting name], not with its path. *)
Theorem deleting_titles_name_the_entry h fuel root path name :
  no_slash name = true ->
  (forall t f,
     In t (fst (prepare_delete_body h fuel root)) ->
     fn t = fn_do_delete (path ++ "/" ++ name) f ->
     title t = ("Deleting " ++ name)%string) /\
  (forall t,
     In t (fst (prepare_trash_body h (path ++ "/" ++ name))) ->
     title t = ("Deleting " ++ name)%string).
Proof.
  intros Hname. split.
  - intros t f Hin Hfn.
    pose proof (prepare_delete_titles h fuel root) as Hall.
    rewrite Forall_forall in Hall.
    destruct (Hall t Hin) as (p & f' & Hfn' & Ht).
    assert (Hp : p = (path ++ "/" ++ name)%string) by congruence.
    now rewrite Ht, Hp, rsplit_last_child.
  - unfold prepare_trash_body.
    destruct (isabs h (_url_to_os_path h (path ++ "/" ++ name)));
      cbn [negb gen_yield gen_done gen_raise fst]; [|intros t []].
    intros t [<-|[]]. cbn [title]. now rewrite rsplit_last_child.
Qed.

Lemma deleting_titles_name_the_entry_witness :
  Forall (fun t => title t = "Deleting a.txt")
         (fst (prepare_trash_body example_host "/src/dir/a.txt")).
Proof.
  apply Forall_forall.
  apply (@deleting_titles_name_the_entry example_host 5 "/src" "/src/dir"
           "a.txt" eq_refl).
Defined.

(** ** resolve *)

Lemma from_third_unc server : from_third ("\\" ++ server)%string = server.
Proof. reflexivity. Qed.

(** X20: On Windows the path of a bare UNC server, two backslashes and a name
    without backslash, is not resolved on disk: [resolve] answers the URL
    [network://] followed by the server's name. *)
Theorem resolve_defers_unc_servers h lib path server :
  PLATFORM lib = Windows ->
  _url_to_os_path h path = ("\\" ++ server)%string ->
  contains_backslash server = false ->
  isabs h (_url_to_os_path h path) = true ->
  resolve h lib path = Return ("network://" ++ server)%string /\
  splitscheme ("network://" ++ server)%string = Return ("network://", server).
Proof.
  intros Hwin Hpath Hserver Ha. split; [|reflexivity].
  unfold resolve, is_unc_server. rewrite Ha, Hwin, Hpath.
  cbn [negb]. rewrite from_third_unc, Hserver. reflexivity.
Qed.

Lemma resolve_defers_unc_servers_witness :
  resolve unc_host (blind_lib Windows) "//fileserver"
  = Return "network://fileserver".
Proof.
  apply (@resolve_defers_unc_servers unc_host (blind_lib Windows)
           "//fileserver" "fileserver" eq_refl eq_refl eq_refl eq_refl).
Defined.

(** X21: For a path that [exists] reports as existing, [resolve] never raises
    FileNotFoundError, not even when [Path.resolve] itself does: it then
    answers the URL of the unresolved path. *)
Theorem resolve_of_existing_path h lib path :
  exists_ h path = Return true ->
  resolve h lib path <> Raise FileNotFoundError /\
  (Path_resolve lib (_url_to_os_path h path) = inr ENOENT ->
   match PLATFORM lib with
   | Windows => is_unc_server (_url_to_os_path h path)
   | _ => false
   end = false ->
   resolve h lib path = Return (as_url lib (_url_to_os_path h path))).
Proof.
  unfold exists_, resolve.
  destruct (isabs h (_url_to_os_path h path)); [|discriminate].
  intros Hex. cbn [negb]. split.
  - destruct (match PLATFORM lib with
              | Windows => is_unc_server (_url_to_os_path h path)
              | _ => false
              end); [discriminate|].
    destruct (Path_resolve lib (_url_to_os_path h path)) as [r|[]];
      try discriminate.
    rewrite Hex. discriminate.
  - intros Hres Hunc. rewrite Hunc, Hres, Hex. reflexivity.
Qed.

Lemma resolve_of_existing_path_witness :
  resolve example_host (blind_lib Linux) "/src/dir"
  = Return "file:///src/dir".
Proof.
  apply (@resolve_of_existing_path example_host (blind_lib Linux) "/src/dir"
           eq_refl); reflexivity.
Defined.
